(** * The facility-overlay pipeline of [app.py]

    A shallow embedding of the two functions of [src/app.py] that carry the
    facility overlay, [load_facility_data] and
    [inject_facility_markers_into_html], together with the parts of Python
    and pandas they rely on, and the properties of the specification proved
    (or refuted) on them.
    The rest of the script is embedded after them: the file names of a
    selection, the display of the map, the metric column of the data table
    and the password gate.

    Conventions.
    - A Python [str] is a list of characters; a character is a code point
      below 256 (Rocq's [ascii]).  Documents with other code points are
      outside the model.
    - A cell of a data frame is a Python value: [None], a [bool], an [int],
      a [float] (IEEE-754 binary64, as [spec_float]) or a [str].
    - A raised exception is the [Raise] result of the [result] type. *)

From Stdlib Require Import ZArith QArith Qpower Ascii List Bool Lia.
From Stdlib Require Import Floats.SpecFloat.
From Stdlib Require Import Numbers.DecimalString Numbers.DecimalZ
  Numbers.DecimalPos.
From stdpp Require Import base list strings.

Local Open Scope Z_scope.

(** ** Python strings *)

Module Py.

Definition str := list ascii.

(** A string literal of the source. *)
Definition lit (s : string) : str := String.list_ascii_of_string s.

Definition dquote : ascii := "034"%char.
Definition newline : ascii := "010"%char.
Definition backslash : ascii := "092"%char.

(** [s.startswith(p)] *)
Fixpoint startswith (p s : str) : bool :=
  match p, s with
  | [], _ => true
  | _ :: _, [] => false
  | a :: p', b :: s' => Ascii.eqb a b && startswith p' s'
  end.

(** [s.endswith(p)] *)
Definition endswith (p s : str) : bool :=
  startswith (rev p) (rev s).

(** [sub in s] *)
Fixpoint contains (sub s : str) : bool :=
  startswith sub s ||
  match s with
  | [] => false
  | _ :: s' => contains sub s'
  end.

(** [s.find(sub)]: the index of the first occurrence. *)
Fixpoint find (sub s : str) : option nat :=
  if startswith sub s then Some 0%nat
  else match s with
       | [] => None
       | _ :: s' => S <$> find sub s'
       end.

(** [s.replace(old, new)] for a non-empty [old]: occurrences are found from
    left to right and do not overlap.  [skip] counts the characters of a
    match still to be dropped. *)
Fixpoint replace_from (old new : str) (skip : nat) (s : str) : str :=
  match s with
  | [] => []
  | c :: s' =>
      match skip with
      | S k => replace_from old new k s'
      | O =>
          if startswith old s
          then new ++ replace_from old new (length old - 1) s'
          else c :: replace_from old new 0 s'
      end
  end.

Definition replace (old new s : str) : str := replace_from old new 0 s.

(** [sep.join(parts)] *)
Fixpoint join (sep : str) (parts : list str) : str :=
  match parts with
  | [] => []
  | [p] => p
  | p :: ps => p ++ sep ++ join sep ps
  end.

(** [c.lower()] on a code point below 256: A-Z and the Latin-1 capitals
    (0xC0-0xDE without the multiplication sign 0xD7) move up by 32. *)
Definition lower_char (c : ascii) : ascii :=
  let n := nat_of_ascii c in
  if ((65 <=? n) && (n <=? 90))%nat then ascii_of_nat (n + 32)
  else if ((192 <=? n) && (n <=? 222) && negb (n =? 215))%nat
       then ascii_of_nat (n + 32)
  else c.

(** [s.lower()] *)
Definition lower (s : str) : str := map lower_char s.

(** [c.isspace()] on a code point below 256. *)
Definition isspace (c : ascii) : bool :=
  let n := nat_of_ascii c in
  (((9 <=? n) && (n <=? 13)) || ((28 <=? n) && (n <=? 32))
   || (n =? 133) || (n =? 160))%nat.

Fixpoint lstrip (s : str) : str :=
  match s with
  | [] => []
  | c :: s' => if isspace c then lstrip s' else s
  end.

(** [s.strip()] *)
Definition strip (s : str) : str := rev (lstrip (rev (lstrip s))).

(** [str(n)] for an [int]. *)
Definition str_of_int (n : Z) : str :=
  lit (NilZero.string_of_int (Z.to_int n)).

End Py.

(** ** Python floats

    A [float] is an IEEE-754 binary64 number.  Comparisons with the integer
    constants of the source are exact, as Python's are; [repr] and the
    [.4f] format are the correctly rounded conversions of CPython. *)

Module PyFloat.

Import Py.

Definition float := spec_float.

Definition prec : Z := 53.
Definition emax : Z := 1024.

(** The binary64 number nearest to [m * 2^e] (ties to even). *)
Definition of_scaled (m e : Z) (neg : bool) : float :=
  binary_normalize prec emax m e neg.

(** [float(n)] for an [int]; the result is infinite when [n] is out of
    range, where Python raises [OverflowError]. *)
Definition of_int (n : Z) : float := of_scaled n 0 false.

(** The canonical form of a float. *)
Definition canon (f : float) : float :=
  match f with
  | S754_finite s m e => of_scaled (cond_Zopp s (Z.pos m)) e s
  | _ => f
  end.

(** [f ? n] for a float [f] and an int [n]; [None] when [f] is a NaN. *)
Definition cmp_int (f : float) (n : Z) : option comparison :=
  match f with
  | S754_nan => None
  | S754_infinity s => Some (if s then Lt else Gt)
  | S754_zero _ => Some (0 ?= n)
  | S754_finite s m e =>
      let v := cond_Zopp s (Z.pos m) in
      Some (if 0 <=? e then v * 2 ^ e ?= n else v ?= n * 2 ^ (- e))
  end.

Definition eq_int (f : float) (n : Z) : bool :=
  match cmp_int f n with Some Eq => true | _ => false end.

Definition le_int (f : float) (n : Z) : bool :=
  match cmp_int f n with Some Lt | Some Eq => true | _ => false end.

Definition ge_int (f : float) (n : Z) : bool :=
  match cmp_int f n with Some Gt | Some Eq => true | _ => false end.

Definition isnan (f : float) : bool :=
  match f with S754_nan => true | _ => false end.

(** [int(f)]: truncation towards zero; [None] where Python raises
    ([OverflowError] on an infinity, [ValueError] on a NaN). *)
Definition to_int (f : float) : option Z :=
  match f with
  | S754_nan | S754_infinity _ => None
  | S754_zero _ => Some 0
  | S754_finite s m e =>
      Some (cond_Zopp s (if 0 <=? e then Z.pos m * 2 ^ e
                          else Z.pos m / 2 ^ (- e)))
  end.

(** [a * 2^x ? b * 10^k], exactly. *)
Definition cmp_bin_dec (a x b k : Z) : comparison :=
  a * 2 ^ Z.max x 0 * 10 ^ Z.max (- k) 0
  ?= b * 10 ^ Z.max k 0 * 2 ^ Z.max (- x) 0.

(** The integer part of [a * 2^x / 10^k]. *)
Definition floor_bin_dec (a x k : Z) : Z :=
  (a * 2 ^ Z.max x 0 * 10 ^ Z.max (- k) 0)
  / (10 ^ Z.max k 0 * 2 ^ Z.max (- x) 0).

(** Does the decimal [d * 10^k] read back as the canonical float
    [m * 2^e]?  It does when it lies between the midpoints to the two
    neighbours of the float, the midpoints included when [m] is even. *)
Definition reads_back (m e d k : Z) : bool :=
  let low := if (m =? 2 ^ 52) && (-1074 <? e) then 4 * m - 1 else 4 * m - 2 in
  let high := 4 * m + 2 in
  match cmp_bin_dec low (e - 2) d k, cmp_bin_dec high (e - 2) d k with
  | Lt, Gt => true
  | Eq, Gt | Lt, Eq => Z.even m
  | _, _ => false
  end.

(** The shortest decimal [d * 10^k] that reads back as [m * 2^e], and the
    nearest to it among the shortest: the largest [k] is searched
    downwards from [k]. *)
Fixpoint shortest (fuel : nat) (m e k : Z) : Z * Z :=
  let d := floor_bin_dec m e k in
  match fuel with
  | O => (d, k)
  | S fuel' =>
      match reads_back m e d k, reads_back m e (d + 1) k with
      | true, true =>
          match cmp_bin_dec (2 * m) e (2 * d + 1) k with
          | Gt => (d + 1, k)
          | _ => (d, k)
          end
      | true, false => (d, k)
      | false, true => (d + 1, k)
      | false, false => shortest fuel' m e (k - 1)
      end
  end.

Definition zeros (n : Z) : str := repeat "0"%char (Z.to_nat n).

(** The digits of a non-negative int, padded on the left to [w] digits. *)
Definition pad_int (w : Z) (n : Z) : str :=
  let ds := str_of_int n in
  zeros (w - Z.of_nat (length ds)) ++ ds.

(** The layout of [repr]: [ds] are the significant digits and the value is
    [0.ds * 10^decpt]. *)
Definition layout (ds : str) (decpt : Z) : str :=
  let n := Z.of_nat (length ds) in
  if (decpt <=? -4) || (16 <? decpt) then
    let x := decpt - 1 in
    take 1 ds ++ (if 1 <? n then lit "." ++ drop 1 ds else [])
    ++ lit "e" ++ (if x <? 0 then lit "-" else lit "+") ++ pad_int 2 (Z.abs x)
  else if decpt <=? 0 then lit "0." ++ zeros (- decpt) ++ ds
  else if n <=? decpt then ds ++ zeros (decpt - n) ++ lit ".0"
  else take (Z.to_nat decpt) ds ++ lit "." ++ drop (Z.to_nat decpt) ds.

Definition sign_str (neg : bool) : str := if neg then lit "-" else [].

(** [repr(f)], which is also [str(f)]. *)
Definition repr (f : float) : str :=
  match canon f with
  | S754_nan => lit "nan"
  | S754_infinity s => sign_str s ++ lit "inf"
  | S754_zero s => sign_str s ++ lit "0.0"
  | S754_finite s m e =>
      let b := Z.log2 (Z.pos m) + 1 + e in
      let k0 := Z.max (b * 30103 / 100000) (b * 30102 / 100000) + 2 in
      let '(d, k) := shortest 48 (Z.pos m) e k0 in
      let ds := str_of_int d in
      sign_str s ++ layout ds (Z.of_nat (length ds) + k)
  end.

(** [m * 2^e * 10^4] rounded to the nearest integer, ties to even. *)
Definition round_e4 (m e : Z) : Z :=
  if 0 <=? e then m * 2 ^ e * 10000
  else
    let num := m * 10000 in
    let den := 2 ^ (- e) in
    let q := num / den in
    match 2 * (num mod den) ?= den with
    | Lt => q
    | Eq => if Z.even q then q else q + 1
    | Gt => q + 1
    end.

(** [format(f, '.4f')] *)
Definition format_4f (f : float) : str :=
  match canon f with
  | S754_nan => lit "nan"
  | S754_infinity s => sign_str s ++ lit "inf"
  | S754_zero s => sign_str s ++ lit "0.0000"
  | S754_finite s m e =>
      let r := round_e4 (Z.pos m) e in
      sign_str s ++ str_of_int (r / 10000) ++ lit "." ++ pad_int 4 (r mod 10000)
  end.

End PyFloat.

(** ** Python values and exceptions *)

Module PyVal.

Import Py.

Inductive value :=
  | VNone
  | VBool (b : bool)
  | VInt (n : Z)
  | VFloat (f : PyFloat.float)
  | VStr (s : str).

(** pandas reads an empty cell as the float NaN. *)
Definition NaN : value := VFloat S754_nan.

Inductive exn := TypeError | ValueError | OverflowError | ReadError.

Inductive result (A : Type) :=
  | Ok (a : A)
  | Raise (e : exn).
Arguments Ok {A} a.
Arguments Raise {A} e.

Definition bind {A B} (r : result A) (k : A -> result B) : result B :=
  match r with
  | Ok a => k a
  | Raise e => Raise e
  end.

Notation "'let*' x ':=' r 'in' k" := (bind r (fun x => k))
  (at level 10, x name, r at level 100, k at level 200).

(** Apply [f] to the elements from left to right; the first exception
    ends the traversal. *)
Fixpoint mapM {A B} (f : A -> result B) (l : list A) : result (list B) :=
  match l with
  | [] => Ok []
  | a :: l' => let* b := f a in let* bs := mapM f l' in Ok (b :: bs)
  end.

Definition int_of_bool (b : bool) : Z := if b then 1 else 0.

(** [pd.notnull(v)] *)
Definition notnull (v : value) : bool :=
  match v with
  | VNone => false
  | VFloat f => negb (PyFloat.isnan f)
  | _ => true
  end.

(** [str(v)] *)
Definition str_of (v : value) : str :=
  match v with
  | VNone => lit "None"
  | VBool true => lit "True"
  | VBool false => lit "False"
  | VInt n => str_of_int n
  | VFloat f => PyFloat.repr f
  | VStr s => s
  end.

(** [v is True], [v is False] *)
Definition is_True (v : value) : bool :=
  match v with VBool true => true | _ => false end.

Definition is_False (v : value) : bool :=
  match v with VBool false => true | _ => false end.

(** [v == n] and [v == n.0] for an integer [n]: a number equals it by
    value ([bool] is a kind of [int]), anything else does not. *)
Definition eq_num (v : value) (n : Z) : bool :=
  match v with
  | VBool b => int_of_bool b =? n
  | VInt k => k =? n
  | VFloat f => PyFloat.eq_int f n
  | VNone | VStr _ => false
  end.

(** [lo <= v <= hi] as [Series.between] computes it on one cell:
    ordering a [str] against an [int] raises [TypeError]; a missing cell
    ([None] or a NaN) is compared as false without raising, so it is
    outside every interval. *)
Definition between (lo hi : Z) (v : value) : result bool :=
  match v with
  | VBool b => Ok ((lo <=? int_of_bool b) && (int_of_bool b <=? hi))
  | VInt k => Ok ((lo <=? k) && (k <=? hi))
  | VFloat f => Ok (PyFloat.ge_int f lo && PyFloat.le_int f hi)
  | VNone => Ok false
  | VStr _ => Raise TypeError
  end.

Definition is_digit (c : ascii) : bool :=
  let n := nat_of_ascii c in ((48 <=? n) && (n <=? 57))%nat.

Definition digit_value (c : ascii) : Z := Z.of_nat (nat_of_ascii c) - 48.

(** The value of a digit part of a numeric literal: digits, with single
    underscores between them. *)
Fixpoint digitpart (acc : Z) (after_digit : bool) (s : str) : option Z :=
  match s with
  | [] => if after_digit then Some acc else None
  | c :: s' =>
      if is_digit c then digitpart (10 * acc + digit_value c) true s'
      else if Ascii.eqb c "_"%char && after_digit then digitpart acc false s'
      else None
  end.

(** [float(s)] for a string [s] that ends with ".0": leading white space
    and a sign are allowed, the rest up to the ".0" is empty or a digit
    part; anything else raises [ValueError]. *)
Definition float_of_dot0 (s : str) : result PyFloat.float :=
  let s1 := lstrip s in
  let '(neg, s2) :=
    match s1 with
    | c :: r => if Ascii.eqb c "-"%char then (true, r)
                else if Ascii.eqb c "+"%char then (false, r)
                else (false, s1)
    | [] => (false, s1)
    end in
  let body := take (length s2 - 2) s2 in
  if negb (endswith (lit ".0") s2) then Raise ValueError
  else
    match (match body with [] => Some 0 | _ => digitpart 0 false body end) with
    | Some n => Ok (PyFloat.of_scaled (cond_Zopp neg n) 0 neg)
    | None => Raise ValueError
    end.

(** [int(f)] *)
Definition int_of_float (f : PyFloat.float) : result Z :=
  match PyFloat.to_int f with
  | Some n => Ok n
  | None => Raise (if PyFloat.isnan f then ValueError else OverflowError)
  end.

(** [format(v, '.4f')] *)
Definition format_4f (v : value) : result str :=
  let of_Z n :=
    match PyFloat.of_int n with
    | S754_infinity _ => Raise OverflowError
    | f => Ok (PyFloat.format_4f f)
    end in
  match v with
  | VFloat f => Ok (PyFloat.format_4f f)
  | VInt n => of_Z n
  | VBool b => of_Z (int_of_bool b)
  | VStr _ => Raise ValueError
  | VNone => Raise TypeError
  end.

End PyVal.

(** ** The facility loader: [load_facility_data]

    [pd.read_csv] is not part of the program: a CSV file is given by its
    name and by what reading it yields, a data frame or an exception.  The
    progress bar and the status line are left out; the warnings and
    notices shown to the user are collected in a log. *)

Module Loader.

Import Py PyVal.

(** A data frame as [read_csv] returns it: the column names and, for each
    row, the cell of every column. *)
Record DataFrame := {
  columns : list string;
  rows : list (string -> value)
}.

(** A row of the frame [df[required_columns]] with its [source_file]. *)
Record Facility := {
  NPI : value;
  Group_Name : value;
  Street_Address : value;
  City : value;
  State : value;
  Zip : value;
  Latitude : value;
  Longitude : value;
  is_substance_abuse_rehab : value;
  is_sud_rehab_clinic : value;
  source_file : value
}.

Definition required_columns : list string :=
  ["NPI"; "Group Name"; "Street Address"; "City"; "State"; "Zip";
   "Latitude"; "Longitude"; "is_substance_abuse_rehab";
   "is_sud_rehab_clinic"]%string.

(** [[col for col in required_columns if col not in df.columns]] *)
Definition missing_cols (df : DataFrame) : list string :=
  List.filter (fun col => negb (bool_decide (col ∈ columns df)))
    required_columns.

(** One row of [df[required_columns].copy()], with
    [facility_df['source_file'] = name]. *)
Definition select_row (name : str) (r : string -> value) : Facility :=
  {| NPI := r "NPI"%string;
     Group_Name := r "Group Name"%string;
     Street_Address := r "Street Address"%string;
     City := r "City"%string;
     State := r "State"%string;
     Zip := r "Zip"%string;
     Latitude := r "Latitude"%string;
     Longitude := r "Longitude"%string;
     is_substance_abuse_rehab := r "is_substance_abuse_rehab"%string;
     is_sud_rehab_clinic := r "is_sud_rehab_clinic"%string;
     source_file := VStr name |}.

Definition select_required (name : str) (df : DataFrame) : list Facility :=
  map (select_row name) (rows df).

Definition has_name_and_coordinates (r : Facility) : bool :=
  notnull (Group_Name r) && notnull (Latitude r) && notnull (Longitude r).

(** [dropna(subset=['Group Name', 'Latitude', 'Longitude'])] *)
Definition dropna (fs : list Facility) : list Facility :=
  List.filter has_name_and_coordinates fs.

(** [df[mask]]: the rows whose entry of the mask is true. *)
Fixpoint select_mask (fs : list Facility) (mask : list bool) : list Facility :=
  match fs, mask with
  | r :: fs', b :: mask' =>
      if b then r :: select_mask fs' mask' else select_mask fs' mask'
  | _, _ => []
  end.

(** The range filter.  The mask of the latitudes is computed on the whole
    column, then the mask of the longitudes, then the rows are selected. *)
Definition filter_coordinates (fs : list Facility) : result (list Facility) :=
  let* lat_ok := mapM (fun r => between (-90) 90 (Latitude r)) fs in
  let* lon_ok := mapM (fun r => between (-180) 180 (Longitude r)) fs in
  Ok (select_mask fs (zip_with andb lat_ok lon_ok)).

(** [.astype(str).str.strip()] on one cell; the four text columns and
    the postal code go through it.  A missing cell becomes the text of
    [str] of it ('nan'), as pandas before 3.0 has it; pandas 3 keeps a
    missing cell missing, and the conversion of the postal code below
    then makes 'nan' of it by its [else] branch all the same.  What is
    proved below of the text of the four columns is stated for cells that
    are not missing. *)
Definition astype_str_strip (v : value) : value := VStr (strip (str_of v)).

Definition clean_text_fields (r : Facility) : Facility :=
  {| NPI := NPI r;
     Group_Name := astype_str_strip (Group_Name r);
     Street_Address := astype_str_strip (Street_Address r);
     City := astype_str_strip (City r);
     State := astype_str_strip (State r);
     Zip := astype_str_strip (Zip r);
     Latitude := Latitude r;
     Longitude := Longitude r;
     is_substance_abuse_rehab := is_substance_abuse_rehab r;
     is_sud_rehab_clinic := is_sud_rehab_clinic r;
     source_file := source_file r |}.

(** [lambda x: str(int(float(x))) if pd.notnull(x) and
    str(x).endswith('.0') else str(x)] *)
Definition convert_zip (x : value) : result value :=
  if notnull x && endswith (lit ".0") (str_of x)
  then
    let* f := float_of_dot0 (str_of x) in
    let* n := int_of_float f in
    Ok (VStr (str_of_int n))
  else Ok (VStr (str_of x)).

Definition set_Zip (r : Facility) (z : value) : Facility :=
  {| NPI := NPI r;
     Group_Name := Group_Name r;
     Street_Address := Street_Address r;
     City := City r;
     State := State r;
     Zip := z;
     Latitude := Latitude r;
     Longitude := Longitude r;
     is_substance_abuse_rehab := is_substance_abuse_rehab r;
     is_sud_rehab_clinic := is_sud_rehab_clinic r;
     source_file := source_file r |}.

Definition clean_zip (r : Facility) : result Facility :=
  let* z := convert_zip (Zip r) in Ok (set_Zip r z).

(** [lambda x: 'True' if x is True or x == 1.0 or x == 1
               else 'False' if x is False or x == 0.0 or x == 0
               else 'N/A'] *)
Definition normalize_flag (x : value) : value :=
  if is_True x || eq_num x 1 || eq_num x 1 then VStr (lit "True")
  else if is_False x || eq_num x 0 || eq_num x 0 then VStr (lit "False")
  else VStr (lit "N/A").

Definition normalize_flags (r : Facility) : Facility :=
  {| NPI := NPI r;
     Group_Name := Group_Name r;
     Street_Address := Street_Address r;
     City := City r;
     State := State r;
     Zip := Zip r;
     Latitude := Latitude r;
     Longitude := Longitude r;
     is_substance_abuse_rehab := normalize_flag (is_substance_abuse_rehab r);
     is_sud_rehab_clinic := normalize_flag (is_sud_rehab_clinic r);
     source_file := source_file r |}.

(** What the body of the [try] block does with one file: it leaves the
    loop early on missing columns, or it has a cleaned frame to append. *)
Inductive outcome :=
  | Skipped (missing : list string)
  | Loaded (facility_df : list Facility).

Definition clean (fs : list Facility) : result (list Facility) :=
  let* in_range := filter_coordinates (dropna fs) in
  let* zipped := mapM clean_zip (map clean_text_fields in_range) in
  Ok (map normalize_flags zipped).

Definition process_file (name : str) (read : result DataFrame) : result outcome :=
  let* df := read in
  match missing_cols df with
  | [] =>
      let* facility_df := clean (select_required name df) in
      Ok (Loaded facility_df)
  | missing => Ok (Skipped missing)
  end.

Inductive message :=
  | Directory_not_found
  | No_CSV_files
  | Missing_columns (file : str) (missing : list string)
  | Could_not_process (file : str) (e : exn).

(** One turn of the loop over [csv_files]: the frames appended so far and
    the log. *)
Definition loop_body (st : list (list Facility) * list message)
    (csv_file : str * result DataFrame) : list (list Facility) * list message :=
  let '(consolidated_facilities, log) := st in
  let '(name, read) := csv_file in
  match process_file name read with
  | Ok (Loaded facility_df) => (consolidated_facilities ++ [facility_df], log)
  | Ok (Skipped missing) =>
      (consolidated_facilities, log ++ [Missing_columns name missing])
  | Raise e => (consolidated_facilities, log ++ [Could_not_process name e])
  end.

(** [load_facility_data()].  The directory is [None] when it does not
    exist, and otherwise the CSV files in it.  The result is the combined
    frame ([None] for Python's [None]) and the log. *)
Definition load_facility_data (dir : option (list (str * result DataFrame)))
    : option (list Facility) * list message :=
  match dir with
  | None => (None, [Directory_not_found])
  | Some [] => (None, [No_CSV_files])
  | Some csv_files =>
      let '(consolidated_facilities, log) :=
        fold_left loop_body csv_files ([], []) in
      match consolidated_facilities with
      | [] => (None, log)
      | _ => (Some (concat consolidated_facilities), log)
      end
  end.

End Loader.

(** ** The overlay renderer: [inject_facility_markers_into_html]

    The data frame is the loader's: its rows are [Facility] records, all
    columns are present, and the index of a row is its position. *)

Module Renderer.

Import Py PyVal Loader.

Definition unlines (ls : list str) : str := join [newline] ls.

(** The text that loads the MarkerCluster plugin. *)
Definition plugin_js : str :=
  unlines [
    [];
    lit "        // Add MarkerCluster CSS and JS";
    lit "        var clusterCSS = document.createElement('link');";
    lit "        clusterCSS.rel = 'stylesheet';";
    lit "        clusterCSS.href = 'https://unpkg.com/leaflet.markercluster@1.4.1/dist/MarkerCluster.css';";
    lit "        document.head.appendChild(clusterCSS);";
    lit "        ";
    lit "        var clusterDefaultCSS = document.createElement('link');";
    lit "        clusterDefaultCSS.rel = 'stylesheet';";
    lit "        clusterDefaultCSS.href = 'https://unpkg.com/leaflet.markercluster@1.4.1/dist/MarkerCluster.Default.css';";
    lit "        document.head.appendChild(clusterDefaultCSS);";
    lit "        ";
    lit "        var clusterJS = document.createElement('script');";
    lit "        clusterJS.src = 'https://unpkg.com/leaflet.markercluster@1.4.1/dist/leaflet.markercluster.js';";
    lit "        document.head.appendChild(clusterJS);";
    lit "        "
  ].

(** The opening of the deferred function: the cluster group is created. *)
Definition cluster_open_js : str :=
  unlines [
    [];
    lit "        // Wait for the map to be fully loaded";
    lit "        setTimeout(function() {";
    lit "            // Find the map object (folium creates global map variables)";
    lit "            var mapObj = window[Object.keys(window).find(key => key.startsWith('map_'))];";
    lit "            ";
    lit "            if (mapObj) {";
    lit "                // Create marker cluster group";
    lit "                var facilityCluster = L.markerClusterGroup({";
    lit "                    showCoverageOnHover: false,";
    lit "                    zoomToBoundsOnClick: true,";
    lit "                    spiderfyOnMaxZoom: false,";
    lit "                    removeOutsideVisibleBounds: true,";
    lit "                    disableClusteringAtZoom: 13";
    lit "                });";
    lit "                ";
    lit "                // Add facility markers";
    lit "    "
  ].

(** The closing: the cluster is added to the map and to the layer
    control. *)
Definition cluster_close_js : str :=
  unlines [
    [];
    lit "                // Add cluster to map";
    lit "                mapObj.addLayer(facilityCluster);";
    lit "                ";
    lit "                // Add layer control if it doesn't exist";
    lit "                if (!mapObj.layerControl) {";
    lit "                    var baseLayers = {};";
    lit "                    var overlayLayers = {";
    lit "                        " ++ [dquote] ++ lit "Individual Facilities" ++ [dquote] ++ lit ": facilityCluster";
    lit "                    };";
    lit "                    mapObj.layerControl = L.control.layers(baseLayers, overlayLayers).addTo(mapObj);";
    lit "                } else {";
    lit "                    // Check if " ++ [dquote] ++ lit "Individual Facilities" ++ [dquote] ++ lit " overlay already exists to avoid duplication on rerun";
    lit "                    var existingOverlays = mapObj.layerControl._layers.filter(layer => layer.overlay).map(layer => layer.name);";
    lit "                    if (!existingOverlays.includes(" ++ [dquote] ++ lit "Individual Facilities" ++ [dquote] ++ lit ")) {";
    lit "                        mapObj.layerControl.addOverlay(facilityCluster, " ++ [dquote] ++ lit "Individual Facilities" ++ [dquote] ++ lit ");";
    lit "                    }";
    lit "                }";
    lit "            }";
    lit "        }, 1000);";
    lit "    "
  ].

(** The f-string of the popup, before the replacements. *)
Definition popup_text (npi group_name facility_type_desc street_address city state
    zip_code latitude longitude is_substance_abuse is_sud_clinic : str) : str :=
  unlines [
    [];
    lit "        <b>NPI:</b> " ++ npi ++ lit "<br>";
    lit "        <b>Facility Name:</b> " ++ group_name ++ lit "<br>";
    lit "        <b>Facility Type:</b> " ++ facility_type_desc ++ lit "<br>";
    lit "        <b>Street Address:</b> " ++ street_address ++ lit "<br>";
    lit "        <b>City:</b> " ++ city ++ lit "<br>";
    lit "        <b>State:</b> " ++ state ++ lit "<br>";
    lit "        <b>Zip:</b> " ++ zip_code ++ lit "<br>";
    lit "        <b>Coordinates:</b> " ++ latitude ++ lit ", " ++ longitude ++ lit "<br>";
    lit "        <br>";
    lit "        <b>is_substance_abuse_rehab:</b> " ++ is_substance_abuse ++ lit "<br>";
    lit "        <b>is_sud_rehab_clinic:</b> " ++ is_sud_clinic ++ lit "<br>";
    lit "        "
  ].

(** The f-string of one marker. *)
Definition marker_js (idx lat lon marker_color fill_color popup_html : str) : str :=
  unlines [
    [];
    lit "                var marker_" ++ idx ++ lit " = L.circleMarker([" ++ lat ++ lit ", " ++ lon ++ lit "], {";
    lit "                    radius: 7,";
    lit "                    color: '" ++ marker_color ++ lit "',";
    lit "                    weight: 2,";
    lit "                    opacity: 0.9,";
    lit "                    fillColor: '" ++ fill_color ++ lit "',";
    lit "                    fillOpacity: 0.7";
    lit "                }).bindPopup(" ++ [dquote] ++ popup_html ++ [dquote] ++ lit ", {maxWidth: 300});";
    lit "                ";
    lit "                facilityCluster.addLayer(marker_" ++ idx ++ lit ");";
    lit "        "
  ].

(** [v == s] for a [str] constant [s]: only that very string equals it. *)
Definition eq_str (v : value) (s : str) : bool :=
  match v with
  | VStr t => bool_decide (t = s)
  | _ => false
  end.

(** The fill colour and the description of the facility type, from the
    two flags. *)
Definition classify (is_substance_abuse is_sud_clinic : value) : str * str :=
  let is_substance_abuse_bool := eq_str is_substance_abuse (lit "True") in
  let is_sud_clinic_bool := eq_str is_sud_clinic (lit "True") in
  if is_substance_abuse_bool && is_sud_clinic_bool
  then (lit "#800080", lit "Substance Abuse Rehab & SUD Rehab Clinic")
  else if is_substance_abuse_bool
  then (lit "#FF0000", lit "Substance Abuse Rehab")
  else if is_sud_clinic_bool
  then (lit "#0000FF", lit "SUD Rehab Clinic")
  else (lit "#808080", lit "Other/Unknown").

Definition marker_color : str := lit "#000000".

(** [f"{v:.4f}" if pd.notnull(v) else 'N/A'] *)
Definition coordinate_text (v : value) : result str :=
  if notnull v then format_4f v else Ok (lit "N/A").

(** [.replace('"', '\\"').replace('\n', '\\n')] *)
Definition escape (s : str) : str :=
  replace [newline] [backslash; "n"%char]
    (replace [dquote] [backslash; dquote] s).

(** The popup of a facility, as it is put between the double quotes of
    [bindPopup("...")]. *)
Definition popup_html (facility : Facility) : result str :=
  let is_substance_abuse := is_substance_abuse_rehab facility in
  let is_sud_clinic := is_sud_rehab_clinic facility in
  let facility_type_desc := snd (classify is_substance_abuse is_sud_clinic) in
  let npi := str_of (NPI facility) in
  let group_name := str_of (Group_Name facility) in
  let street_address := str_of (Street_Address facility) in
  let city := str_of (City facility) in
  let state := str_of (State facility) in
  let zip_code := str_of (Zip facility) in
  let* latitude := coordinate_text (Latitude facility) in
  let* longitude := coordinate_text (Longitude facility) in
  Ok (escape
        (popup_text npi group_name facility_type_desc street_address city
           state zip_code latitude longitude
           (str_of is_substance_abuse) (str_of is_sud_clinic))).

(** The text appended to [facility_js_code] for the row [idx]. *)
Definition marker_code (idx : nat) (facility : Facility) : result str :=
  let fill_color :=
    fst (classify (is_substance_abuse_rehab facility)
           (is_sud_rehab_clinic facility)) in
  let* popup := popup_html facility in
  Ok (marker_js (str_of_int (Z.of_nat idx))
        (str_of (Latitude facility)) (str_of (Longitude facility))
        marker_color fill_color popup).

(** The loop over [facilities_df.iterrows()], from the row [idx] on. *)
Fixpoint markers_from (idx : nat) (fs : list Facility) : result (list str) :=
  match fs with
  | [] => Ok []
  | facility :: fs' =>
      let* m := marker_code idx facility in
      let* ms := markers_from (S idx) fs' in
      Ok (m :: ms)
  end.

Definition body_close : str := lit "</body>".

(** The list [facility_js_code] when the loop is over. *)
Definition facility_js_code (original_html : str) (markers : list str)
    : list str :=
  (if negb (contains (lit "markercluster.css") (lower original_html))
   then [plugin_js] else [])
  ++ [cluster_open_js] ++ markers ++ [cluster_close_js].

Definition script_tag (original_html : str) (markers : list str) : str :=
  lit "<script>" ++ join [newline] (facility_js_code original_html markers)
  ++ lit "</script>".

(** [inject_facility_markers_into_html(original_html, facilities_df)];
    [None] is Python's [None], an empty list is an empty frame. *)
Definition inject_facility_markers_into_html (original_html : str)
    (facilities_df : option (list Facility)) : result str :=
  match facilities_df with
  | None | Some [] => Ok original_html
  | Some fs =>
      let* markers := markers_from 0 fs in
      let tag := script_tag original_html markers in
      if contains body_close original_html
      then Ok (replace body_close (tag ++ [newline] ++ body_close) original_html)
      else Ok (original_html ++ tag)
  end.

End Renderer.

(** ** Notions used to state the properties *)

Module Props.

Import Py PyVal Loader Renderer.

(** The number of positions of [s] at which [sub] occurs. *)
Fixpoint occurrences (sub s : str) : nat :=
  match s with
  | [] => 0%nat
  | _ :: s' => ((if startswith sub s then 1 else 0) + occurrences sub s')%nat
  end.

(** [s] with [ins] put in front of every occurrence of [old]. *)
Fixpoint insert_before (old ins s : str) : str :=
  match s with
  | [] => []
  | c :: s' => (if startswith old s then ins else []) ++ c :: insert_before old ins s'
  end.

(** The cluster layers a document creates: each call of
    [L.markerClusterGroup(] makes one. *)
Definition cluster_layers (html : str) : nat :=
  occurrences (lit "L.markerClusterGroup(") html.

(** Rendering onto the renderer's own output. *)
Definition render_twice (html : str) (df : option (list Facility)) : result str :=
  let* once := inject_facility_markers_into_html html df in
  inject_facility_markers_into_html once df.

(** The script block without the text that loads the plugin. *)
Definition bare_script_tag (markers : list str) : str :=
  lit "<script>"
  ++ join [newline] ([cluster_open_js] ++ markers ++ [cluster_close_js])
  ++ lit "</script>".

(** The renderer can format the coordinates of every row. *)
Definition renderable (fs : list Facility) : Prop :=
  forall r, r ∈ fs ->
    (exists s, coordinate_text (Latitude r) = Ok s)
    /\ (exists s, coordinate_text (Longitude r) = Ok s).

(** How JavaScript reads the inside of a double-quoted string literal: a
    backslash takes the next character with it, and a double quote that
    is not taken this way ends the literal.  [true] when the text holds
    such a quote. *)
Fixpoint has_unescaped_quote (s : str) : bool :=
  match s with
  | [] => false
  | c :: s' =>
      if Ascii.eqb c backslash then
        match s' with
        | [] => false
        | _ :: s'' => has_unescaped_quote s''
        end
      else if Ascii.eqb c dquote then true
      else has_unescaped_quote s'
  end.

(** The three normalized values of a flag, by the names of the
    specification, and the strings the program writes for them. *)
Inductive flag_state := flag_true | flag_false | flag_unknown.

Definition flag_text (st : flag_state) : value :=
  match st with
  | flag_true => VStr (lit "True")
  | flag_false => VStr (lit "False")
  | flag_unknown => VStr (lit "N/A")
  end.

(** The rule of the specification: a literal true or 1 is true, a literal
    false or 0 is false, anything else is unknown. *)
Definition literal_number (x : value) (n : Z) : bool :=
  match x with
  | VInt k => k =? n
  | VFloat f => PyFloat.eq_int f n
  | _ => false
  end.

Definition spec_flag (x : value) : flag_state :=
  match x with
  | VBool true => flag_true
  | VBool false => flag_false
  | _ => if literal_number x 1 then flag_true
         else if literal_number x 0 then flag_false
         else flag_unknown
  end.

(** The four categories of the specification with the colour and the
    description the program gives each. *)
Inductive category := BOTH | SUBSTANCE_ABUSE | SUD_CLINIC | OTHER_UNKNOWN.

Definition category_style (c : category) : str * str :=
  match c with
  | BOTH => (lit "#800080", lit "Substance Abuse Rehab & SUD Rehab Clinic")
  | SUBSTANCE_ABUSE => (lit "#FF0000", lit "Substance Abuse Rehab")
  | SUD_CLINIC => (lit "#0000FF", lit "SUD Rehab Clinic")
  | OTHER_UNKNOWN => (lit "#808080", lit "Other/Unknown")
  end.

(** The classification rule of the specification, ordered by
    precedence. *)
Definition spec_category (sa sud : flag_state) : category :=
  match sa, sud with
  | flag_true, flag_true => BOTH
  | flag_true, _ => SUBSTANCE_ABUSE
  | _, flag_true => SUD_CLINIC
  | _, _ => OTHER_UNKNOWN
  end.

(** What [escape] puts for one character. *)
Definition escape_char (c : ascii) : str :=
  if Ascii.eqb c dquote then [backslash; dquote]
  else if Ascii.eqb c newline then [backslash; "n"%char]
  else [c].

(** The rational number a cell stands for, when it is a finite number. *)
Definition number_of (v : value) : option Q :=
  match v with
  | VBool b => Some (inject_Z (int_of_bool b))
  | VInt k => Some (inject_Z k)
  | VFloat (S754_zero _) => Some (inject_Z 0)
  | VFloat (S754_finite s m e) =>
      Some (inject_Z (cond_Zopp s (Z.pos m)) * (2 # 1) ^ e)%Q
  | _ => None
  end.

(** The cell is a number between [lo] and [hi]. *)
Definition in_range (lo hi : Z) (v : value) : Prop :=
  exists q, number_of v = Some q /\ (inject_Z lo <= q /\ q <= inject_Z hi)%Q.

(** A required column that the frame does not have. *)
Definition missing_required (df : DataFrame) : Prop :=
  exists col, col ∈ required_columns /\ col ∉ columns df.

(** A string of decimal digits only. *)
Definition all_digits (s : str) : bool := forallb is_digit s.

(** The number that a string of decimal digits denotes. *)
Definition decimal_value (ds : str) : Z :=
  fold_left (fun acc c => 10 * acc + digit_value c) ds 0.

(** The output row [r] is the source row [r0] of the file [name], kept
    by the two filters and cleaned. *)
Definition cleaned_from (name : str) (r0 : string -> value) (r : Facility) : Prop :=
  let s := select_row name r0 in
  has_name_and_coordinates s = true /\
  between (-90) 90 (Latitude s) = Ok true /\
  between (-180) 180 (Longitude s) = Ok true /\
  exists z, convert_zip (astype_str_strip (Zip s)) = Ok z /\
            r = normalize_flags (set_Zip (clean_text_fields s) z).

(** The frames and the warnings of the files of a directory, file by
    file. *)
Definition frame_of (csv_file : str * result DataFrame) : list (list Facility) :=
  match process_file (fst csv_file) (snd csv_file) with
  | Ok (Loaded facility_df) => [facility_df]
  | _ => []
  end.

Definition warnings_of (csv_file : str * result DataFrame) : list message :=
  match process_file (fst csv_file) (snd csv_file) with
  | Ok (Loaded _) => []
  | Ok (Skipped missing) => [Missing_columns (fst csv_file) missing]
  | Raise e => [Could_not_process (fst csv_file) e]
  end.

End Props.

(** ** Sample inputs *)

Module Samples.

Import Py PyVal Loader Renderer Props.

Definition base_html : str :=
  lit "<html><body><div id='map'></div></body></html>".

(** 40.5 and -74.25 *)
Definition lat_40_5 : value := VFloat (S754_finite false 81 (-1)).
Definition lon_m74_25 : value := VFloat (S754_finite true 297 (-2)).

(** 1.0, 0.0 and 12345.0 *)
Definition one_float : value := VFloat (S754_finite false 4503599627370496 (-52)).
Definition zero_float : value := VFloat (S754_zero false).
Definition float_12345 : value := VFloat (S754_finite false 12345 0).

(** A row as the loader returns it. *)
Definition clinic : Facility :=
  {| NPI := VInt 1234567893;
     Group_Name := VStr (lit "Harbor Clinic");
     Street_Address := VStr (lit "1 Main St");
     City := VStr (lit "Newark");
     State := VStr (lit "NJ");
     Zip := VStr (lit "7102");
     Latitude := lat_40_5;
     Longitude := lon_m74_25;
     is_substance_abuse_rehab := VStr (lit "True");
     is_sud_rehab_clinic := VStr (lit "False");
     source_file := VStr (lit "nj.csv") |}.

(** The same row under a name that ends with a backslash and a double
    quote. *)
Definition backslash_quote_name : str :=
  lit "Harbor " ++ [backslash; dquote].

Definition clinic_backslash_quote : Facility :=
  {| NPI := NPI clinic;
     Group_Name := VStr backslash_quote_name;
     Street_Address := Street_Address clinic;
     City := City clinic;
     State := State clinic;
     Zip := Zip clinic;
     Latitude := Latitude clinic;
     Longitude := Longitude clinic;
     is_substance_abuse_rehab := is_substance_abuse_rehab clinic;
     is_sud_rehab_clinic := is_sud_rehab_clinic clinic;
     source_file := source_file clinic |}.

(** A row with flags that are not the string 'True'. *)
Definition clinic_lowercase_flags : Facility :=
  {| NPI := NPI clinic;
     Group_Name := Group_Name clinic;
     Street_Address := Street_Address clinic;
     City := City clinic;
     State := State clinic;
     Zip := Zip clinic;
     Latitude := Latitude clinic;
     Longitude := Longitude clinic;
     is_substance_abuse_rehab := VStr (lit "true");
     is_sud_rehab_clinic := VBool true;
     source_file := source_file clinic |}.

(** A source row of a CSV file, by its cells. *)
Definition source_row (name zip sa sud lat lon : value) (col : string) : value :=
  if String.eqb col "NPI" then VInt 1234567893
  else if String.eqb col "Group Name" then name
  else if String.eqb col "Street Address" then VStr (lit "1 Main St")
  else if String.eqb col "City" then VStr (lit "Newark")
  else if String.eqb col "State" then VStr (lit "NJ")
  else if String.eqb col "Zip" then zip
  else if String.eqb col "Latitude" then lat
  else if String.eqb col "Longitude" then lon
  else if String.eqb col "is_substance_abuse_rehab" then sa
  else if String.eqb col "is_sud_rehab_clinic" then sud
  else NaN.

Definition good_row : string -> value :=
  source_row (VStr (lit " Harbor Clinic ")) (VInt 7102) (VInt 1) (VInt 0)
    lat_40_5 lon_m74_25.

(** A frame with all the required columns and [n] good rows. *)
Definition good_frame (n : nat) : DataFrame :=
  {| columns := required_columns ++ ["Phone"%string];
     rows := repeat good_row n |}.

(** A frame without the postal code. *)
Definition frame_without_zip : DataFrame :=
  {| columns := ["NPI"; "Group Name"; "Street Address"; "City"; "State";
                 "Latitude"; "Longitude"; "is_substance_abuse_rehab";
                 "is_sud_rehab_clinic"]%string;
     rows := repeat good_row 3 |}.

(** Three files: the first lacks the postal code, the others have ten and
    five good rows. *)
Definition three_files : list (str * result DataFrame) :=
  [(lit "a.csv", Ok frame_without_zip);
   (lit "b.csv", Ok (good_frame 10));
   (lit "c.csv", Ok (good_frame 5))].

(** One file with one row whose postal code is missing. *)
Definition file_missing_zip : list (str * result DataFrame) :=
  [(lit "nj.csv",
    Ok {| columns := required_columns;
          rows := [source_row (VStr (lit " Harbor Clinic ")) NaN (VInt 1)
                     (VInt 0) lat_40_5 lon_m74_25] |})].

(** One file with one row whose name ends with a backslash and a double
    quote. *)
Definition file_backslash_quote : list (str * result DataFrame) :=
  [(lit "nj.csv",
    Ok {| columns := required_columns;
          rows := [source_row (VStr backslash_quote_name) (VInt 7102) (VInt 1)
                     (VInt 0) lat_40_5 lon_m74_25] |})].

(** A frame whose latitudes are texts, and a frame whose postal code ends
    with '.0' without being a number. *)
Definition frame_text_latitude : DataFrame :=
  {| columns := required_columns;
     rows := [source_row (VStr (lit "Harbor Clinic")) (VInt 7102) (VInt 1)
                (VInt 0) (VStr (lit "40.5N")) lon_m74_25] |}.

Definition frame_unparsable_zip : DataFrame :=
  {| columns := required_columns;
     rows := [source_row (VStr (lit "Harbor Clinic")) (VStr (lit "N/A.0"))
                (VInt 1) (VInt 0) lat_40_5 lon_m74_25] |}.

(** One file with one good row. *)
Definition one_file : list (str * result DataFrame) :=
  [(lit "nj.csv", Ok (good_frame 1))].

End Samples.

(** ** More of Python's strings *)

Module PyMore.

Import Py.

(** [s.split(sep)] for a non-empty [sep]: the pieces between the
    occurrences of [sep], found from left to right without overlap.  The
    head of the result is the piece being read; [skip] counts the
    characters of a separator still to be dropped. *)
Fixpoint split_from (sep : str) (skip : nat) (s : str) : list str :=
  match s with
  | [] => [[]]
  | c :: s' =>
      match skip with
      | S k => split_from sep k s'
      | O =>
          if startswith sep s
          then [] :: split_from sep (length sep - 1) s'
          else match split_from sep 0 s' with
               | piece :: pieces => (c :: piece) :: pieces
               | [] => [[c]]
               end
      end
  end.

Definition split (sep s : str) : list str := split_from sep 0 s.

(** [s == t] on two [str]. *)
Definition str_eqb (s t : str) : bool := bool_decide (s = t).

End PyMore.

(** ** The names of the map and of the data file

    The three selections of the sidebar are texts; the radio buttons offer
    the options below. *)

Module Selection.

Import Py PyMore.

Definition geographic_options : list str := [lit "Zip Code"; lit "State"].

Definition taxonomy_options : list str :=
  [lit "324500000X - Substance Abuse Rehabs";
   lit "261QR0405X - SUD Rehab Clinics";
   lit "261QM1300X - Multi-Specialty Clinics";
   lit "Combined - All Healthcare Facilities"].

Definition metric_options : list str :=
  [lit "Raw Count"; lit "Per Capita (per 100k)"].

(** The facility type of a taxonomy selection; [None] when
    [split(' - ')[1]] raises [IndexError]. *)
Definition facility_type (taxonomy_selection : str) : option str :=
  if startswith (lit "Combined") taxonomy_selection
  then Some (lit "All Healthcare Facilities")
  else match split (lit " - ") taxonomy_selection with
       | _ :: second :: _ => Some second
       | _ => None
       end.

Definition map_name_construct (metric_selection facility_type : str) : str :=
  if str_eqb metric_selection (lit "Raw Count")
  then facility_type ++ lit " (Raw)"
  else facility_type ++ lit " (per 100k)".

(** [.replace(' ', '_').replace('(', '').replace(')', '')] *)
Definition base_filename (map_name_construct : str) : str :=
  replace (lit ")") []
    (replace (lit "(") [] (replace (lit " ") (lit "_") map_name_construct)).

(** The names bound for a geographic level: the map file, the data file
    and the directory of the data file under the data directory.  For a
    level other than the two, no name is bound. *)
Record file_names := {
  map_filename : str;
  data_filename : str;
  data_directory : str
}.

Definition names_for (geographic_level base_filename : str) : option file_names :=
  if str_eqb geographic_level (lit "Zip Code") then
    Some {| map_filename := lit "zipcode_map_" ++ base_filename ++ lit ".html";
            data_filename := lit "zipcode_data_" ++ base_filename ++ lit ".csv";
            data_directory := lit "zip_code_counts" |}
  else if str_eqb geographic_level (lit "State") then
    Some {| map_filename := lit "state_map_" ++ base_filename ++ lit ".html";
            data_filename := lit "state_data_" ++ base_filename ++ lit ".csv";
            data_directory := lit "state_counts" |}
  else None.

Definition display_title (geographic_level map_name_construct : str) : str :=
  geographic_level ++ lit ": " ++ map_name_construct.

(** From the three selections to the names, as the script computes them
    one after the other. *)
Definition selected_names (geographic_level taxonomy_selection metric_selection : str)
    : option file_names :=
  match facility_type taxonomy_selection with
  | Some ft =>
      names_for geographic_level
        (base_filename (map_name_construct metric_selection ft))
  | None => None
  end.

(** The selections that the sidebar can produce. *)
Definition all_selections : list (str * str * str) :=
  g ← geographic_options; t ← taxonomy_options; m ← metric_options;
  [(g, t, m)].

End Selection.

(** ** The display of the map with the overlay

    The page reads the map file ([None] when the file is not found, an
    exception when reading it raises anything else), loads the facilities
    when the overlay is switched on, and shows the map. *)

Module Page.

Import Py PyVal Loader Renderer.

Inductive shown :=
  | Map_shown (map_html : str)
  | Map_file_not_found
  | Unexpected_error (e : exn).

Inductive notice :=
  | From_loader (m : message)
  | No_facility_data.

(** [facility_data is None or facility_data.empty] *)
Definition none_or_empty (facility_data : option (list Facility)) : bool :=
  match facility_data with
  | None | Some [] => true
  | Some (_ :: _) => false
  end.

(** The lines from [facility_data = None] to the warning. *)
Definition facility_overlay (show_facility_overlay : bool)
    (dir : option (list (str * result DataFrame)))
    : option (list Facility) * list notice :=
  if show_facility_overlay then
    let '(facility_data, log) := load_facility_data dir in
    (facility_data,
     map From_loader log
     ++ (if none_or_empty facility_data then [No_facility_data] else []))
  else (None, []).

(** The [try] block that displays the selected map. *)
Definition display_map (show_facility_overlay : bool)
    (facility_data : option (list Facility))
    (map_file : option (result str)) : shown :=
  match map_file with
  | None => Map_file_not_found
  | Some (Raise e) => Unexpected_error e
  | Some (Ok map_html) =>
      if show_facility_overlay && negb (none_or_empty facility_data)
      then match inject_facility_markers_into_html map_html facility_data with
           | Ok with_markers => Map_shown with_markers
           | Raise e => Unexpected_error e
           end
      else Map_shown map_html
  end.

Definition show_map (show_facility_overlay : bool)
    (dir : option (list (str * result DataFrame)))
    (map_file : option (result str)) : shown * list notice :=
  let '(facility_data, log) := facility_overlay show_facility_overlay dir in
  (display_map show_facility_overlay facility_data map_file, log).

End Page.

(** ** The columns of the data table *)

Module Table.

Import Py PyMore.

(** [[col for col in df.columns if col not in ['zipcode', 'state',
    'population'] and not col.endswith('_capped_viz')]] *)
Definition is_possible_metric (col : str) : bool :=
  negb (bool_decide (col ∈ [lit "zipcode"; lit "state"; lit "population"]))
  && negb (endswith (lit "_capped_viz") col).

Definition possible_metric_cols (columns : list str) : list str :=
  List.filter is_possible_metric columns.

(** [map_name_construct.replace(' (Raw)', '').replace(' (per 100k)', '')
    .replace(' ', '_').lower()] *)
Definition metric_keyword (map_name_construct : str) : str :=
  lower
    (replace (lit " ") (lit "_")
       (replace (lit " (per 100k)") []
          (replace (lit " (Raw)") [] map_name_construct))).

(** The metric column; [None] is Python's [None]. *)
Definition metric_col_name (columns : list str) (map_name_construct : str)
    : option str :=
  match possible_metric_cols columns with
  | [] => None
  | first :: _ =>
      match List.filter
              (fun col => contains (metric_keyword map_name_construct) (lower col))
              (possible_metric_cols columns) with
      | matching :: _ => Some matching
      | [] => Some first
      end
  end.

(** [if metric_col_name and metric_col_name in filtered_df.columns]: the
    value filter is offered. *)
Definition value_filter_column (columns : list str) (map_name_construct : str)
    : option str :=
  match metric_col_name columns map_name_construct with
  | Some col =>
      if negb (str_eqb col []) && bool_decide (col ∈ columns)
      then Some col else None
  | None => None
  end.

(** [[col for col in df.columns if not col.endswith('_capped_viz')]] *)
Definition display_cols (columns : list str) : list str :=
  List.filter (fun col => negb (endswith (lit "_capped_viz") col)) columns.

End Table.

(** ** The password gate

    One run of the script from its top to the end of the gate.  The
    session state holds the key ["authenticated"] or not; the secrets hold
    the password or not; the widgets give the text typed and whether the
    button was pressed. *)

Module Gate.

Import Py PyVal Renderer.

Inductive screen :=
  | Secret_missing
  | Login_form (incorrect_password : bool)
  | Rerun
  | Dashboard.

(** The value of ["authenticated"] after the run, and what the run ends
    with. *)
Definition run (session : option bool) (secret : option value)
    (password_input : str) (login_pressed : bool) : bool * screen :=
  let authenticated :=
    match session with Some b => b | None => false end in
  match secret with
  | None => (authenticated, Secret_missing)
  | Some PASSWORD =>
      if negb authenticated then
        if login_pressed then
          if eq_str PASSWORD password_input
          then (true, Rerun)
          else (authenticated, Login_form true)
        else (authenticated, Login_form false)
      else (authenticated, Dashboard)
  end.

(** What the user does in one run: the text typed and the button. *)
Definition action : Type := str * bool.

(** The session after a sequence of runs with the same secrets. *)
Fixpoint session_after (session : option bool) (secret : option value)
    (actions : list action) : option bool :=
  match actions with
  | [] => session
  | (password_input, login_pressed) :: rest =>
      session_after
        (Some (fst (run session secret password_input login_pressed)))
        secret rest
  end.

End Gate.

(** ** Further notions used to state properties *)

Module MoreProps.

Import Py PyVal Loader Renderer Props.

(** The two range tests on the coordinates of a row; an exception counts
    as a failed test. *)
Definition coordinates_in_range (r : Facility) : bool :=
  match between (-90) 90 (Latitude r), between (-180) 180 (Longitude r) with
  | Ok a, Ok b => a && b
  | _, _ => false
  end.

(** A row that the loader keeps. *)
Definition retained (r : Facility) : bool :=
  has_name_and_coordinates r && coordinates_in_range r.


(** The file gives a frame. *)
Definition loads (csv_file : str * result DataFrame) : bool :=
  match process_file (fst csv_file) (snd csv_file) with
  | Ok (Loaded _) => true
  | _ => false
  end.

(** A text without white space at either end. *)
Definition stripped (s : str) : Prop :=
  lstrip s = s /\ lstrip (rev s) = rev s.

(** The texts of a row that the popup shows as they are. *)
Definition shown_texts (r : Facility) : list str :=
  [str_of (NPI r); str_of (Group_Name r); str_of (Street_Address r);
   str_of (City r); str_of (State r); str_of (Zip r);
   str_of (is_substance_abuse_rehab r); str_of (is_sud_rehab_clinic r)].

(** A text without a backslash. *)
Definition plain (s : str) : Prop := backslash ∉ s.

End MoreProps.

(** * Properties

    ** Python strings *)

Module PyFacts.

Import Py PyVal Loader Renderer Props.

Lemma startswith_spec (p s : str) :
  startswith p s = true <-> exists t, s = p ++ t.
Proof.
  revert s. induction p as [|a p IH]; intros s; simpl.
  - split; [intros _; by exists s | done].
  - destruct s as [|b s].
    + split; [done | intros [t Ht]; discriminate].
    + rewrite andb_true_iff, IH, Ascii.eqb_eq. split.
      * intros [-> [t ->]]. by exists t.
      * intros [t Ht]. injection Ht as -> ->. split; [done | by exists t].
Qed.

Lemma startswith_app (p s t : str) :
  startswith p s = true -> startswith p (s ++ t) = true.
Proof.
  rewrite !startswith_spec. intros [u ->]. exists (u ++ t). by rewrite app_assoc.
Qed.

Lemma startswith_self (p t : str) : startswith p (p ++ t) = true.
Proof. apply startswith_spec. by exists t. Qed.

Lemma startswith_first (c : ascii) (p s : str) :
  startswith (c :: p) s = true -> exists s', s = c :: s'.
Proof. rewrite startswith_spec. intros [t ->]. by exists (p ++ t). Qed.

Lemma contains_cons (p : str) (c : ascii) (s : str) :
  contains p s = true -> contains p (c :: s) = true.
Proof. intros H. simpl. destruct (startswith p (c :: s)); [done|]. by destruct s. Qed.

Lemma contains_app_r (p a s : str) :
  contains p s = true -> contains p (a ++ s) = true.
Proof. intros H. induction a as [|c a IH]; [done|]. by apply contains_cons. Qed.

Lemma contains_app_l (p s b : str) :
  contains p s = true -> contains p (s ++ b) = true.
Proof.
  induction s as [|c s IH]; simpl.
  - rewrite orb_false_r. intros H. destruct p; [|done].
    destruct b; done.
  - rewrite !orb_true_iff. intros [H|H].
    + left. by apply (startswith_app p (c :: s) b).
    + right. by apply IH.
Qed.



Lemma find_startswith (p s : str) (i : nat) :
  find p s = Some i -> startswith p (drop i s) = true.
Proof.
  revert i. induction s as [|c s IH]; intros i; cbn [find].
  - destruct (startswith p []) eqn:E; [|done]. intros [= <-]. done.
  - destruct (startswith p (c :: s)) eqn:E; [intros [= <-]; done|].
    destruct (find p s) as [j|]; [|done]. intros [= <-]. by apply IH.
Qed.

Lemma occurrences_app (p a b : str) :
  (occurrences p a + occurrences p b <= occurrences p (a ++ b))%nat.
Proof.
  induction a as [|c a IH]; simpl; [lia|].
  destruct (startswith p (c :: a)) eqn:E.
  - pose proof (startswith_app p (c :: a) b E) as E'.
    change ((c :: a) ++ b) with (c :: a ++ b) in E'. rewrite E'. lia.
  - destruct (startswith p (c :: a ++ b)); lia.
Qed.

Lemma contains_occurrences (p s : str) :
  p <> [] -> contains p s = true -> (1 <= occurrences p s)%nat.
Proof.
  intros Hp. induction s as [|c s IH]; simpl.
  - destruct p; [done|]. done.
  - destruct (startswith p (c :: s)); simpl; [lia|]. intros H.
    specialize (IH H). lia.
Qed.

Lemma occurrences_not_contained (p s : str) :
  contains p s = false -> occurrences p s = 0%nat.
Proof.
  induction s as [|c s IH]; [done|].
  cbn [contains occurrences]. intros [H1 H2]%orb_false_iff.
  rewrite H1. by rewrite IH.
Qed.

Lemma occurrences_zero (p s : str) :
  occurrences p s = 0%nat -> p <> [] -> contains p s = false.
Proof.
  intros H Hp. destruct (contains p s) eqn:E; [|done].
  apply contains_occurrences in E; [lia | done].
Qed.

(** *** Inserting in front of the occurrences of a pattern

    The pattern is [old = c0 :: old'].  A text without [c0] holds no start
    of an occurrence. *)

Section InsertBefore.

Variables (c0 : ascii) (old' ins : str).
Let old : str := c0 :: old'.

Lemma startswith_old_first (c : ascii) (s : str) :
  startswith old (c :: s) = true -> c = c0.
Proof. intros [t Ht]%startswith_spec. by injection Ht. Qed.

Lemma insert_before_skip (u t : str) :
  c0 ∉ u -> insert_before old ins (u ++ t) = u ++ insert_before old ins t.
Proof.
  induction u as [|c u IH]; intros Hu; [done|].
  apply not_elem_of_cons in Hu as [Hc Hu].
  change (insert_before old ins ((c :: u) ++ t))
    with ((if startswith old (c :: u ++ t) then ins else [])
          ++ c :: insert_before old ins (u ++ t)).
  destruct (startswith old (c :: u ++ t)) eqn:E.
  - apply startswith_old_first in E. congruence.
  - simpl. by rewrite IH.
Qed.

Lemma insert_before_sublist (s : str) : sublist s (insert_before old ins s).
Proof.
  induction s as [|c s IH]; [constructor|].
  cbn [insert_before]. apply sublist_inserts_l. by constructor.
Qed.

Lemma insert_before_none (s : str) :
  contains old s = false -> insert_before old ins s = s.
Proof.
  induction s as [|c s IH]; [done|].
  cbn [insert_before contains]. intros [H1 H2]%orb_false_iff.
  rewrite H1. simpl. by rewrite IH.
Qed.

Lemma insert_before_tag (s : str) :
  contains old s = true ->
  exists a b, insert_before old ins s = a ++ ins ++ b.
Proof.
  induction s as [|c s IH]; [done|].
  cbn [insert_before contains]. destruct (startswith old (c :: s)) eqn:E.
  - intros _. exists [], (c :: insert_before old ins s). done.
  - simpl. intros H. destruct (IH H) as (a & b & ->). by exists (c :: a), b.
Qed.

Lemma insert_before_one (s : str) :
  occurrences old s = 1%nat ->
  exists i, find old s = Some i /\
            insert_before old ins s = take i s ++ ins ++ drop i s.
Proof.
  induction s as [|c s IH]; [done|].
  cbn [insert_before occurrences find]. destruct (startswith old (c :: s)) eqn:E.
  - intros H. exists 0%nat. split; [done|]. simpl.
    rewrite insert_before_none; [done|].
    apply occurrences_zero; [lia | done].
  - simpl. intros H. destruct (IH H) as (i & Hi & ->).
    exists (S i). rewrite Hi. done.
Qed.

(** An occurrence of a pattern that avoids [c0], seen through a character
    map [f], survives the insertions. *)
Lemma insert_before_startswith (f : ascii -> ascii) (P : str) (c : ascii) (s : str) :
  f c0 ∉ P -> P <> [] ->
  startswith P (map f (c :: s)) = true ->
  startswith old (c :: s) = false /\
  startswith P (map f (c :: insert_before old ins s)) = true.
Proof.
  intros HP Hne [t Ht]%startswith_spec.
  apply map_eq_app in Ht as (u & s2 & Hs & Hu & _).
  assert (Hc0 : c0 ∉ u).
  { intros Hin. apply HP. rewrite <- Hu. apply list_elem_of_In, in_map.
    by apply list_elem_of_In. }
  destruct u as [|c' u]; [by subst P|]. injection Hs as <- ->.
  assert (E : startswith old (c :: u ++ s2) = false).
  { destruct (startswith old (c :: u ++ s2)) eqn:E; [|done].
    apply startswith_old_first in E. subst c. exfalso. apply Hc0. left. }
  split; [done|].
  pose proof (insert_before_skip (c :: u) s2 Hc0) as Hskip.
  change ((c :: u) ++ s2) with (c :: u ++ s2) in Hskip.
  cbn [insert_before] in Hskip. rewrite E in Hskip. simpl app in Hskip.
  injection Hskip as Hskip. rewrite Hskip.
  change (c :: u ++ insert_before old ins s2)
    with ((c :: u) ++ insert_before old ins s2).
  rewrite map_app, Hu. apply startswith_self.
Qed.

Lemma insert_before_contains (f : ascii -> ascii) (P s : str) :
  f c0 ∉ P ->
  contains P (map f s) = true ->
  contains P (map f (insert_before old ins s)) = true.
Proof.
  intros HP. destruct P as [|p P].
  { intros _. by destruct (map f (insert_before old ins s)). }
  induction s as [|c s IH]; [done|].
  cbn [insert_before]. rewrite map_app.
  change (map f (c :: s)) with (f c :: map f s). cbn [contains].
  intros [H|H]%orb_true_iff.
  - destruct (insert_before_startswith f (p :: P) c s HP) as [_ H2]; [done|done|].
    apply contains_app_r.
    change (map f (c :: insert_before old ins s))
      with (f c :: map f (insert_before old ins s)) in *.
    cbn [contains]. by rewrite H2.
  - apply contains_app_r. apply contains_cons. by apply IH.
Qed.

Lemma insert_before_occurrences (P s : str) :
  c0 ∉ P -> P <> [] ->
  (occurrences P s + (if contains old s then occurrences P ins else 0)
   <= occurrences P (insert_before old ins s))%nat.
Proof.
  intros HP Hne. induction s as [|c s IH]; [simpl; lia|].
  cbn [insert_before occurrences contains].
  assert (Hhead : ((if startswith P (c :: s) then 1 else 0)
    <= (if startswith P (c :: insert_before old ins s) then 1 else 0))%nat).
  { destruct (startswith P (c :: s)) eqn:E; [|lia].
    destruct (insert_before_startswith id P c s) as [_ H2].
    - done.
    - done.
    - by rewrite map_id.
    - rewrite map_id in H2. rewrite H2. lia. }
  destruct (startswith old (c :: s)) eqn:E.
  - simpl orb. cbv iota.
    pose proof (occurrences_app P ins (c :: insert_before old ins s)) as Happ.
    cbn [occurrences] in Happ.
    destruct (contains old s); lia.
  - simpl orb. simpl app. cbn [occurrences]. lia.
Qed.

Lemma replace_from_drop (new : str) (k : nat) (s : str) :
  replace_from old new k s = replace_from old new 0 (drop k s).
Proof.
  revert k. induction s as [|c s IH]; intros [|k]; try done.
  simpl. apply IH.
Qed.

(** When [c0] does not come back in [old'], replacing [old] by
    [ins ++ old] is inserting [ins] in front of each occurrence. *)
Lemma replace_insert_before (s : str) :
  c0 ∉ old' ->
  replace old (ins ++ old) s = insert_before old ins s.
Proof.
  intros Hc. unfold replace.
  induction s as [s IH] using (induction_ltof1 _ (@length ascii)).
  unfold ltof in IH. destruct s as [|c s]; [done|].
  cbn [replace_from insert_before]. destruct (startswith old (c :: s)) eqn:E.
  - apply startswith_spec in E as [t Ht]. injection Ht as -> ->.
    rewrite replace_from_drop.
    replace (length old - 1)%nat with (length old') by (subst old; simpl; lia).
    rewrite drop_app_length. rewrite insert_before_skip by done.
    rewrite IH; [by rewrite <- !app_assoc | ].
    simpl. rewrite length_app. lia.
  - simpl. f_equal. apply IH. simpl. lia.
Qed.

End InsertBefore.

End PyFacts.

(** ** The loader: where an output row comes from *)

Module LoaderFacts.

Import Py PyVal Loader Renderer Props PyFacts.

Lemma mapM_Ok {A B} (f : A -> result B) (l : list A) (bs : list B) :
  mapM f l = Ok bs -> Forall2 (fun a b => f a = Ok b) l bs.
Proof.
  revert bs. induction l as [|a l IH]; intros bs; simpl.
  - intros [= <-]. constructor.
  - destruct (f a) as [b|e] eqn:Ea; simpl; [|done].
    destruct (mapM f l) as [bs'|e] eqn:El; simpl; [|done].
    intros [= <-]. constructor; [done | by apply IH].
Qed.

Lemma select_mask_elem (fs : list Facility) (mask : list bool) (r : Facility) :
  r ∈ select_mask fs mask ->
  exists i, fs !! i = Some r /\ mask !! i = Some true.
Proof.
  revert mask. induction fs as [|x fs IH]; intros [|b mask]; simpl;
    try (intros H; by apply elem_of_nil in H).
  destruct b.
  - intros [->|H]%elem_of_cons.
    + by exists 0%nat.
    + destruct (IH _ H) as (i & ? & ?). by exists (S i).
  - intros H. destruct (IH _ H) as (i & ? & ?). by exists (S i).
Qed.

Lemma filter_coordinates_elem (fs out : list Facility) (r : Facility) :
  filter_coordinates fs = Ok out -> r ∈ out ->
  r ∈ fs /\ between (-90) 90 (Latitude r) = Ok true
  /\ between (-180) 180 (Longitude r) = Ok true.
Proof.
  unfold filter_coordinates.
  destruct (mapM _ fs) as [lat_ok|] eqn:Elat; simpl; [|done].
  destruct (mapM (fun r => between (-180) 180 _) fs) as [lon_ok|] eqn:Elon;
    simpl; [|done].
  intros [= <-] Hr.
  apply select_mask_elem in Hr as (i & Hi & Hm).
  apply lookup_zip_with_Some in Hm as (b1 & b2 & Hb & H1 & H2).
  symmetry in Hb. apply andb_true_iff in Hb as [-> ->].
  apply mapM_Ok in Elat, Elon.
  split; [by eapply list_elem_of_lookup_2|].
  split.
  - by apply (Forall2_lookup_lr _ _ _ _ _ _ Elat Hi H1).
  - by apply (Forall2_lookup_lr _ _ _ _ _ _ Elon Hi H2).
Qed.

Lemma clean_elem (fs out : list Facility) (r : Facility) :
  clean fs = Ok out -> r ∈ out ->
  exists s, s ∈ fs /\ has_name_and_coordinates s = true
    /\ between (-90) 90 (Latitude s) = Ok true
    /\ between (-180) 180 (Longitude s) = Ok true
    /\ exists z, convert_zip (astype_str_strip (Zip s)) = Ok z
                 /\ r = normalize_flags (set_Zip (clean_text_fields s) z).
Proof.
  unfold clean.
  destruct (filter_coordinates (dropna fs)) as [in_range|] eqn:Ef; simpl; [|done].
  destruct (mapM clean_zip _) as [zipped|] eqn:Ez; simpl; [|done].
  intros [= <-] Hr.
  apply list_elem_of_fmap in Hr as (r1 & -> & Hr1).
  apply mapM_Ok in Ez.
  apply list_elem_of_lookup in Hr1 as [i Hi].
  destruct (Forall2_lookup_r _ _ _ _ _ Ez Hi) as (x & Hx & Hcz).
  apply list_lookup_fmap_Some in Hx as (s & -> & Hs).
  apply list_elem_of_lookup_2 in Hs.
  destruct (filter_coordinates_elem _ _ _ Ef Hs) as (Hd & Hlat & Hlon).
  unfold dropna in Hd. apply list_elem_of_In, filter_In in Hd as [Hd Hn].
  exists s. split; [by apply list_elem_of_In|]. split; [done|].
  split; [done|]. split; [done|].
  unfold clean_zip in Hcz.
  destruct (convert_zip (Zip (clean_text_fields s))) as [z|] eqn:Ec; simpl in Hcz; [|done].
  injection Hcz as <-. by exists z.
Qed.

Lemma process_file_elem (name : str) (df : DataFrame) (fs : list Facility) (r : Facility) :
  process_file name (Ok df) = Ok (Loaded fs) -> r ∈ fs ->
  missing_cols df = [] /\ exists r0, r0 ∈ rows df /\ cleaned_from name r0 r.
Proof.
  unfold process_file. simpl. destruct (missing_cols df) eqn:Em; [|done].
  destruct (clean _) as [out|] eqn:Ec; simpl; [|done].
  intros [= <-] Hr. split; [done|].
  destruct (clean_elem _ _ _ Ec Hr) as (s & Hs & H).
  unfold select_required in Hs. apply list_elem_of_fmap in Hs as (r0 & -> & Hr0).
  by exists r0.
Qed.

Lemma loop_frames (csv_files : list (str * result DataFrame))
    (st : list (list Facility) * list message) :
  fold_left loop_body csv_files st
  = (st.1 ++ flat_map frame_of csv_files, st.2 ++ flat_map warnings_of csv_files).
Proof.
  revert st. induction csv_files as [|[name read] l IH]; intros [c lg]; simpl.
  - by rewrite !app_nil_r.
  - rewrite IH. unfold frame_of, warnings_of. simpl.
    destruct (process_file name read) as [[m|fs]|e]; simpl;
      by rewrite <- ?app_assoc, ?app_nil_r.
Qed.

(** The combined frame and the log, file by file. *)
Lemma load_facility_data_files (csv_files : list (str * result DataFrame)) :
  csv_files <> [] ->
  load_facility_data (Some csv_files)
  = (match flat_map frame_of csv_files with
     | [] => None
     | frames => Some (concat frames)
     end, flat_map warnings_of csv_files).
Proof.
  intros Hne. unfold load_facility_data. destruct csv_files as [|f l]; [done|].
  rewrite loop_frames. simpl fst. simpl snd. simpl app.
  change (flat_map frame_of (f :: l)) with (frame_of f ++ flat_map frame_of l).
  change (flat_map warnings_of (f :: l))
    with (warnings_of f ++ flat_map warnings_of l).
  by destruct (frame_of f ++ flat_map frame_of l).
Qed.

Lemma loaded_row_origin dir out log r :
  load_facility_data dir = (Some out, log) -> r ∈ out ->
  exists csv_files name df r0,
    dir = Some csv_files /\ (name, Ok df) ∈ csv_files /\ missing_cols df = []
    /\ r0 ∈ rows df /\ cleaned_from name r0 r.
Proof.
  destruct dir as [csv_files|]; [|done].
  destruct (decide (csv_files = [])) as [->|Hne]; [done|].
  rewrite load_facility_data_files by done.
  destruct (flat_map frame_of csv_files) as [|fr frs] eqn:Ef; [done|].
  intros [= <- _] Hr.
  change (r ∈ concat (fr :: frs)) in Hr.
  apply list_elem_of_In, in_concat in Hr as (fs & Hfs & Hr).
  rewrite <- Ef in Hfs. apply in_flat_map in Hfs as ([name read] & Hfile & Hfs).
  unfold frame_of in Hfs. simpl in Hfs.
  destruct (process_file name read) as [[m|fs']|e] eqn:Ep; try done.
  destruct Hfs as [->|[]].
  destruct read as [df|e]; [|done].
  destruct (process_file_elem _ _ _ r Ep) as (Hm & r0 & Hr0 & Hc).
  { by apply list_elem_of_In. }
  exists csv_files, name, df, r0. split; [done|]. split; [by apply list_elem_of_In|].
  done.
Qed.

End LoaderFacts.

(** ** The renderer: what one application adds *)

Module RendererFacts.

Import Py PyVal Loader Renderer Props PyFacts.

Lemma join_cons (sep p : str) (ps : list str) :
  ps <> [] -> join sep (p :: ps) = p ++ sep ++ join sep ps.
Proof. by destruct ps. Qed.

Lemma body_close_first : "<"%char ∉ lit "/body>".
Proof. apply (bool_decide_unpack _). by vm_compute. Qed.

Lemma inject_nonempty (d : str) (fs : list Facility) (ms : list str) :
  fs <> [] -> markers_from 0 fs = Ok ms ->
  inject_facility_markers_into_html d (Some fs)
  = Ok (if contains body_close d
        then insert_before body_close (script_tag d ms ++ [newline]) d
        else d ++ script_tag d ms).
Proof.
  intros Hne Hms. destruct fs as [|r fs]; [done|].
  unfold inject_facility_markers_into_html. rewrite Hms.
  unfold bind. cbv beta iota zeta.
  destruct (contains body_close d); [|done]. f_equal.
  rewrite (app_assoc (script_tag d ms)).
  apply (replace_insert_before "<"%char (lit "/body>")), body_close_first.
Qed.

Lemma inject_nonempty_out (d : str) (fs : list Facility) (ms : list str) (out : str) :
  fs <> [] -> markers_from 0 fs = Ok ms ->
  inject_facility_markers_into_html d (Some fs) = Ok out ->
  out = if contains body_close d
        then insert_before body_close (script_tag d ms ++ [newline]) d
        else d ++ script_tag d ms.
Proof. intros Hne Hms. rewrite (inject_nonempty d fs ms) by done. congruence. Qed.

Lemma inject_raises (d : str) (fs : list Facility) (e : exn) :
  markers_from 0 fs = Raise e ->
  inject_facility_markers_into_html d (Some fs) = Raise e.
Proof.
  intros Hms. destruct fs as [|r fs]; [done|].
  unfold inject_facility_markers_into_html. by rewrite Hms.
Qed.

Lemma facility_js_code_plugin (d : str) (ms : list str) :
  contains (lit "markercluster.css") (lower d) = false ->
  facility_js_code d ms = plugin_js :: cluster_open_js :: ms ++ [cluster_close_js].
Proof. intros E. unfold facility_js_code. by rewrite E. Qed.

Lemma facility_js_code_bare (d : str) (ms : list str) :
  contains (lit "markercluster.css") (lower d) = true ->
  facility_js_code d ms = cluster_open_js :: ms ++ [cluster_close_js].
Proof. intros E. unfold facility_js_code. by rewrite E. Qed.

Lemma script_tag_layers (d : str) (ms : list str) :
  (1 <= cluster_layers (script_tag d ms))%nat.
Proof.
  apply contains_occurrences; [done|].
  unfold script_tag. apply contains_app_r, contains_app_l.
  assert (H : contains (lit "L.markerClusterGroup(")
                (join [newline] (cluster_open_js :: ms ++ [cluster_close_js])) = true).
  { rewrite join_cons by (by destruct ms). apply contains_app_l. by vm_compute. }
  destruct (contains (lit "markercluster.css") (lower d)) eqn:E.
  - by rewrite facility_js_code_bare.
  - rewrite facility_js_code_plugin by done. rewrite join_cons by done.
    by apply contains_app_r, contains_app_r.
Qed.

Lemma layers_first : "<"%char ∉ lit "L.markerClusterGroup(".
Proof. apply (bool_decide_unpack _). by vm_compute. Qed.

(** Every application of the renderer adds at least one cluster layer to
    the document. *)
Lemma inject_adds_layer (d : str) (fs : list Facility) (ms : list str) (out : str) :
  fs <> [] -> markers_from 0 fs = Ok ms ->
  inject_facility_markers_into_html d (Some fs) = Ok out ->
  (cluster_layers d + 1 <= cluster_layers out)%nat.
Proof.
  intros Hne Hms Hout. apply (inject_nonempty_out d fs ms) in Hout; [|done..].
  subst out.
  pose proof (script_tag_layers d ms) as Htag. unfold cluster_layers in *.
  destruct (contains body_close d) eqn:E.
  - pose proof (insert_before_occurrences "<"%char (lit "/body>")
                  (script_tag d ms ++ [newline]) (lit "L.markerClusterGroup(") d
                  layers_first) as H.
    change ("<"%char :: lit "/body>") with body_close in H. rewrite E in H.
    pose proof (occurrences_app (lit "L.markerClusterGroup(") (script_tag d ms) [newline]).
    specialize (H ltac:(done)). lia.
  - pose proof (occurrences_app (lit "L.markerClusterGroup(") d (script_tag d ms)). lia.
Qed.

Lemma css_first : lower_char "<"%char ∉ lit "markercluster.css".
Proof. apply (bool_decide_unpack _). by vm_compute. Qed.

Lemma script_tag_plugin (d : str) (ms : list str) :
  contains (lit "markercluster.css") (lower d) = false ->
  contains (lit "markercluster.css") (lower (script_tag d ms)) = true.
Proof.
  intros E. unfold script_tag. rewrite facility_js_code_plugin by done.
  rewrite join_cons by done. unfold lower. rewrite !map_app.
  apply contains_app_r, contains_app_l, contains_app_l. by vm_compute.
Qed.

(** After one application the guard of the plugin sees it. *)
Lemma inject_plugin_present (d : str) (fs : list Facility) (ms : list str) (out : str) :
  fs <> [] -> markers_from 0 fs = Ok ms ->
  inject_facility_markers_into_html d (Some fs) = Ok out ->
  contains (lit "markercluster.css") (lower out) = true.
Proof.
  intros Hne Hms Hout. apply (inject_nonempty_out d fs ms) in Hout; [|done..].
  subst out.
  destruct (contains (lit "markercluster.css") (lower d)) eqn:Ecss.
  - destruct (contains body_close d).
    + apply (insert_before_contains "<"%char (lit "/body>")); [apply css_first | done].
    + unfold lower. rewrite map_app. by apply contains_app_l.
  - pose proof (script_tag_plugin d ms Ecss) as Htag.
    destruct (contains body_close d) eqn:E.
    + destruct (insert_before_tag "<"%char (lit "/body>")
                  (script_tag d ms ++ [newline]) d E) as (a & b & Hab).
      change ("<"%char :: lit "/body>") with body_close in Hab. rewrite Hab.
      unfold lower in *. rewrite !map_app.
      by apply contains_app_r, contains_app_l, contains_app_l.
    + unfold lower in *. rewrite map_app. by apply contains_app_r.
Qed.

Lemma script_tag_bare (d : str) (ms : list str) :
  contains (lit "markercluster.css") (lower d) = true ->
  script_tag d ms = bare_script_tag ms.
Proof.
  intros E. unfold script_tag, bare_script_tag. by rewrite facility_js_code_bare.
Qed.

End RendererFacts.

(** ** The escaping of the popup *)

Module EscapeFacts.

Import Py PyVal Loader Renderer Props PyFacts.

Lemma replace_char (c : ascii) (new s : str) :
  replace [c] new s = flat_map (fun x => if Ascii.eqb c x then new else [x]) s.
Proof.
  unfold replace. induction s as [|x s IH]; [done|].
  cbn [replace_from startswith flat_map]. rewrite andb_true_r.
  destruct (Ascii.eqb c x); simpl; by rewrite IH.
Qed.

Lemma escape_cons (c : ascii) (s : str) :
  escape (c :: s) = escape_char c ++ escape s.
Proof.
  unfold escape. rewrite !replace_char. cbn [flat_map]. rewrite flat_map_app.
  f_equal. unfold escape_char. rewrite (Ascii.eqb_sym c dquote).
  destruct (Ascii.eqb dquote c) eqn:E1.
  - by vm_compute.
  - rewrite (Ascii.eqb_sym c newline). cbn [flat_map]. rewrite app_nil_r.
    by destruct (Ascii.eqb newline c).
Qed.

(** No line feed is left. *)
Lemma escape_no_newline (s : str) : newline ∉ escape s.
Proof.
  induction s as [|c s IH]; [apply not_elem_of_nil|].
  rewrite escape_cons. apply not_elem_of_app. split; [|done].
  unfold escape_char. destruct (Ascii.eqb c dquote) eqn:E1.
  - apply (bool_decide_unpack _). by vm_compute.
  - destruct (Ascii.eqb c newline) eqn:E2.
    + apply (bool_decide_unpack _). by vm_compute.
    + apply Ascii.eqb_neq in E2. intros H. apply list_elem_of_singleton in H.
      congruence.
Qed.

(** A text without backslashes is escaped well: JavaScript finds no end
    of the literal in it. *)
Lemma escape_without_backslash (s : str) :
  backslash ∉ s -> has_unescaped_quote (escape s) = false.
Proof.
  induction s as [|c s IH]; [done|].
  intros [Hc Hs]%not_elem_of_cons. rewrite escape_cons. unfold escape_char.
  destruct (Ascii.eqb c dquote) eqn:E1; [by apply IH|].
  destruct (Ascii.eqb c newline) eqn:E2; [by apply IH|].
  simpl. rewrite E1. apply Ascii.eqb_neq in Hc. rewrite Ascii.eqb_sym, Hc. by apply IH.
Qed.

End EscapeFacts.

(** ** The renderer returns on the rows of the loader *)

Module RenderTotal.

Import Py PyVal Loader Renderer Props PyFacts LoaderFacts RendererFacts.

Lemma markers_from_total (idx : nat) (fs : list Facility) :
  renderable fs -> exists ms, markers_from idx fs = Ok ms.
Proof.
  revert idx. induction fs as [|r fs IH]; intros idx Hfs; [by exists []|].
  destruct (Hfs r) as [[lat Hlat] [lon Hlon]]; [left|].
  destruct (IH (S idx)) as [ms Hms].
  { intros x Hx. apply Hfs. by right. }
  cbn [markers_from]. unfold marker_code, popup_html.
  rewrite Hlat, Hlon. unfold bind. rewrite Hms. by eexists.
Qed.

Lemma small_int_formats (k : Z) :
  -180 <= k <= 180 -> exists s, format_4f (VInt k) = Ok s.
Proof.
  intros Hk.
  assert (H : forallb (fun n => match format_4f (VInt (Z.of_nat n - 180)) with
                                | Ok _ => true | Raise _ => false end)
                (seq 0 361) = true) by (by vm_compute).
  rewrite forallb_forall in H. specialize (H (Z.to_nat (k + 180))).
  rewrite Z2Nat.id in H by lia. replace (k + 180 - 180) with k in H by lia.
  destruct (format_4f (VInt k)) as [s|e]; [by exists s|].
  discriminate H. apply in_seq. lia.
Qed.

(** A coordinate that passed the range filter can be formatted. *)
Lemma between_formattable (lo hi : Z) (v : value) :
  -180 <= lo -> hi <= 180 -> between lo hi v = Ok true ->
  exists s, coordinate_text v = Ok s.
Proof.
  intros Hlo Hhi. unfold coordinate_text.
  destruct v as [|b|k|f|s]; simpl; try done.
  - intros _. destruct b; by eexists.
  - intros [= [H1 H2]%andb_true_iff]. apply small_int_formats. lia.
  - intros _. destruct (negb (PyFloat.isnan f)); by eexists.
Qed.

(** The rows that the loader returns can be rendered. *)
Lemma loader_rows_renderable dir out log :
  load_facility_data dir = (Some out, log) -> renderable out.
Proof.
  intros Hload r Hr.
  destruct (loaded_row_origin dir out log r Hload Hr)
    as (csv_files & name & df & r0 & _ & _ & _ & _ & Hc).
  destruct Hc as (_ & Hlat & Hlon & z & _ & ->). cbn [select_row] in *.
  split.
  - by apply (between_formattable (-90) 90).
  - by apply (between_formattable (-180) 180).
Qed.

End RenderTotal.

(** ** The range test on rational numbers *)

Module RangeFacts.

Import Py PyVal Loader Renderer Props.

Lemma pow2_Q (e : Z) : 0 <= e -> ((2 # 1) ^ e == inject_Z (2 ^ e))%Q.
Proof. intros He. symmetry. apply (Zpower_Qpower 2 e He). Qed.

Lemma pow2_pos (e : Z) : 0 <= e -> (0 < inject_Z (2 ^ e))%Q.
Proof.
  intros He. change 0%Q with (inject_Z 0). rewrite <- Zlt_Qlt.
  by apply Z.pow_pos_nonneg.
Qed.

(** The comparisons of [cmp_int] are those of the rational numbers. *)
Lemma scaled_le (v e n : Z) :
  (if 0 <=? e then v * 2 ^ e ?= n else v ?= n * 2 ^ (- e)) <> Gt ->
  (inject_Z v * (2 # 1) ^ e <= inject_Z n)%Q.
Proof.
  destruct (Z.leb_spec 0 e) as [He|He]; intros H.
  - rewrite pow2_Q by done. rewrite <- inject_Z_mult, <- Zle_Qle.
    by apply Z.compare_le_iff.
  - replace e with (- - e) by lia. rewrite Qpower_opp, pow2_Q by lia.
    apply Qle_shift_div_r; [apply pow2_pos; lia|].
    rewrite <- inject_Z_mult, <- Zle_Qle. by apply Z.compare_le_iff.
Qed.

Lemma scaled_ge (v e n : Z) :
  (if 0 <=? e then v * 2 ^ e ?= n else v ?= n * 2 ^ (- e)) <> Lt ->
  (inject_Z n <= inject_Z v * (2 # 1) ^ e)%Q.
Proof.
  destruct (Z.leb_spec 0 e) as [He|He]; intros H.
  - rewrite pow2_Q by done. rewrite <- inject_Z_mult, <- Zle_Qle.
    by apply Z.compare_ge_iff.
  - replace e with (- - e) by lia. rewrite Qpower_opp, pow2_Q by lia.
    apply Qle_shift_div_l; [apply pow2_pos; lia|].
    rewrite <- inject_Z_mult, <- Zle_Qle. by apply Z.compare_ge_iff.
Qed.

(** A cell that passes [between] is a number of the interval. *)
Lemma between_in_range (lo hi : Z) (v : value) :
  between lo hi v = Ok true -> in_range lo hi v.
Proof.
  unfold in_range. destruct v as [|b|k|f|s]; simpl; try done.
  - intros [= [H1 H2]%andb_true_iff]. eexists. split; [done|].
    rewrite <- !Zle_Qle. lia.
  - intros [= [H1 H2]%andb_true_iff]. eexists. split; [done|].
    rewrite <- !Zle_Qle. lia.
  - intros [= [H1 H2]%andb_true_iff].
    unfold PyFloat.ge_int, PyFloat.le_int in *.
    destruct f as [s| | |s m e]; simpl in *; try done.
    + eexists. split; [done|]. rewrite <- !Zle_Qle.
      destruct lo, hi; try done; lia.
    + by destruct s.
    + eexists. split; [done|]. split.
      * apply scaled_ge. by destruct (if 0 <=? e then _ else _).
      * apply scaled_le. by destruct (if 0 <=? e then _ ?= hi else _).
Qed.

End RangeFacts.

(** ** The postal code *)

Module ZipFacts.

Import Py PyVal Loader Renderer Props PyFacts.

Lemma endswith_spec (p s : str) :
  endswith p s = true <-> exists a, s = a ++ p.
Proof.
  unfold endswith. rewrite startswith_spec. split.
  - intros [t Ht]. exists (rev t).
    rewrite <- (rev_involutive s), Ht, rev_app_distr. by rewrite rev_involutive.
  - intros [a ->]. exists (rev a). by rewrite rev_app_distr.
Qed.

Lemma uint_digits (d : Decimal.uint) :
  all_digits (lit (NilEmpty.string_of_uint d)) = true.
Proof. induction d; simpl; done. Qed.

Lemma nilzero_digits (d : Decimal.uint) :
  all_digits (lit (NilZero.string_of_uint d)) = true.
Proof. destruct d; try apply (uint_digits (_ d)); done. Qed.

(** The decimal text of an int: digits, after a minus sign when it is
    negative. *)
Lemma str_of_int_shape (n : Z) :
  exists ds, all_digits ds = true
             /\ str_of_int n = (if n <? 0 then lit "-" else []) ++ ds.
Proof.
  unfold str_of_int. destruct n as [|p|p]; simpl.
  - by exists (lit "0").
  - eexists. split; [apply nilzero_digits | done].
  - eexists. split; [apply nilzero_digits | done].
Qed.

Lemma str_of_int_no_dot (n : Z) : "."%char ∉ str_of_int n.
Proof.
  destruct (str_of_int_shape n) as (ds & Hds & ->).
  apply not_elem_of_app. split.
  - destruct (n <? 0); [|apply not_elem_of_nil].
    apply (bool_decide_unpack _). by vm_compute.
  - intros Hin. unfold all_digits in Hds. rewrite forallb_forall in Hds.
    apply list_elem_of_In, Hds in Hin. done.
Qed.

Lemma str_of_int_not_dot0 (n : Z) : endswith (lit ".0") (str_of_int n) = false.
Proof.
  destruct (endswith (lit ".0") (str_of_int n)) eqn:E; [|done].
  apply endswith_spec in E as [a Ha]. exfalso.
  apply (str_of_int_no_dot n). rewrite Ha. apply elem_of_app. right. left.
Qed.

(** *** Small integers are floats *)

Lemma digits2_pos_bounds (p : positive) :
  2 ^ (Z.pos (digits2_pos p) - 1) <= Z.pos p < 2 ^ Z.pos (digits2_pos p).
Proof.
  induction p as [p IH|p IH|]; cbn [digits2_pos].
  - rewrite Pos2Z.inj_succ.
    replace (Z.succ (Z.pos (digits2_pos p)) - 1) with (Z.succ (Z.pos (digits2_pos p) - 1)) by lia.
    rewrite !Z.pow_succ_r by lia. lia.
  - rewrite Pos2Z.inj_succ.
    replace (Z.succ (Z.pos (digits2_pos p)) - 1) with (Z.succ (Z.pos (digits2_pos p) - 1)) by lia.
    rewrite !Z.pow_succ_r by lia. lia.
  - simpl. lia.
Qed.

Lemma iter_xO_value (k p : positive) :
  Z.pos (Pos.iter xO p k) = Z.pos p * 2 ^ Z.pos k.
Proof.
  revert p. induction k as [|k IH] using Pos.peano_ind; intros p.
  - simpl. lia.
  - rewrite Pos.iter_succ, Pos2Z.inj_succ, Z.pow_succ_r by lia.
    rewrite Pos2Z.inj_xO, IH. lia.
Qed.

Lemma iter_xO_digits (k p : positive) :
  digits2_pos (Pos.iter xO p k) = (digits2_pos p + k)%positive.
Proof.
  revert p. induction k as [|k IH] using Pos.peano_ind; intros p.
  - simpl. lia.
  - rewrite Pos.iter_succ. cbn [digits2_pos]. rewrite IH. lia.
Qed.

(** Rounding a mantissa of 53 bits changes nothing. *)
Lemma binary_round_aux_exact (sx : bool) (m : positive) (e : Z) :
  Z.pos (digits2_pos m) = 53 -> -52 <= e <= 0 ->
  binary_round_aux 53 1024 sx (Z.pos m) e loc_Exact = S754_finite sx m e.
Proof.
  intros Hd He. unfold binary_round_aux.
  assert (Hs : shr_fexp 53 1024 (Z.pos m) e loc_Exact
               = ({| shr_m := Z.pos m; shr_r := false; shr_s := false |}, e)).
  { unfold shr_fexp, shr, shr_record_of_loc. cbn [Zdigits2]. rewrite Hd.
    unfold fexp, emin.
    replace (Z.max (53 + e - 53) (3 - 1024 - 53) - e) with 0 by lia. done. }
  rewrite Hs. cbn [shr_m loc_of_shr_record round_nearest_even]. rewrite Hs.
  cbn [shr_m]. destruct (Z.leb_spec e (1024 - 53)); [done | lia].
Qed.

Lemma binary_round_small (sx : bool) (p : positive) :
  Z.pos p < 2 ^ 53 ->
  PyFloat.to_int (binary_round 53 1024 sx p 0) = Some (cond_Zopp sx (Z.pos p)).
Proof.
  intros Hp. pose proof (digits2_pos_bounds p) as [Hlo _].
  assert (Hd : Z.pos (digits2_pos p) <= 53).
  { destruct (Z.le_gt_cases (Z.pos (digits2_pos p)) 53) as [|Hgt]; [done|].
    exfalso. assert (2 ^ 53 <= 2 ^ (Z.pos (digits2_pos p) - 1))
      by (apply Z.pow_le_mono_r; lia). lia. }
  unfold binary_round, shl_align. rewrite Z.add_0_r, Z.sub_0_r.
  unfold fexp, emin.
  replace (Z.max (Z.pos (digits2_pos p) - 53) (3 - 1024 - 53))
    with (Z.pos (digits2_pos p) - 53) by lia.
  destruct (Z.pos (digits2_pos p) - 53) as [|q|q] eqn:Eq; [|lia|].
  - rewrite binary_round_aux_exact by lia. cbn [PyFloat.to_int Z.leb Z.compare].
    f_equal. f_equal. simpl. lia.
  - rewrite binary_round_aux_exact.
    + cbn [PyFloat.to_int]. destruct (Z.leb_spec 0 (Z.neg q)); [lia|].
      f_equal. f_equal. rewrite iter_xO_value. cbn [Z.opp].
      apply Z.div_mul. apply Z.pow_nonzero; lia.
    + rewrite iter_xO_digits. lia.
    + lia.
Qed.

(** [int(float(k))] is [k] for an int below 2^53. *)
Lemma int_of_float_small (k : Z) (szero : bool) :
  Z.abs k < 2 ^ 53 -> int_of_float (PyFloat.of_scaled k 0 szero) = Ok k.
Proof.
  intros Hk. unfold int_of_float, PyFloat.of_scaled, binary_normalize.
  destruct k as [|p|p].
  - done.
  - change PyFloat.prec with 53. change PyFloat.emax with 1024.
    rewrite binary_round_small by (simpl in Hk; lia). done.
  - change PyFloat.prec with 53. change PyFloat.emax with 1024.
    rewrite binary_round_small by (simpl in Hk; lia). done.
Qed.

(** *** The digits of a postal code *)

Lemma digitpart_digits (ds : str) (acc : Z) (after_digit : bool) :
  all_digits ds = true -> ds <> [] \/ after_digit = true ->
  digitpart acc after_digit ds
  = Some (fold_left (fun acc c => 10 * acc + digit_value c) ds acc).
Proof.
  revert acc after_digit. induction ds as [|c ds IH]; intros acc b Hd Hne.
  - destruct Hne as [?| ->]; done.
  - cbn [all_digits forallb] in Hd. apply andb_true_iff in Hd as [Hc Hd].
    cbn [digitpart fold_left]. rewrite Hc. apply IH; [done | by right].
Qed.

Lemma decimal_value_nonneg (ds : str) : all_digits ds = true -> 0 <= decimal_value ds.
Proof.
  unfold decimal_value.
  assert (H : forall acc, 0 <= acc -> all_digits ds = true ->
              0 <= fold_left (fun acc c => 10 * acc + digit_value c) ds acc).
  { induction ds as [|c ds IH]; intros acc Hacc Hd; [done|].
    cbn [all_digits forallb] in Hd. apply andb_true_iff in Hd as [Hc Hd].
    cbn [fold_left]. apply IH; [|done].
    unfold is_digit in Hc. unfold digit_value.
    apply andb_true_iff in Hc as [Hc _]. apply Nat.leb_le in Hc. lia. }
  by apply H.
Qed.

Lemma take_app_dot0 (ds : str) :
  take (length (ds ++ lit ".0") - 2) (ds ++ lit ".0") = ds.
Proof.
  rewrite length_app. replace (length ds + length (lit ".0") - 2)%nat
    with (length ds) by (simpl; lia).
  by rewrite take_app_length.
Qed.

Lemma endswith_app_dot0 (ds : str) : endswith (lit ".0") (ds ++ lit ".0") = true.
Proof. apply endswith_spec. by exists ds. Qed.

(** [float] of digits followed by '.0', after a sign or not. *)
Lemma float_of_dot0_digits (sg ds : str) :
  sg = [] \/ sg = lit "+" \/ sg = lit "-" ->
  all_digits ds = true ->
  float_of_dot0 (sg ++ ds ++ lit ".0")
  = Ok (PyFloat.of_scaled
          (cond_Zopp (bool_decide (sg = lit "-")) (decimal_value ds)) 0
          (bool_decide (sg = lit "-"))).
Proof.
  intros Hsg Hd.
  assert (Hbody : match ds with [] => Some 0 | _ => digitpart 0 false ds end
                  = Some (decimal_value ds)).
  { destruct ds as [|c ds']; [done|]. apply digitpart_digits; [done | by left]. }
  assert (Hfirst : forall c rest, ds ++ lit ".0" = c :: rest ->
             isspace c = false /\ Ascii.eqb c "-"%char = false
             /\ Ascii.eqb c "+"%char = false).
  { intros c rest. destruct ds as [|d ds'].
    - intros [= <- _]. done.
    - intros [= <- _]. cbn [all_digits forallb] in Hd.
      apply andb_true_iff in Hd as [Hc _]. clear -Hc.
      destruct d as [[] [] [] [] [] [] [] []]; done. }
  unfold float_of_dot0.
  destruct Hsg as [->|[->| ->]].
  - cbn [app]. destruct (ds ++ lit ".0") as [|c rest] eqn:E.
    { by destruct ds. }
    destruct (Hfirst c rest eq_refl) as (Hsp & Hm & Hp).
    cbn [lstrip]. rewrite Hsp, Hm, Hp. rewrite <- E.
    rewrite endswith_app_dot0, take_app_dot0. cbn [negb]. rewrite Hbody. done.
  - change (lit "+" ++ ds ++ lit ".0") with ("+"%char :: ds ++ lit ".0").
    cbn [lstrip]. change (isspace "+") with false. cbv iota.
    change (Ascii.eqb "+" "-") with false. change (Ascii.eqb "+" "+") with true.
    cbv iota. rewrite endswith_app_dot0, take_app_dot0. cbn [negb]. rewrite Hbody.
    done.
  - change (lit "-" ++ ds ++ lit ".0") with ("-"%char :: ds ++ lit ".0").
    cbn [lstrip]. change (isspace "-") with false. cbv iota.
    change (Ascii.eqb "-" "-") with true.
    cbv iota. rewrite endswith_app_dot0, take_app_dot0. cbn [negb]. rewrite Hbody.
    done.
Qed.

(** The conversion of digits followed by '.0' gives the number, without
    its leading zeros. *)
Lemma convert_zip_digits (sg ds : str) :
  sg = [] \/ sg = lit "+" \/ sg = lit "-" ->
  all_digits ds = true -> decimal_value ds < 2 ^ 53 ->
  convert_zip (VStr (sg ++ ds ++ lit ".0"))
  = Ok (VStr (str_of_int
                (cond_Zopp (bool_decide (sg = lit "-")) (decimal_value ds)))).
Proof.
  intros Hsg Hd Hlt. unfold convert_zip. cbn [notnull str_of andb].
  rewrite app_assoc, endswith_app_dot0, <- app_assoc.
  rewrite float_of_dot0_digits by done. cbn [bind].
  rewrite int_of_float_small; [done|].
  pose proof (decimal_value_nonneg ds Hd).
  destruct (bool_decide (sg = lit "-")); simpl; lia.
Qed.

(** The conversion of a text that ends with '.0' is the text of
    [int(float(t))]. *)
Lemma convert_zip_dot0 (t : str) (z : value) :
  endswith (lit ".0") t = true -> convert_zip (VStr t) = Ok z ->
  exists f n,
    float_of_dot0 t = Ok f /\ int_of_float f = Ok n /\ z = VStr (str_of_int n).
Proof.
  unfold convert_zip. cbn [notnull str_of andb]. intros ->.
  destruct (float_of_dot0 t) as [f|]; cbn [bind]; [|done].
  destruct (int_of_float f) as [n|] eqn:En; cbn [bind]; [|done].
  intros Hz. exists f, n. split; [done|]. split; [done|]. congruence.
Qed.

(** What the conversion of the postal code makes of a text. *)
Lemma convert_zip_text (t : str) (z : value) :
  convert_zip (VStr t) = Ok z ->
  exists text,
    z = VStr text
    /\ endswith (lit ".0") text = false
    /\ (endswith (lit ".0") t = false -> text = t)
    /\ (endswith (lit ".0") t = true -> exists n, text = str_of_int n).
Proof.
  unfold convert_zip. cbn [notnull str_of andb].
  destruct (endswith (lit ".0") t) eqn:E.
  - destruct (float_of_dot0 t) as [f|]; cbn [bind]; [|done].
    destruct (int_of_float f) as [n|]; cbn [bind]; [|done].
    intros [= <-]. exists (str_of_int n).
    split; [done|]. split; [apply str_of_int_not_dot0|].
    split; [done|]. intros _. by exists n.
  - intros [= <-]. exists t. split; [done|]. split; [done|].
    split; [done|]. done.
Qed.

End ZipFacts.

(** ** Skipped files *)

Module SkipFacts.

Import Py PyVal Loader Renderer Props PyFacts LoaderFacts.

Lemma missing_required_skipped (name : str) (df : DataFrame) :
  missing_required df ->
  exists col rest,
    missing_cols df = col :: rest
    /\ process_file name (Ok df) = Ok (Skipped (col :: rest)).
Proof.
  intros (col & Hreq & Hcol).
  assert (Hin : In col (missing_cols df)).
  { unfold missing_cols. apply filter_In. split; [by apply list_elem_of_In|].
    apply negb_true_iff, bool_decide_eq_false. done. }
  unfold process_file. cbn [bind].
  destruct (missing_cols df) as [|c rest]; [done|]. by exists c, rest.
Qed.

(** A file with a missing column, or whose reading or cleaning raises,
    appends no frame and logs one warning. *)
Lemma skipped_file (name : str) (read : result DataFrame) :
  (exists df, read = Ok df /\ missing_required df)
  \/ (exists e, process_file name read = Raise e) ->
  frame_of (name, read) = []
  /\ exists w, warnings_of (name, read) = [w]
       /\ ((exists df, read = Ok df /\ w = Missing_columns name (missing_cols df))
           \/ (exists e, w = Could_not_process name e)).
Proof.
  unfold frame_of, warnings_of. cbn [fst snd].
  intros [(df & -> & Hm)|(e & He)].
  - destruct (missing_required_skipped name df Hm) as (c & rest & Hmc & Hp).
    rewrite Hp. split; [done|]. eexists. split; [done|]. left.
    exists df. by rewrite Hmc.
  - rewrite He. split; [done|]. eexists. split; [done|]. right. by exists e.
Qed.

(** Two ways in which the cleaning of a file raises. *)
Lemma text_latitude_raises (name : str) :
  process_file name (Ok Samples.frame_text_latitude) = Raise TypeError.
Proof. reflexivity. Qed.

Lemma unparsable_zip_raises (name : str) :
  process_file name (Ok Samples.frame_unparsable_zip) = Raise ValueError.
Proof. reflexivity. Qed.

Lemma load_files_fst (csv_files : list (str * result DataFrame)) :
  fst (load_facility_data (Some csv_files))
  = match flat_map frame_of csv_files with
    | [] => None
    | frames => Some (concat frames)
    end.
Proof.
  destruct csv_files as [|f l]; [done|]. by rewrite load_facility_data_files.
Qed.

End SkipFacts.

(** ** Flags and categories *)

Module FlagFacts.

Import Py PyVal Loader Renderer Props.

Lemma normalize_flag_spec (x : value) :
  normalize_flag x = flag_text (spec_flag x).
Proof.
  unfold normalize_flag, spec_flag.
  destruct x as [|[|]|k|f|s]; try done; simpl.
  - destruct (k =? 1); [done|]. by destruct (k =? 0).
  - destruct (PyFloat.eq_int f 1); [done|]. by destruct (PyFloat.eq_int f 0).
Qed.

Lemma classify_flag_text (sa sud : flag_state) :
  classify (flag_text sa) (flag_text sud) = category_style (spec_category sa sud).
Proof. by destruct sa, sud. Qed.


Lemma category_style_inj (c1 c2 : category) :
  category_style c1 = category_style c2 -> c1 = c2.
Proof. by destruct c1, c2. Qed.

End FlagFacts.

(** ** The markers in the document *)

Module MarkerFacts.

Import Py PyVal Loader Renderer Props PyFacts RendererFacts.

(** The list of markers, row by row. *)
Lemma markers_from_rows (idx : nat) (fs : list Facility) (ms : list str) :
  markers_from idx fs = Ok ms ->
  length ms = length fs
  /\ forall i r, fs !! i = Some r ->
       exists popup,
         popup_html r = Ok popup
         /\ ms !! i
            = Some (marker_js (str_of_int (Z.of_nat (idx + i)))
                      (str_of (Latitude r)) (str_of (Longitude r))
                      marker_color
                      (fst (classify (is_substance_abuse_rehab r)
                              (is_sud_rehab_clinic r)))
                      popup).
Proof.
  revert idx ms. induction fs as [|r fs IH]; intros idx ms; cbn [markers_from].
  - intros [= <-]. split; [done|]. intros i r Hi. done.
  - unfold marker_code at 1.
    destruct (popup_html r) as [popup|] eqn:Ep; cbn [bind]; [|done].
    destruct (markers_from (S idx) fs) as [ms'|] eqn:Em; cbn [bind]; [|done].
    intros [= <-]. destruct (IH _ _ Em) as [Hlen Hrows].
    split; [simpl; by rewrite Hlen|].
    intros [|i] r' Hi.
    + injection Hi as <-. exists popup. split; [done|].
      by rewrite Nat.add_0_r.
    + destruct (Hrows i r' Hi) as (p & Hp & Hm). exists p. split; [done|].
      replace (idx + S i)%nat with (S idx + i)%nat by lia. exact Hm.
Qed.







End MarkerFacts.

(** * The claims of the specification *)

Import Py PyVal Loader Renderer Props Samples.
Import PyFacts LoaderFacts RendererFacts EscapeFacts RenderTotal RangeFacts
  ZipFacts SkipFacts FlagFacts MarkerFacts.

(** C7. With an absent or an empty facility collection the renderer
    returns the base document itself. *)
Theorem render_without_facilities_is_identity (original_html : str) :
  inject_facility_markers_into_html original_html None = Ok original_html
  /\ inject_facility_markers_into_html original_html (Some []) = Ok original_html.
Proof. split; reflexivity. Qed.

(** C5. The classification follows the precedence of the specification
    and gives each facility one category: two flags that are true (the
    string 'True' of the program) give BOTH, never SUBSTANCE_ABUSE or
    SUD_CLINIC; the flags 1 and 0 of a source row, once normalized by the
    loader, give SUBSTANCE_ABUSE with its fill colour '#FF0000'. *)
Theorem classification_precedence (sa sud : flag_state) (x y : value) :
  classify (flag_text sa) (flag_text sud) = category_style (spec_category sa sud)
  /\ classify (normalize_flag x) (normalize_flag y)
     = category_style (spec_category (spec_flag x) (spec_flag y))
  /\ classify (VStr (lit "True")) (VStr (lit "True")) = category_style BOTH
  /\ category_style BOTH <> category_style SUBSTANCE_ABUSE
  /\ category_style BOTH <> category_style SUD_CLINIC
  /\ (forall c1 c2, category_style c1 = category_style c2 -> c1 = c2)
  /\ classify (normalize_flag (VInt 1)) (normalize_flag (VInt 0))
     = (lit "#FF0000", lit "Substance Abuse Rehab")
  /\ category_style SUBSTANCE_ABUSE = (lit "#FF0000", lit "Substance Abuse Rehab").
Proof.
  split; [apply classify_flag_text|].
  split; [rewrite !normalize_flag_spec; apply classify_flag_text|].
  split; [done|]. split; [done|]. split; [done|].
  split; [apply category_style_inj|]. split; reflexivity.
Qed.



(** C6 (the program misses a case).  A name that holds a backslash in
    front of a double quote goes through the loader as it is and leaves,
    in the emitted popup string, a double quote that JavaScript reads as
    the end of the literal: the backslash that [escape] adds is itself
    escaped by the backslash of the name. *)
Theorem popup_quote_after_backslash_not_neutralized :
  load_facility_data (Some file_backslash_quote)
  = (Some [clinic_backslash_quote], [])
  /\ exists popup,
       popup_html clinic_backslash_quote = Ok popup
       /\ has_unescaped_quote popup = true.
Proof.
  split; [by vm_compute|]. eexists. split; [by vm_compute | by vm_compute].
Qed.

(** C9. The renderer only inserts: whenever it returns (and it does when
    the coordinates of the rows can be formatted, as those of the loader
    can), the input document is kept, character by character and in
    order, inside the output; what is added is the script block, in front
    of each closing body marker with a line feed after it, so immediately
    before the marker when there is exactly one, and at the end of the
    document when there is none. *)
Theorem renderer_only_inserts (original_html : str)
    (facilities_df : option (list Facility)) :
  (match facilities_df with Some fs => renderable fs | None => True end ->
   exists out,
     inject_facility_markers_into_html original_html facilities_df = Ok out)
  /\ (forall dir log fs,
       load_facility_data dir = (Some fs, log) -> renderable fs)
  /\ forall out,
       inject_facility_markers_into_html original_html facilities_df = Ok out ->
       sublist original_html out
       /\ forall fs, facilities_df = Some fs -> fs <> [] ->
            exists markers,
              markers_from 0 fs = Ok markers
              /\ out = (if contains body_close original_html
                        then insert_before body_close
                               (script_tag original_html markers ++ [newline])
                               original_html
                        else original_html ++ script_tag original_html markers)
              /\ (occurrences body_close original_html = 1%nat ->
                  exists i,
                    find body_close original_html = Some i
                    /\ startswith body_close (drop i original_html) = true
                    /\ out = take i original_html
                             ++ script_tag original_html markers ++ [newline]
                             ++ drop i original_html)
              /\ (contains body_close original_html = false ->
                  out = original_html ++ script_tag original_html markers).
Proof.
  split.
  - destruct facilities_df as [[|r fs]|]; [by exists original_html| |by exists original_html].
    intros Hfs. destruct (markers_from_total 0 (r :: fs) Hfs) as [ms Hms].
    rewrite (inject_nonempty _ _ ms) by done. by eexists.
  - split; [intros dir log fs; apply loader_rows_renderable|].
    intros out Hout.
    destruct facilities_df as [[|r fs]|].
    + injection Hout as <-. split; [done|]. by intros fs [= <-].
    + destruct (markers_from 0 (r :: fs)) as [ms|e] eqn:Hms.
      2:{ by rewrite (inject_raises _ _ e) in Hout. }
      apply (inject_nonempty_out _ _ ms) in Hout; [|done..].
      assert (Hsub : sublist original_html out).
      { subst out. destruct (contains body_close original_html).
        - apply (insert_before_sublist "<"%char (lit "/body>")).
        - by apply sublist_inserts_r. }
      split; [done|]. intros fs' [= <-] _. exists ms.
      split; [done|]. split; [done|]. split.
      * intros Hone.
        assert (Hc : contains body_close original_html = true).
        { destruct (contains body_close original_html) eqn:E; [done|].
          apply occurrences_not_contained in E. lia. }
        rewrite Hc in Hout.
        destruct (insert_before_one "<"%char (lit "/body>")
                    (script_tag original_html ms ++ [newline]) original_html Hone)
          as (i & Hi & Hib).
        exists i. split; [done|]. split; [by apply find_startswith|].
        rewrite Hout.
        change ("<"%char :: lit "/body>") with body_close in Hib.
        by rewrite Hib, <- !app_assoc.
      * intros Hc. by rewrite Hc in Hout.
    + injection Hout as <-. split; [done|]. by intros fs [=].
Qed.

Lemma renderer_only_inserts_witness :
  exists out,
    inject_facility_markers_into_html base_html (Some [clinic]) = Ok out
    /\ sublist base_html out.
Proof.
  assert (H : exists out,
             inject_facility_markers_into_html base_html (Some [clinic]) = Ok out)
    by (eexists; vm_compute; reflexivity).
  destruct H as [out H]. exists out. split; [exact H|].
  exact (proj1 (proj2 (proj2 (renderer_only_inserts base_html (Some [clinic])))
                  out H)).
Defined.

(** C2, as the program has it.  Rendering onto the renderer's own output
    adds a second script block with a cluster layer of its own: the guard
    of the renderer is on the plugin only, whose loading text the second
    application leaves out because the first output holds
    'markercluster.css'.  Twice rendered, a document has at least two
    cluster layers more than the base document. *)
Theorem second_render_adds_a_second_layer (original_html : str)
    (fs : list Facility) (markers : list str) :
  fs <> [] -> markers_from 0 fs = Ok markers ->
  exists once twice,
    inject_facility_markers_into_html original_html (Some fs) = Ok once
    /\ render_twice original_html (Some fs) = Ok twice
    /\ contains (lit "markercluster.css") (lower once) = true
    /\ twice = (if contains body_close once
                then insert_before body_close
                       (bare_script_tag markers ++ [newline]) once
                else once ++ bare_script_tag markers)
    /\ (cluster_layers original_html + 2 <= cluster_layers twice)%nat.
Proof.
  intros Hne Hms.
  pose proof (inject_nonempty original_html fs markers Hne Hms) as H1.
  set (once := if contains body_close original_html then _ else _) in H1.
  pose proof (inject_nonempty once fs markers Hne Hms) as H2.
  set (twice := if contains body_close once then _ else _) in H2.
  exists once, twice.
  pose proof (inject_plugin_present _ _ _ _ Hne Hms H1) as Hcss.
  split; [done|]. split; [unfold render_twice; by rewrite H1|].
  split; [done|]. split.
  - unfold twice. by rewrite (script_tag_bare once markers Hcss).
  - pose proof (inject_adds_layer _ _ _ _ Hne Hms H1).
    pose proof (inject_adds_layer _ _ _ _ Hne Hms H2). lia.
Qed.

Lemma second_render_adds_a_second_layer_witness :
  [clinic] <> []
  /\ markers_from 0 [clinic]
     = Ok (match markers_from 0 [clinic] with Ok ms => ms | Raise _ => [] end)
  /\ exists once twice,
       inject_facility_markers_into_html base_html (Some [clinic]) = Ok once
       /\ render_twice base_html (Some [clinic]) = Ok twice
       /\ (cluster_layers base_html + 2 <= cluster_layers twice)%nat.
Proof.
  assert (Hms : markers_from 0 [clinic]
     = Ok (match markers_from 0 [clinic] with Ok ms => ms | Raise _ => [] end))
    by (by vm_compute).
  split; [discriminate|]. split; [exact Hms|].
  destruct (second_render_adds_a_second_layer base_html [clinic] _
              ltac:(discriminate) Hms)
    as (once & twice & H1 & H2 & _ & _ & H3).
  exists once, twice. split; [exact H1|]. split; [exact H2 | exact H3].
Defined.

(** C2, as stated, fails: the sample document rendered twice with one
    facility holds two cluster layers. *)
Lemma twice_rendered_has_two_layers :
  exists twice,
    render_twice base_html (Some [clinic]) = Ok twice
    /\ cluster_layers twice = 2%nat
    /\ cluster_layers twice <> 1%nat.
Proof. eexists. split; [by vm_compute|]. split; by vm_compute. Qed.

(** C1. The loader's normalization of a flag: a literal true or 1 gives
    the true value, a literal false or 0 the false value, anything else
    (an absent value too) the unknown value, which the program writes as
    the strings 'True', 'False' and 'N/A'.  It holds for every value, so
    for True, False, 1, 0, 1.0, 0.0, the empty string, null and "maybe",
    and both flag columns of every row that the loader returns are the
    normalized cells of a source row. *)
Theorem flag_normalization (x : value) :
  normalize_flag x = flag_text (spec_flag x)
  /\ normalize_flag (VBool true) = VStr (lit "True")
  /\ normalize_flag (VInt 1) = VStr (lit "True")
  /\ normalize_flag one_float = VStr (lit "True")
  /\ normalize_flag (VBool false) = VStr (lit "False")
  /\ normalize_flag (VInt 0) = VStr (lit "False")
  /\ normalize_flag zero_float = VStr (lit "False")
  /\ normalize_flag (VStr []) = VStr (lit "N/A")
  /\ normalize_flag VNone = VStr (lit "N/A")
  /\ normalize_flag NaN = VStr (lit "N/A")
  /\ normalize_flag (VStr (lit "maybe")) = VStr (lit "N/A")
  /\ forall dir out log r,
       load_facility_data dir = (Some out, log) -> r ∈ out ->
       exists csv_files name df r0,
         dir = Some csv_files /\ (name, Ok df) ∈ csv_files /\ r0 ∈ rows df
         /\ is_substance_abuse_rehab r
            = flag_text (spec_flag (r0 "is_substance_abuse_rehab"%string))
         /\ is_sud_rehab_clinic r
            = flag_text (spec_flag (r0 "is_sud_rehab_clinic"%string)).
Proof.
  split; [apply normalize_flag_spec|].
  do 10 (split; [reflexivity|]).
  intros dir out log r Hload Hr.
  destruct (loaded_row_origin dir out log r Hload Hr)
    as (csv_files & name & df & r0 & Hdir & Hfile & _ & Hr0 & Hc).
  destruct Hc as (_ & _ & _ & z & _ & ->).
  exists csv_files, name, df, r0. repeat split; try done.
  - apply normalize_flag_spec.
  - apply normalize_flag_spec.
Qed.

Lemma flag_normalization_witness :
  exists r,
    load_facility_data (Some one_file) = (Some [r], [])
    /\ r ∈ [r]
    /\ exists csv_files name df r0,
         Some one_file = Some csv_files /\ (name, Ok df) ∈ csv_files /\ r0 ∈ rows df
         /\ is_substance_abuse_rehab r
            = flag_text (spec_flag (r0 "is_substance_abuse_rehab"%string))
         /\ is_sud_rehab_clinic r
            = flag_text (spec_flag (r0 "is_sud_rehab_clinic"%string)).
Proof.
  assert (H : exists r, load_facility_data (Some one_file) = (Some [r], []))
    by (eexists; vm_compute; reflexivity).
  destruct H as [r H]. exists r. split; [exact H|].
  split; [left|].
  refine (proj2 (proj2 (proj2 (proj2 (proj2 (proj2 (proj2 (proj2 (proj2
    (proj2 (proj2 (flag_normalization VNone)))))))))))
    (Some one_file) [r] [] r H _).
  left.
Defined.

(** C3. Every row that the loader returns has a name, a latitude and a
    longitude that are present; its latitude is a number between -90 and
    90 and its longitude a number between -180 and 180; and its
    coordinates are those of a row of a source file, so that a source row
    whose coordinates are missing or out of range is in no output. *)
Theorem retained_rows_have_valid_coordinates dir out log r :
  load_facility_data dir = (Some out, log) -> r ∈ out ->
  notnull (Group_Name r) = true
  /\ notnull (Latitude r) = true /\ notnull (Longitude r) = true
  /\ between (-90) 90 (Latitude r) = Ok true
  /\ between (-180) 180 (Longitude r) = Ok true
  /\ in_range (-90) 90 (Latitude r) /\ in_range (-180) 180 (Longitude r)
  /\ exists csv_files name df r0,
       dir = Some csv_files /\ (name, Ok df) ∈ csv_files /\ r0 ∈ rows df
       /\ Latitude r = r0 "Latitude"%string
       /\ Longitude r = r0 "Longitude"%string
       /\ notnull (r0 "Group Name"%string) = true.
Proof.
  intros Hload Hr.
  destruct (loaded_row_origin dir out log r Hload Hr)
    as (csv_files & name & df & r0 & Hdir & Hfile & _ & Hr0 & Hc).
  destruct Hc as (Hn & Hlat & Hlon & z & _ & ->).
  unfold has_name_and_coordinates in Hn.
  apply andb_true_iff in Hn as [[Hname Hnlat]%andb_true_iff Hnlon].
  simpl in *.
  split; [done|]. split; [done|]. split; [done|]. split; [done|].
  split; [done|]. split; [by apply between_in_range|].
  split; [by apply between_in_range|].
  by exists csv_files, name, df, r0.
Qed.

Lemma retained_rows_have_valid_coordinates_witness :
  exists r,
    load_facility_data (Some one_file) = (Some [r], [])
    /\ r ∈ [r]
    /\ in_range (-90) 90 (Latitude r) /\ in_range (-180) 180 (Longitude r).
Proof.
  assert (H : exists r, load_facility_data (Some one_file) = (Some [r], []))
    by (eexists; vm_compute; reflexivity).
  destruct H as [r H]. exists r. split; [exact H|].
  assert (Hr : r ∈ [r]) by left. split; [exact Hr|].
  pose proof (retained_rows_have_valid_coordinates (Some one_file) [r] [] r H Hr)
    as (_ & _ & _ & _ & _ & H1 & H2 & _).
  split; [exact H1 | exact H2].
Defined.

(** C4. A CSV file that lacks a required column, or whose reading or
    cleaning raises an exception, adds no row and one warning; the load
    goes on (the loader has a result, whatever the files are), and the
    rows of the other files are what they are without it.  With three
    files, in any order, of which one lacks the postal code and the two
    others give ten and five rows, the loader returns fifteen rows and
    logs the one warning. *)
Theorem skipped_file_is_isolated (before after : list (str * result DataFrame))
    (name : str) (read : result DataFrame) :
  ((exists df, read = Ok df /\ missing_required df)
   \/ (exists e, process_file name read = Raise e) ->
   frame_of (name, read) = []
   /\ fst (load_facility_data (Some (before ++ (name, read) :: after)))
      = fst (load_facility_data (Some (before ++ after)))
   /\ exists w,
        snd (load_facility_data (Some (before ++ (name, read) :: after)))
        = flat_map warnings_of before ++ [w] ++ flat_map warnings_of after
        /\ ((exists df, read = Ok df /\ w = Missing_columns name (missing_cols df))
            \/ (exists e, w = Could_not_process name e)))
  /\ forall csv_files a dfa b c fb fc,
       csv_files ≡ₚ [(a, Ok dfa); b; c] ->
       "Zip"%string ∉ columns dfa ->
       process_file (fst b) (snd b) = Ok (Loaded fb) -> length fb = 10%nat ->
       process_file (fst c) (snd c) = Ok (Loaded fc) -> length fc = 5%nat ->
       exists out,
         load_facility_data (Some csv_files)
         = (Some out, [Missing_columns a (missing_cols dfa)])
         /\ length out = 15%nat.
Proof.
  split.
  - intros H. destruct (skipped_file name read H) as (Hf & w & Hw & Hkind).
    split; [done|]. split.
    + rewrite !load_files_fst, !flat_map_app. cbn [flat_map]. by rewrite Hf.
    + exists w. split; [|done].
      rewrite load_facility_data_files by (by destruct before).
      cbn [snd]. rewrite flat_map_app. cbn [flat_map]. by rewrite Hw.
  - intros csv_files a dfa b c fb fc Hperm Hzip Hb Hlb Hc Hlc.
    assert (Hm : missing_required dfa).
    { exists "Zip"%string. split; [|done].
      apply (bool_decide_unpack _). by vm_compute. }
    destruct (skipped_file a (Ok dfa)) as (Hfa & w & Hwa & Hkind).
    { left. by exists dfa. }
    assert (Hw : w = Missing_columns a (missing_cols dfa)).
    { destruct Hkind as [(df & [= <-] & ->)|(e & ->)]; [done|].
      unfold warnings_of in Hwa. cbn [fst snd] in Hwa.
      destruct (missing_required_skipped a dfa Hm) as (c0 & rest & _ & Hp).
      rewrite Hp in Hwa. done. }
    subst w.
    assert (Hfb : frame_of b = [fb]) by (unfold frame_of; by rewrite Hb).
    assert (Hfc : frame_of c = [fc]) by (unfold frame_of; by rewrite Hc).
    assert (Hwb : warnings_of b = []) by (unfold warnings_of; by rewrite Hb).
    assert (Hwc : warnings_of c = []) by (unfold warnings_of; by rewrite Hc).
    pose proof (Permutation_flat_map frame_of Hperm) as Hframes.
    pose proof (Permutation_flat_map warnings_of Hperm) as Hwarn.
    cbn [flat_map] in Hframes, Hwarn.
    rewrite Hfa, Hfb, Hfc in Hframes. rewrite Hwa, Hwb, Hwc in Hwarn.
    cbn [app] in Hframes, Hwarn.
    symmetry in Hwarn. apply Permutation_length_1_inv in Hwarn.
    symmetry in Hframes. apply Permutation_length_2_inv in Hframes.
    rewrite load_facility_data_files.
    2:{ intros ->. by apply Permutation_nil_cons in Hperm. }
    rewrite Hwarn.
    destruct Hframes as [-> | ->]; eexists; (split; [reflexivity|]);
      cbn [concat]; rewrite !length_app; simpl; lia.
Qed.

Lemma skipped_file_is_isolated_witness :
  ((exists df, Ok frame_without_zip = Ok df /\ missing_required df)
   \/ (exists e, process_file (lit "a.csv") (Ok frame_without_zip) = Raise e))
  /\ fst (load_facility_data (Some three_files))
     = fst (load_facility_data
              (Some [(lit "b.csv", Ok (good_frame 10));
                     (lit "c.csv", Ok (good_frame 5))]))
  /\ exists out,
       load_facility_data (Some three_files)
       = (Some out, [Missing_columns (lit "a.csv") (missing_cols frame_without_zip)])
       /\ length out = 15%nat.
Proof.
  assert (Hzip : "Zip"%string ∉ columns frame_without_zip).
  { apply (bool_decide_unpack _). vm_compute. exact I. }
  assert (H : (exists df, Ok frame_without_zip = Ok df /\ missing_required df)
   \/ (exists e, process_file (lit "a.csv") (Ok frame_without_zip) = Raise e)).
  { left. exists frame_without_zip. split; [reflexivity|].
    exists "Zip"%string. split; [|exact Hzip].
    apply (bool_decide_unpack _). vm_compute. exact I. }
  split; [exact H|]. split.
  - exact (proj1 (proj2 (proj1 (skipped_file_is_isolated []
             [(lit "b.csv", Ok (good_frame 10)); (lit "c.csv", Ok (good_frame 5))]
             (lit "a.csv") (Ok frame_without_zip)) H))).
  - refine (proj2 (skipped_file_is_isolated [] [] (lit "a.csv") (Ok frame_without_zip))
             three_files (lit "a.csv") frame_without_zip
             (lit "b.csv", Ok (good_frame 10)) (lit "c.csv", Ok (good_frame 5))
             (match process_file (lit "b.csv") (Ok (good_frame 10)) with
              | Ok (Loaded fs) => fs | _ => [] end)
             (match process_file (lit "c.csv") (Ok (good_frame 5)) with
              | Ok (Loaded fs) => fs | _ => [] end)
             _ Hzip _ _ _ _).
    + reflexivity.
    + vm_compute. reflexivity.
    + vm_compute. reflexivity.
    + vm_compute. reflexivity.
    + vm_compute. reflexivity.
Defined.

(** C8, as the program has it.  The postal code of every row that the
    loader returns is a text that does not end with '.0'.  It is the cell
    of the source row as text, stripped; when that text ends with '.0' it
    is replaced by the text of [int(float(text))], the decimal digits of
    an integer (after a minus sign when negative); any other text is kept
    as it is.  When the text is decimal digits followed by '.0', after a
    sign or not, and the number is below 2^53, that integer is the number
    that the digits denote, so the result is the number without leading
    zeros.  So 12345, 12345.0 and '12345.0' give '12345', while a missing
    postal code gives 'nan' and '12345-6789' stays. *)
Theorem zip_never_ends_with_dot0 dir out log r :
  (load_facility_data dir = (Some out, log) -> r ∈ out ->
   exists csv_files name df r0 text,
     dir = Some csv_files /\ (name, Ok df) ∈ csv_files /\ r0 ∈ rows df
     /\ Zip r = VStr text
     /\ endswith (lit ".0") text = false
     /\ (endswith (lit ".0") (strip (str_of (r0 "Zip"%string))) = false ->
         text = strip (str_of (r0 "Zip"%string)))
     /\ (endswith (lit ".0") (strip (str_of (r0 "Zip"%string))) = true ->
         exists n ds,
           text = str_of_int n /\ all_digits ds = true
           /\ text = (if n <? 0 then lit "-" else []) ++ ds
           /\ (exists f,
                 float_of_dot0 (strip (str_of (r0 "Zip"%string))) = Ok f
                 /\ int_of_float f = Ok n)
           /\ forall sign digits,
                sign = [] \/ sign = lit "+" \/ sign = lit "-" ->
                all_digits digits = true -> decimal_value digits < 2 ^ 53 ->
                strip (str_of (r0 "Zip"%string)) = sign ++ digits ++ lit ".0" ->
                n = cond_Zopp (bool_decide (sign = lit "-"))
                      (decimal_value digits)))
  /\ (forall sign digits,
        sign = [] \/ sign = lit "+" \/ sign = lit "-" ->
        all_digits digits = true -> decimal_value digits < 2 ^ 53 ->
        convert_zip (VStr (sign ++ digits ++ lit ".0"))
        = Ok (VStr (str_of_int
                      (cond_Zopp (bool_decide (sign = lit "-"))
                         (decimal_value digits)))))
  /\ convert_zip (astype_str_strip (VInt 12345)) = Ok (VStr (lit "12345"))
  /\ convert_zip (astype_str_strip float_12345) = Ok (VStr (lit "12345"))
  /\ convert_zip (astype_str_strip (VStr (lit " 12345.0 "))) = Ok (VStr (lit "12345"))
  /\ convert_zip (astype_str_strip NaN) = Ok (VStr (lit "nan"))
  /\ convert_zip (astype_str_strip (VStr (lit "12345-6789")))
     = Ok (VStr (lit "12345-6789")).
Proof.
  split; [|split; [apply convert_zip_digits | repeat split; by vm_compute]].
  intros Hload Hr.
  destruct (loaded_row_origin dir out log r Hload Hr)
    as (csv_files & name & df & r0 & Hdir & Hfile & _ & Hr0 & Hc).
  destruct Hc as (_ & _ & _ & z & Hz & ->).
  unfold astype_str_strip in Hz. cbn [select_row Zip] in Hz.
  destruct (convert_zip_text _ z Hz) as (text & -> & Hend & Hkeep & Hnum).
  exists csv_files, name, df, r0, text.
  split; [done|]. split; [done|]. split; [done|]. split; [done|].
  split; [done|]. split; [done|].
  intros E. destruct (convert_zip_dot0 _ _ E Hz) as (f & n & Hf & Hn & [= ->]).
  destruct (str_of_int_shape n) as (ds & Hds & Hshape). exists n, ds.
  split; [done|]. split; [done|]. split; [done|].
  split; [by exists f|].
  intros sign digits Hsign Hdigits Hsmall Ht.
  rewrite Ht, float_of_dot0_digits in Hf by done. injection Hf as <-.
  rewrite int_of_float_small in Hn.
  - by injection Hn as <-.
  - pose proof (decimal_value_nonneg digits Hdigits).
    unfold cond_Zopp. case_bool_decide; lia.
Qed.

Lemma zip_never_ends_with_dot0_witness :
  exists r,
    load_facility_data (Some one_file) = (Some [r], [])
    /\ r ∈ [r]
    /\ exists text, Zip r = VStr text /\ endswith (lit ".0") text = false.
Proof.
  assert (H : exists r, load_facility_data (Some one_file) = (Some [r], []))
    by (eexists; vm_compute; reflexivity).
  destruct H as [r H]. exists r. split; [exact H|].
  assert (Hr : r ∈ [r]) by left. split; [exact Hr|].
  destruct (proj1 (zip_never_ends_with_dot0 (Some one_file) [r] [] r) H Hr)
    as (_ & _ & _ & _ & text & _ & _ & _ & Hz & He & _).
  exists text. split; [exact Hz | exact He].
Defined.

(** C8, as stated, fails: a row whose postal code is missing is kept and
    its postal code is the text 'nan', which is not a digit string. *)
Lemma missing_zip_is_not_a_digit_string :
  exists r,
    load_facility_data (Some file_missing_zip) = (Some [r], [])
    /\ Zip r = VStr (lit "nan")
    /\ all_digits (lit "nan") = false.
Proof. eexists. split; [by vm_compute|]. split; by vm_compute. Qed.

(** * More of the code

    Properties of the loader and of the renderer beyond the claims, and of
    the rest of the script: the file names of a selection, the display of
    the map, the metric column of the data table and the password gate. *)

Import Py PyVal Loader Renderer Props Samples MoreProps.
Import PyFacts LoaderFacts RendererFacts EscapeFacts RenderTotal RangeFacts
  ZipFacts SkipFacts FlagFacts MarkerFacts.

(** ** The loader *)

Module LoaderMore.

Lemma filter_sublist {A} (f : A -> bool) (l : list A) :
  sublist (List.filter f l) l.
Proof.
  induction l as [|a l IH]; [constructor|]. cbn [List.filter].
  destruct (f a); by constructor.
Qed.

Lemma select_mask_filter (fs : list Facility) (mask : list bool) (f : Facility -> bool) :
  Forall2 (fun r b => f r = b) fs mask -> select_mask fs mask = List.filter f fs.
Proof.
  induction 1 as [|r b fs mask Hrb _ IH]; [done|].
  cbn [select_mask List.filter]. rewrite Hrb, IH. done.
Qed.

(** The range filter keeps the rows for which both tests hold. *)
Lemma filter_coordinates_filter (fs out : list Facility) :
  filter_coordinates fs = Ok out -> out = List.filter coordinates_in_range fs.
Proof.
  unfold filter_coordinates.
  destruct (mapM _ fs) as [lat_ok|] eqn:Elat; cbn [bind]; [|done].
  destruct (mapM (fun r => between (-180) 180 _) fs) as [lon_ok|] eqn:Elon;
    cbn [bind]; [|done].
  intros [= <-]. apply select_mask_filter.
  apply mapM_Ok in Elat, Elon. clear -Elat Elon.
  revert lon_ok Elon. induction Elat as [|r a fs lat_ok Ha _ IH];
    intros lon_ok Elon; inversion Elon as [|r' b fs' lon_ok' Hb Hrest]; subst.
  - constructor.
  - cbn [zip_with]. constructor; [|by apply IH].
    unfold coordinates_in_range. by rewrite Ha, Hb.
Qed.

Lemma filter_filter_retained (fs : list Facility) :
  List.filter coordinates_in_range (dropna fs) = List.filter retained fs.
Proof.
  unfold dropna, retained. induction fs as [|r fs IH]; [done|].
  cbn [List.filter]. destruct (has_name_and_coordinates r); cbn [List.filter andb].
  - by rewrite IH.
  - done.
Qed.

(** The cleaned frame, row for row. *)
Lemma clean_rows (fs out : list Facility) :
  clean fs = Ok out ->
  Forall2 (fun s r =>
             exists z, convert_zip (astype_str_strip (Zip s)) = Ok z
                       /\ r = normalize_flags (set_Zip (clean_text_fields s) z))
    (List.filter retained fs) out.
Proof.
  unfold clean.
  destruct (filter_coordinates (dropna fs)) as [in_range|] eqn:Ef; cbn [bind]; [|done].
  destruct (mapM clean_zip _) as [zipped|] eqn:Ez; cbn [bind]; [|done].
  intros [= <-]. apply filter_coordinates_filter in Ef.
  rewrite filter_filter_retained in Ef. subst in_range.
  apply mapM_Ok in Ez. apply Forall2_fmap_l in Ez. apply Forall2_fmap_r.
  eapply Forall2_impl; [exact Ez|]. intros s r Hz. unfold compose, clean_zip in Hz.
  destruct (convert_zip (Zip (clean_text_fields s))) as [z|] eqn:Ec;
    cbn [bind] in Hz; [|done].
  injection Hz as <-. by exists z.
Qed.

Lemma retained_spec (r : Facility) :
  retained r = true <->
  has_name_and_coordinates r = true
  /\ between (-90) 90 (Latitude r) = Ok true
  /\ between (-180) 180 (Longitude r) = Ok true.
Proof.
  unfold retained, coordinates_in_range. rewrite andb_true_iff.
  destruct (between (-90) 90 (Latitude r)) as [a|e1],
    (between (-180) 180 (Longitude r)) as [b|e2]; split.
  - intros [Hn [-> ->]%andb_true_iff]. done.
  - intros (Hn & [= ->] & [= ->]). done.
  - intros [_ [=]].
  - intros (_ & _ & [=]).
  - intros [_ [=]].
  - intros (_ & [=] & _).
  - intros [_ [=]].
  - intros (_ & [=] & _).
Qed.

Lemma filter_select_rows (name : str) (l : list (string -> value)) :
  List.filter retained (map (select_row name) l)
  = map (select_row name)
      (List.filter (fun r0 => retained (select_row name r0)) l).
Proof.
  induction l as [|r0 l IH]; [done|]. cbn [map List.filter].
  destruct (retained (select_row name r0)); cbn [map]; by rewrite IH.
Qed.

Lemma process_file_rows (name : str) (df : DataFrame) (fs : list Facility) :
  process_file name (Ok df) = Ok (Loaded fs) ->
  Forall2 (cleaned_from name)
    (List.filter (fun r0 => retained (select_row name r0)) (rows df)) fs.
Proof.
  unfold process_file. cbn [bind]. destruct (missing_cols df) eqn:Em; [|done].
  destruct (clean _) as [out|] eqn:Ec; cbn [bind]; [|done].
  intros [= <-]. apply clean_rows in Ec. unfold select_required in Ec.
  rewrite filter_select_rows in Ec. apply Forall2_fmap_l in Ec.
  apply Forall2_same_length_lookup. split; [by eapply Forall2_length|].
  intros i r0 r Hr0 Hr.
  destruct (Forall2_lookup_lr _ _ _ _ _ _ Ec Hr0 Hr) as (z & Hz & ->).
  apply list_elem_of_lookup_2, list_elem_of_In, filter_In in Hr0 as [_ Hret].
  apply retained_spec in Hret as (Hn & Hlat & Hlon).
  unfold cleaned_from. split; [done|]. split; [done|]. split; [done|].
  by exists z.
Qed.


Lemma process_file_inv (name : str) (read : result DataFrame) (fs : list Facility) :
  process_file name read = Ok (Loaded fs) -> exists df, read = Ok df.
Proof. destruct read as [df|e]; [by exists df | done]. Qed.


Lemma frame_of_loads (f : str * result DataFrame) :
  frame_of f = [] <-> loads f = false.
Proof.
  unfold frame_of, loads.
  by destruct (process_file f.1 f.2) as [[m|fs]|e].
Qed.

Lemma flat_map_nil {A B} (f : A -> list B) (l : list A) :
  flat_map f l = [] <-> forall x, x ∈ l -> f x = [].
Proof.
  induction l as [|a l IH]; cbn [flat_map].
  - split; [intros _ x Hx; by apply elem_of_nil in Hx | done].
  - split.
    + intros [Ha Hl]%app_eq_nil x [->|Hx]%elem_of_cons; [done|]. by apply IH.
    + intros H. rewrite (H a) by left. apply IH. intros x Hx. apply H. by right.
Qed.


(** *** White space *)






Lemma strip_fixed (s : str) : stripped s -> strip s = s.
Proof. intros [H1 H2]. unfold strip. by rewrite H1, H2, rev_involutive. Qed.

(** *** The range test, the other way round *)

Lemma scaled_le_inv (v e n : Z) :
  (inject_Z v * (2 # 1) ^ e <= inject_Z n)%Q ->
  (if 0 <=? e then v * 2 ^ e ?= n else v ?= n * 2 ^ (- e)) <> Gt.
Proof.
  destruct (Z.leb_spec 0 e) as [He|He]; intros H.
  - rewrite pow2_Q in H by done. rewrite <- inject_Z_mult, <- Zle_Qle in H.
    by apply Z.compare_le_iff.
  - replace e with (- - e) in H by lia. rewrite Qpower_opp, pow2_Q in H by lia.
    apply Z.compare_le_iff. rewrite Zle_Qle, inject_Z_mult.
    pose proof (pow2_pos (- e) ltac:(lia)) as Hpos.
    apply (Qmult_le_r _ _ _ Hpos) in H.
    rewrite <- Qmult_assoc, (Qmult_comm (/ _)), Qmult_inv_r, Qmult_1_r in H; [done|].
    intros Hz. rewrite Hz in Hpos. by apply Qlt_irrefl in Hpos.
Qed.

Lemma scaled_ge_inv (v e n : Z) :
  (inject_Z n <= inject_Z v * (2 # 1) ^ e)%Q ->
  (if 0 <=? e then v * 2 ^ e ?= n else v ?= n * 2 ^ (- e)) <> Lt.
Proof.
  destruct (Z.leb_spec 0 e) as [He|He]; intros H.
  - rewrite pow2_Q in H by done. rewrite <- inject_Z_mult, <- Zle_Qle in H.
    by apply Z.compare_ge_iff.
  - replace e with (- - e) in H by lia. rewrite Qpower_opp, pow2_Q in H by lia.
    apply Z.compare_ge_iff. rewrite Zle_Qle, inject_Z_mult.
    pose proof (pow2_pos (- e) ltac:(lia)) as Hpos.
    apply (Qmult_le_r _ _ _ Hpos) in H.
    rewrite <- Qmult_assoc, (Qmult_comm (/ _)), Qmult_inv_r, Qmult_1_r in H; [done|].
    intros Hz. rewrite Hz in Hpos. by apply Qlt_irrefl in Hpos.
Qed.

Lemma in_range_between (lo hi : Z) (v : value) :
  in_range lo hi v -> between lo hi v = Ok true.
Proof.
  intros (q & Hq & H1 & H2). destruct v as [|b|k|f|s]; simpl in *; try done.
  - injection Hq as <-. rewrite <- Zle_Qle in H1, H2. f_equal.
    apply andb_true_iff. split; lia.
  - injection Hq as <-. rewrite <- Zle_Qle in H1, H2. f_equal.
    apply andb_true_iff. split; lia.
  - destruct f as [s| | |s m e]; try done; injection Hq as <-.
    + rewrite <- Zle_Qle in H1, H2. unfold PyFloat.ge_int, PyFloat.le_int.
      destruct lo, hi; simpl; try done; lia.
    + apply scaled_ge_inv in H1. apply scaled_le_inv in H2.
      unfold PyFloat.ge_int, PyFloat.le_int. cbn [PyFloat.cmp_int].
      destruct (if 0 <=? e then _ ?= lo else _); try done;
        destruct (if 0 <=? e then _ ?= hi else _); done.
Qed.

Lemma mapM_raise {A B} (f : A -> result B) (l : list A) (e : exn) :
  mapM f l = Raise e -> exists a, a ∈ l /\ f a = Raise e.
Proof.
  induction l as [|a l IH]; [done|]. cbn [mapM].
  destruct (f a) as [b|e'] eqn:Ea; cbn [bind].
  - destruct (mapM f l) as [bs|e'] eqn:El; cbn [bind]; [done|].
    intros [= ->]. destruct (IH eq_refl) as (x & Hx & Hfx). exists x.
    split; [by right | done].
  - intros [= ->]. exists a. split; [left | done].
Qed.

Lemma mapM_total {A B} (f : A -> result B) (l : list A) :
  (forall a, a ∈ l -> exists b, f a = Ok b) -> exists bs, mapM f l = Ok bs.
Proof.
  induction l as [|a l IH]; intros H; [by exists []|].
  destruct (H a) as [b Hb]; [left|]. destruct IH as [bs Hbs].
  { intros x Hx. apply H. by right. }
  exists (b :: bs). cbn [mapM]. by rewrite Hb, Hbs.
Qed.

End LoaderMore.

Import LoaderMore.

(** X1. The frame that a file gives is, row for row and in the order of
    the file, the cleaned rows among its rows that have a name and
    coordinates in range: no such row is dropped, none is duplicated or
    moved. *)
Theorem loaded_frame_is_the_valid_rows_in_order (name : str) (df : DataFrame)
    (fs : list Facility) :
  process_file name (Ok df) = Ok (Loaded fs) ->
  Forall2 (cleaned_from name)
    (List.filter (fun r0 => retained (select_row name r0)) (rows df)) fs
  /\ (length fs <= length (rows df))%nat
  /\ forall r0, r0 ∈ rows df -> retained (select_row name r0) = true ->
       exists r, r ∈ fs /\ cleaned_from name r0 r.
Proof.
  intros Hp. pose proof (process_file_rows name df fs Hp) as H.
  split; [done|]. split.
  - rewrite <- (Forall2_length _ _ _ H). apply List.filter_length_le.
  - intros r0 Hr0 Hret.
    assert (Hin : r0 ∈ List.filter (fun r0 => retained (select_row name r0)) (rows df)).
    { apply list_elem_of_In, filter_In. split; [by apply list_elem_of_In | done]. }
    apply list_elem_of_lookup in Hin as [i Hi].
    destruct (Forall2_lookup_l _ _ _ _ _ H Hi) as (r & Hr & Hc).
    exists r. split; [by eapply list_elem_of_lookup_2 | done].
Qed.

Lemma loaded_frame_is_the_valid_rows_in_order_witness :
  exists fs,
    process_file (lit "nj.csv") (Ok (good_frame 2)) = Ok (Loaded fs)
    /\ Forall2 (cleaned_from (lit "nj.csv"))
         (List.filter (fun r0 => retained (select_row (lit "nj.csv") r0))
            (rows (good_frame 2))) fs.
Proof.
  assert (H : exists fs,
             process_file (lit "nj.csv") (Ok (good_frame 2)) = Ok (Loaded fs))
    by (eexists; vm_compute; reflexivity).
  destruct H as [fs H]. exists fs. split; [exact H|].
  exact (proj1 (loaded_frame_is_the_valid_rows_in_order _ _ _ H)).
Defined.



(** X3. The loader returns no frame exactly when the directory is missing
    or none of its files gives a frame (there is no file, or each one is
    skipped).  A file that is read and has the columns gives a frame even
    when none of its rows is kept: the result is then an empty frame, not
    the absent one. *)
Theorem no_frame_iff_no_file_loads (dir : option (list (str * result DataFrame))) :
  (fst (load_facility_data dir) = None <->
   match dir with
   | None => True
   | Some csv_files => forall f, f ∈ csv_files -> loads f = false
   end)
  /\ forall name df rest,
       process_file name (Ok df) = Ok (Loaded []) ->
       (forall f, f ∈ rest -> loads f = false) ->
       fst (load_facility_data (Some ((name, Ok df) :: rest))) = Some [].
Proof.
  split.
  - destruct dir as [csv_files|]; [|done]. rewrite load_files_fst.
    destruct (flat_map frame_of csv_files) as [|fr frs] eqn:E.
    + split; [|done]. intros _ f Hf. apply frame_of_loads.
      by apply (proj1 (flat_map_nil frame_of csv_files) E).
    + split; [done|]. intros H. exfalso.
      assert (Hnil : flat_map frame_of csv_files = []).
      { apply flat_map_nil. intros f Hf. by apply frame_of_loads, H. }
      congruence.
  - intros name df rest Hp Hrest. rewrite load_files_fst. cbn [flat_map].
    unfold frame_of at 1. cbn [fst snd]. rewrite Hp.
    replace (flat_map frame_of rest) with (@nil (list Facility)); [done|].
    symmetry. apply flat_map_nil. intros f Hf. by apply frame_of_loads, Hrest.
Qed.

Lemma no_frame_iff_no_file_loads_witness :
  fst (load_facility_data
         (Some [(lit "nj.csv", Ok (good_frame 0));
                (lit "a.csv", Ok frame_without_zip)])) = Some []
  /\ fst (load_facility_data (Some [(lit "a.csv", Ok frame_without_zip)])) = None.
Proof.
  split.
  - apply (proj2 (no_frame_iff_no_file_loads None)).
    + vm_compute. reflexivity.
    + intros f Hf. apply list_elem_of_singleton in Hf. subst f.
      vm_compute. reflexivity.
  - apply (proj1 (no_frame_iff_no_file_loads
                    (Some [(lit "a.csv", Ok frame_without_zip)]))).
    intros f Hf. apply list_elem_of_singleton in Hf. subst f.
    vm_compute. reflexivity.
Defined.





(** X6. When the range filter returns, its result is the list of rows
    filtered, in order and each as often as it is there, by the test: the
    latitude is a number from -90 to 90 and the longitude is a number
    from -180 to 180, the bounds included.  The filter raises exactly
    when a coordinate of some row is a text, and what it raises is
    [TypeError]; a missing coordinate ([None] or a NaN) raises nothing,
    the row is left out. *)
Theorem range_filter_keeps_exactly_the_rows_in_range (fs : list Facility) :
  (forall out, filter_coordinates fs = Ok out ->
     exists keep : Facility -> bool,
       (forall r, keep r = true <->
          in_range (-90) 90 (Latitude r) /\ in_range (-180) 180 (Longitude r))
       /\ out = List.filter keep fs)
  /\ ((exists e, filter_coordinates fs = Raise e) <->
      exists r s, r ∈ fs /\ (Latitude r = VStr s \/ Longitude r = VStr s))
  /\ (forall e, filter_coordinates fs = Raise e -> e = TypeError)
  /\ (forall r,
        (forall s, Latitude r <> VStr s) -> (forall s, Longitude r <> VStr s) ->
        notnull (Latitude r) && notnull (Longitude r) = false ->
        filter_coordinates [r] = Ok []).
Proof.
  assert (Hraise : forall lo hi v e,
             between lo hi v = Raise e -> e = TypeError /\ exists s, v = VStr s).
  { intros lo hi [| | | |s] e; simpl; try done. intros [= <-]. split; [done|].
    by exists s. }
  split; [|split; [|split]].
  - intros out Hout. pose proof (filter_coordinates_filter fs out Hout) as ->.
    exists coordinates_in_range. split; [|done]. intros r.
    unfold coordinates_in_range. split.
    + destruct (between (-90) 90 (Latitude r)) as [a|] eqn:E1; [|done].
      destruct (between (-180) 180 (Longitude r)) as [b|] eqn:E2; [|done].
      intros [-> ->]%andb_true_iff. split; by apply between_in_range.
    + intros [Hlat Hlon].
      by rewrite (in_range_between _ _ _ Hlat), (in_range_between _ _ _ Hlon).
  - unfold filter_coordinates. split.
    + intros [e He].
      destruct (mapM (fun r => between (-90) 90 (Latitude r)) fs) as [lat|e1] eqn:E1.
      * cbn [bind] in He.
        destruct (mapM (fun r => between (-180) 180 (Longitude r)) fs) as [lon|e2] eqn:E2;
          [done|].
        destruct (mapM_raise _ _ _ E2) as (r & Hr & Hb).
        destruct (Hraise _ _ _ _ Hb) as [_ [s Hs]]. exists r, s. split; [done|].
        by right.
      * destruct (mapM_raise _ _ _ E1) as (r & Hr & Hb).
        destruct (Hraise _ _ _ _ Hb) as [_ [s Hs]]. exists r, s. split; [done|].
        by left.
    + intros (r & s & Hr & Hb).
      destruct (mapM (fun r => between (-90) 90 (Latitude r)) fs) as [lat|e1] eqn:E1;
        [|by exists e1].
      cbn [bind].
      destruct (mapM (fun r => between (-180) 180 (Longitude r)) fs) as [lon|e2] eqn:E2;
        [|by exists e2].
      exfalso. apply mapM_Ok in E1, E2.
      apply list_elem_of_lookup in Hr as [i Hi].
      destruct (Forall2_lookup_l _ _ _ _ _ E1 Hi) as (b1 & _ & H1).
      destruct (Forall2_lookup_l _ _ _ _ _ E2 Hi) as (b2 & _ & H2).
      destruct Hb as [Hb|Hb]; rewrite Hb in *; done.
  - unfold filter_coordinates. intros e.
    destruct (mapM (fun r => between (-90) 90 (Latitude r)) fs) as [lat|e1] eqn:E1.
    + cbn [bind].
      destruct (mapM (fun r => between (-180) 180 (Longitude r)) fs) as [lon|e2] eqn:E2;
        [done|].
      intros [= <-]. destruct (mapM_raise _ _ _ E2) as (r & _ & Hb).
      by destruct (Hraise _ _ _ _ Hb).
    + intros [= <-]. destruct (mapM_raise _ _ _ E1) as (r & _ & Hb).
      by destruct (Hraise _ _ _ _ Hb).
  - intros r Hlat Hlon Hnull. unfold filter_coordinates. cbn [mapM].
    destruct (Latitude r) as [|b1|k1|f1|s1]; [..|by destruct (Hlat s1)].
    all: destruct (Longitude r) as [|b2|k2|f2|s2]; [..|by destruct (Hlon s2)].
    all: try destruct f1 as [| | |]; try destruct f2 as [| | |].
    all: cbn [between bind zip_with select_mask notnull andb negb
              PyFloat.isnan PyFloat.ge_int PyFloat.le_int PyFloat.cmp_int] in *.
    all: rewrite ?andb_false_r; done.
Qed.

Lemma range_filter_keeps_exactly_the_rows_in_range_witness :
  filter_coordinates [clinic] = Ok [clinic]
  /\ (exists keep : Facility -> bool,
        (keep clinic = true <->
         in_range (-90) 90 (Latitude clinic)
         /\ in_range (-180) 180 (Longitude clinic))
        /\ [clinic] = List.filter keep [clinic])
  /\ filter_coordinates
       [select_row (lit "nj.csv")
          (source_row (VStr (lit "Harbor Clinic")) (VInt 7102) (VInt 1)
             (VInt 0) NaN lon_m74_25)]
     = Ok [].
Proof.
  assert (H : filter_coordinates [clinic] = Ok [clinic]) by reflexivity.
  split; [exact H|]. split.
  - destruct (proj1 (range_filter_keeps_exactly_the_rows_in_range [clinic])
                [clinic] H) as (keep & Hkeep & Hout).
    exists keep. split; [exact (Hkeep clinic) | exact Hout].
  - apply (proj2 (proj2 (proj2 (range_filter_keeps_exactly_the_rows_in_range [])))).
    + intros s. discriminate.
    + intros s. discriminate.
    + reflexivity.
Defined.

(** ** The renderer *)

Module RendererMore.

Lemma lit_inj (s t : string) : lit s = lit t -> s = t.
Proof.
  unfold lit. intros H.
  rewrite <- (String.string_of_list_ascii_of_string s),
    <- (String.string_of_list_ascii_of_string t). by rewrite H.
Qed.

(** The decimal text of an int determines it. *)
Lemma str_of_int_inj (n m : Z) : str_of_int n = str_of_int m -> n = m.
Proof.
  unfold str_of_int. intros H%lit_inj. apply DecimalZ.to_int_inj.
  assert (Hnn : forall k, Z.to_int k <> Decimal.Pos Decimal.Nil
                          /\ Z.to_int k <> Decimal.Neg Decimal.Nil).
  { intros [|p|p]; simpl; split; try done; intros [= Hp];
      by apply Unsigned.to_uint_nonnil in Hp. }
  destruct (Hnn n) as [Hn1 Hn2], (Hnn m) as [Hm1 Hm2].
  pose proof (NilZero.isi _ Hn1 Hn2) as Hn. pose proof (NilZero.isi _ Hm1 Hm2) as Hm.
  rewrite H in Hn. congruence.
Qed.

Lemma popup_html_coordinates (r : Facility) (popup : str) :
  popup_html r = Ok popup ->
  (exists s, coordinate_text (Latitude r) = Ok s)
  /\ (exists s, coordinate_text (Longitude r) = Ok s).
Proof.
  unfold popup_html.
  destruct (coordinate_text (Latitude r)) as [lat|]; cbn [bind]; [|done].
  destruct (coordinate_text (Longitude r)) as [lon|]; cbn [bind]; [|done].
  intros _. split; by eexists.
Qed.

Lemma popup_html_escape (r : Facility) (popup : str) :
  popup_html r = Ok popup ->
  exists latitude longitude,
    coordinate_text (Latitude r) = Ok latitude
    /\ coordinate_text (Longitude r) = Ok longitude
    /\ popup = escape
         (popup_text (str_of (NPI r)) (str_of (Group_Name r))
            (snd (classify (is_substance_abuse_rehab r) (is_sud_rehab_clinic r)))
            (str_of (Street_Address r)) (str_of (City r)) (str_of (State r))
            (str_of (Zip r)) latitude longitude
            (str_of (is_substance_abuse_rehab r))
            (str_of (is_sud_rehab_clinic r))).
Proof.
  unfold popup_html.
  destruct (coordinate_text (Latitude r)) as [lat|]; cbn [bind]; [|done].
  destruct (coordinate_text (Longitude r)) as [lon|]; cbn [bind]; [|done].
  intros [= <-]. by exists lat, lon.
Qed.

Lemma markers_from_renderable (idx : nat) (fs : list Facility) (ms : list str) :
  markers_from idx fs = Ok ms -> renderable fs.
Proof.
  intros H r Hr. apply list_elem_of_lookup in Hr as [i Hi].
  destruct (proj2 (markers_from_rows idx fs ms H) i r Hi) as (popup & Hp & _).
  by apply popup_html_coordinates in Hp.
Qed.

(** *** The variable of a marker *)

(** The text of a marker starts with the declaration of its variable. *)
Lemma marker_js_declaration (idx lat lon marker_color fill_color popup : str) :
  exists rest,
    marker_js idx lat lon marker_color fill_color popup
    = newline :: lit "                var marker_" ++ idx
      ++ lit " = L.circleMarker([" ++ rest.
Proof.
  unfold marker_js, unlines. rewrite join_cons by done. rewrite join_cons by done.
  eexists. rewrite <- !app_assoc. reflexivity.
Qed.

Lemma same_up_to_space (a b x y : str) :
  " "%char ∉ a -> " "%char ∉ b ->
  a ++ " "%char :: x = b ++ " "%char :: y -> a = b.
Proof.
  revert b. induction a as [|c a IH]; intros [|d b] Ha Hb; cbn [app].
  - done.
  - intros [= <- _]. exfalso. apply Hb. left.
  - intros [= -> _]. exfalso. apply Ha. left.
  - intros [= -> H]. f_equal. apply (IH b); [|  |done].
    + intros Hin. apply Ha. by right.
    + intros Hin. apply Hb. by right.
Qed.

Lemma str_of_nat_no_space (i : nat) : " "%char ∉ str_of_int (Z.of_nat i).
Proof.
  destruct (str_of_int_shape (Z.of_nat i)) as (ds & Hds & ->).
  destruct (Z.ltb_spec (Z.of_nat i) 0) as [|_]; [lia|]. cbn [app].
  intros Hin. unfold all_digits in Hds. rewrite forallb_forall in Hds.
  apply list_elem_of_In, Hds in Hin. done.
Qed.

(** A marker does not start with the declaration of the variable of
    another row. *)
Lemma declaration_of_its_own (i j : nat) (lat lon marker_color fill_color popup : str) :
  startswith (newline :: lit "                var marker_"
                ++ str_of_int (Z.of_nat i) ++ lit " = ")
    (marker_js (str_of_int (Z.of_nat j)) lat lon marker_color fill_color popup)
  = true ->
  i = j.
Proof.
  destruct (marker_js_declaration (str_of_int (Z.of_nat j)) lat lon marker_color
              fill_color popup) as [rest ->].
  intros [t Ht]%startswith_spec.
  injection Ht as Ht. rewrite <- app_assoc in Ht. cbn [app] in Ht.
  apply same_up_to_space in Ht; [|apply str_of_nat_no_space..].
  apply str_of_int_inj in Ht. lia.
Qed.

(** *** The escaped popup *)

Lemma escape_quote_follows_backslash (s a b : str) :
  escape s = a ++ dquote :: b -> exists a', a = a' ++ [backslash].
Proof.
  revert a. induction s as [|c s IH]; intros a.
  - intros H. by destruct a.
  - rewrite escape_cons. unfold escape_char.
    destruct (Ascii.eqb c dquote) eqn:E1; [|destruct (Ascii.eqb c newline) eqn:E2].
    + destruct a as [|x [|y a]]; cbn [app].
      * intros [=].
      * intros [= <- _]. by exists [].
      * intros [= <- <- H]. destruct (IH _ H) as [a' ->].
        by exists (backslash :: dquote :: a').
    + destruct a as [|x [|y a]]; cbn [app].
      * intros [=].
      * intros [=].
      * intros [= <- <- H]. destruct (IH _ H) as [a' ->].
        by exists (backslash :: "n"%char :: a').
    + destruct a as [|x a]; cbn [app].
      * intros [= -> _]. by rewrite Ascii.eqb_refl in E1.
      * intros [= <- H]. destruct (IH _ H) as [a' ->]. by exists (c :: a').
Qed.

(** *** Texts without a backslash *)

Lemma plain_app (s t : str) : plain s -> plain t -> plain (s ++ t).
Proof. intros Hs Ht. apply not_elem_of_app. done. Qed.

Lemma plain_join (sep : str) (parts : list str) :
  plain sep -> Forall plain parts -> plain (join sep parts).
Proof.
  intros Hsep. induction 1 as [|p ps Hp Hps IH]; [apply not_elem_of_nil|].
  destruct ps as [|q ps]; [done|].
  change (plain (p ++ sep ++ join sep (q :: ps))).
  by repeat apply plain_app.
Qed.

Lemma plain_digits (ds : str) : all_digits ds = true -> plain ds.
Proof.
  unfold all_digits, plain. rewrite forallb_forall. intros H Hin.
  apply list_elem_of_In, H in Hin. done.
Qed.

Lemma plain_str_of_int (n : Z) : plain (str_of_int n).
Proof.
  destruct (str_of_int_shape n) as (ds & Hds & ->). apply plain_app.
  - destruct (n <? 0); [|apply not_elem_of_nil].
    apply (bool_decide_unpack _). by vm_compute.
  - by apply plain_digits.
Qed.

Lemma plain_zeros (n : Z) : plain (PyFloat.zeros n).
Proof.
  unfold plain, PyFloat.zeros. intros Hin.
  apply list_elem_of_In, repeat_spec in Hin. done.
Qed.

Lemma plain_sign (neg : bool) : plain (PyFloat.sign_str neg).
Proof. destruct neg; apply (bool_decide_unpack _); by vm_compute. Qed.

Lemma plain_float_4f (f : PyFloat.float) : plain (PyFloat.format_4f f).
Proof.
  unfold PyFloat.format_4f. destruct (PyFloat.canon f) as [s|s| |s m e].
  - apply plain_app; [apply plain_sign|]. apply (bool_decide_unpack _). by vm_compute.
  - apply plain_app; [apply plain_sign|]. apply (bool_decide_unpack _). by vm_compute.
  - apply (bool_decide_unpack _). by vm_compute.
  - apply plain_app; [apply plain_sign|].
    apply plain_app; [apply plain_str_of_int|].
    apply plain_app; [apply (bool_decide_unpack _); by vm_compute|].
    unfold PyFloat.pad_int. apply plain_app; [apply plain_zeros | apply plain_str_of_int].
Qed.

Lemma plain_coordinate_text (v : value) (s : str) :
  coordinate_text v = Ok s -> plain s.
Proof.
  unfold coordinate_text. destruct (notnull v).
  - destruct v as [|b|k|f|t]; cbn [format_4f]; try done.
    + destruct (PyFloat.of_int (int_of_bool b)); try done;
        intros [= <-]; apply plain_float_4f.
    + destruct (PyFloat.of_int k); try done; intros [= <-]; apply plain_float_4f.
    + intros [= <-]. apply plain_float_4f.
  - intros [= <-]. apply (bool_decide_unpack _). by vm_compute.
Qed.

Lemma plain_description (sa sud : value) : plain (snd (classify sa sud)).
Proof.
  unfold classify.
  destruct (eq_str sa (lit "True")), (eq_str sud (lit "True")); cbn [andb snd];
    apply (bool_decide_unpack _); by vm_compute.
Qed.

Lemma plain_lit_check (s : str) : bool_decide (backslash ∉ s) = true -> plain s.
Proof. apply bool_decide_eq_true_1. Qed.

Lemma plain_popup_text (npi group_name facility_type_desc street_address city
    state zip_code latitude longitude is_substance_abuse is_sud_clinic : str) :
  plain npi -> plain group_name -> plain facility_type_desc ->
  plain street_address -> plain city -> plain state -> plain zip_code ->
  plain latitude -> plain longitude -> plain is_substance_abuse ->
  plain is_sud_clinic ->
  plain (popup_text npi group_name facility_type_desc street_address city state
           zip_code latitude longitude is_substance_abuse is_sud_clinic).
Proof.
  intros. unfold popup_text, unlines. apply plain_join.
  - apply plain_lit_check. by vm_compute.
  - repeat apply Forall_cons_2; try apply Forall_nil_2;
      repeat (apply plain_app; [first [assumption | apply plain_lit_check; by vm_compute]|]);
      first [assumption | apply plain_lit_check; by vm_compute | apply not_elem_of_nil].
Qed.

Lemma insert_before_length (old ins s : str) :
  length (insert_before old ins s)
  = (length s + occurrences old s * length ins)%nat.
Proof.
  induction s as [|c s IH]; [done|]. cbn [insert_before occurrences].
  rewrite length_app. cbn [length]. rewrite IH.
  destruct (startswith old (c :: s)); simpl; lia.
Qed.

(** A rendered document is longer than the base document. *)
Lemma inject_longer (d : str) (fs : list Facility) (ms : list str) (out : str) :
  fs <> [] -> markers_from 0 fs = Ok ms ->
  inject_facility_markers_into_html d (Some fs) = Ok out ->
  (length d < length out)%nat.
Proof.
  intros Hne Hms Hout. apply (inject_nonempty_out _ _ ms) in Hout; [|done..].
  assert (Htag : (17 <= length (script_tag d ms))%nat).
  { unfold script_tag. rewrite !length_app. simpl. lia. }
  subst out. destruct (contains body_close d) eqn:E.
  - rewrite insert_before_length, length_app.
    apply contains_occurrences in E; [|done]. simpl length at 3. nia.
  - rewrite length_app. lia.
Qed.

End RendererMore.

Import RendererMore.

(** X7. The renderer returns a document exactly when the coordinates of
    every row can be formatted; otherwise it raises.  A latitude or a
    longitude that is a text makes it raise. *)
Theorem renderer_returns_iff_renderable (original_html : str)
    (fs : list Facility) :
  ((exists out,
      inject_facility_markers_into_html original_html (Some fs) = Ok out)
   <-> renderable fs)
  /\ ((exists r s, r ∈ fs /\ (Latitude r = VStr s \/ Longitude r = VStr s)) ->
      exists e,
        inject_facility_markers_into_html original_html (Some fs) = Raise e).
Proof.
  assert (Hiff : (exists out,
      inject_facility_markers_into_html original_html (Some fs) = Ok out)
   <-> renderable fs).
  { split.
    - intros [out Hout]. destruct (markers_from 0 fs) as [ms|e] eqn:Hms.
      + by apply (markers_from_renderable 0 fs ms).
      + by rewrite (inject_raises _ _ e) in Hout.
    - intros Hfs. destruct (markers_from_total 0 fs Hfs) as [ms Hms].
      destruct fs as [|r fs]; [by exists original_html|].
      rewrite (inject_nonempty _ _ ms) by done. by eexists. }
  split; [done|].
  intros (r & s & Hr & Hs).
  destruct (inject_facility_markers_into_html original_html (Some fs))
    as [out|e] eqn:E; [|by exists e].
  exfalso. destruct (proj1 Hiff (ex_intro _ out eq_refl) r Hr) as [[lat Hlat] [lon Hlon]].
  destruct Hs as [Hs|Hs]; rewrite Hs in *; done.
Qed.

Lemma renderer_returns_iff_renderable_witness :
  (exists r s, r ∈ [select_row (lit "nj.csv")
                      (source_row (VStr (lit "Harbor Clinic")) (VInt 7102)
                         (VInt 1) (VInt 0) (VStr (lit "40.5N")) lon_m74_25)]
               /\ (Latitude r = VStr s \/ Longitude r = VStr s))
  /\ exists e,
       inject_facility_markers_into_html base_html
         (Some [select_row (lit "nj.csv")
                  (source_row (VStr (lit "Harbor Clinic")) (VInt 7102)
                     (VInt 1) (VInt 0) (VStr (lit "40.5N")) lon_m74_25)])
       = Raise e.
Proof.
  assert (H : exists r s,
             r ∈ [select_row (lit "nj.csv")
                    (source_row (VStr (lit "Harbor Clinic")) (VInt 7102)
                       (VInt 1) (VInt 0) (VStr (lit "40.5N")) lon_m74_25)]
             /\ (Latitude r = VStr s \/ Longitude r = VStr s)).
  { eexists _, (lit "40.5N"). split; [left|]. left. reflexivity. }
  split; [exact H|].
  exact (proj2 (renderer_returns_iff_renderable base_html _) H).
Defined.

(** X8. The loop over the rows makes one marker for each row, in order.
    The marker at position [i] is the text written out below: it
    declares the variable [marker_i] as a circle marker at the
    coordinates of the row, with the border colour '#000000', the fill
    colour of the category of the row and the popup of the row, and adds
    it to the cluster.  Each marker starts with the declaration of its
    own variable, and no marker starts with that of another row. *)
Theorem one_marker_per_row (fs : list Facility) (markers : list str) :
  markers_from 0 fs = Ok markers ->
  length markers = length fs
  /\ (forall i r, fs !! i = Some r ->
        exists popup,
          popup_html r = Ok popup
          /\ markers !! i
             = Some (unlines [
                 [];
                 lit "                var marker_" ++ str_of_int (Z.of_nat i)
                   ++ lit " = L.circleMarker(["
                   ++ str_of (Latitude r) ++ lit ", "
                   ++ str_of (Longitude r) ++ lit "], {";
                 lit "                    radius: 7,";
                 lit "                    color: '#000000',";
                 lit "                    weight: 2,";
                 lit "                    opacity: 0.9,";
                 lit "                    fillColor: '"
                   ++ fst (classify (is_substance_abuse_rehab r)
                             (is_sud_rehab_clinic r))
                   ++ lit "',";
                 lit "                    fillOpacity: 0.7";
                 lit "                }).bindPopup(" ++ [dquote] ++ popup
                   ++ [dquote] ++ lit ", {maxWidth: 300});";
                 lit "                ";
                 lit "                facilityCluster.addLayer(marker_"
                   ++ str_of_int (Z.of_nat i) ++ lit ");";
                 lit "        "
               ]))
  /\ (forall i j mi mj,
        markers !! i = Some mi -> markers !! j = Some mj -> i <> j ->
        startswith (newline :: lit "                var marker_"
                      ++ str_of_int (Z.of_nat i) ++ lit " = ") mi = true
        /\ startswith (newline :: lit "                var marker_"
                         ++ str_of_int (Z.of_nat i) ++ lit " = ") mj = false).
Proof.
  intros H. destruct (markers_from_rows 0 fs markers H) as [Hlen Hrows].
  split; [done|]. split.
  - intros i r Hi. destruct (Hrows i r Hi) as (popup & Hp & Hm).
    exists popup. split; [done|]. rewrite Hm. reflexivity.
  - assert (Hrow : forall i mi, markers !! i = Some mi ->
               exists lat lon fill popup,
                 mi = marker_js (str_of_int (Z.of_nat i)) lat lon marker_color
                        fill popup).
    { intros i mi Hmi.
      assert (Hlt : (i < length fs)%nat).
      { rewrite <- Hlen. by apply lookup_lt_Some in Hmi. }
      apply lookup_lt_is_Some in Hlt as [r Hr].
      destruct (Hrows i r Hr) as (popup & _ & Hm). rewrite Nat.add_0_l in Hm.
      rewrite Hm in Hmi. injection Hmi as <-. by do 4 eexists. }
    intros i j mi mj Hi Hj Hij.
    destruct (Hrow i mi Hi) as (lat & lon & fill & popup & ->).
    destruct (Hrow j mj Hj) as (lat' & lon' & fill' & popup' & ->).
    split.
    + destruct (marker_js_declaration (str_of_int (Z.of_nat i)) lat lon
                  marker_color fill popup) as [rest ->].
      apply startswith_spec. exists (lit "L.circleMarker([" ++ rest).
      cbn [app]. rewrite <- !app_assoc. reflexivity.
    + destruct (startswith _ (marker_js (str_of_int (Z.of_nat j)) _ _ _ _ _))
        eqn:E; [|done].
      apply declaration_of_its_own in E. done.
Qed.

Lemma one_marker_per_row_witness :
  exists markers,
    markers_from 0 [clinic; clinic_lowercase_flags] = Ok markers
    /\ length markers = length [clinic; clinic_lowercase_flags].
Proof.
  assert (H : exists markers,
             markers_from 0 [clinic; clinic_lowercase_flags] = Ok markers)
    by (eexists; vm_compute; reflexivity).
  destruct H as [markers H]. exists markers. split; [exact H|].
  exact (proj1 (one_marker_per_row _ _ H)).
Defined.

(** X9. Whatever the fields of a row hold, its popup has no line feed
    left, and every double quote in it comes right after a backslash. *)
Theorem popup_has_no_line_feed (facility : Facility) (popup : str) :
  popup_html facility = Ok popup ->
  (newline ∉ popup)
  /\ forall a b, popup = a ++ dquote :: b -> exists a', a = a' ++ [backslash].
Proof.
  intros (lat & lon & _ & _ & ->)%popup_html_escape. split.
  - apply escape_no_newline.
  - intros a b. apply escape_quote_follows_backslash.
Qed.

Lemma popup_has_no_line_feed_witness :
  exists popup,
    popup_html clinic_backslash_quote = Ok popup /\ (newline ∉ popup).
Proof.
  assert (H : exists popup, popup_html clinic_backslash_quote = Ok popup)
    by (eexists; vm_compute; reflexivity).
  destruct H as [popup H]. exists popup. split; [exact H|].
  exact (proj1 (popup_has_no_line_feed _ _ H)).
Defined.

(** X10. When none of the texts of a row holds a backslash, its popup is
    escaped well: read as the inside of a double-quoted JavaScript
    literal it has no double quote that ends the literal. *)
Theorem popup_is_sound_without_backslash (facility : Facility) (popup : str) :
  (forall t, t ∈ shown_texts facility -> backslash ∉ t) ->
  popup_html facility = Ok popup ->
  has_unescaped_quote popup = false.
Proof.
  intros Ht (lat & lon & Hlat & Hlon & ->)%popup_html_escape.
  apply escape_without_backslash.
  unfold shown_texts in Ht.
  apply plain_popup_text;
    try (apply Ht; repeat first [by left | right]; fail).
  - apply plain_description.
  - by apply (plain_coordinate_text (Latitude facility)).
  - by apply (plain_coordinate_text (Longitude facility)).
Qed.

Lemma popup_is_sound_without_backslash_witness :
  (forall t, t ∈ shown_texts clinic -> backslash ∉ t)
  /\ exists popup,
       popup_html clinic = Ok popup /\ has_unescaped_quote popup = false.
Proof.
  assert (Ht : forall t, t ∈ shown_texts clinic -> backslash ∉ t).
  { apply Forall_forall. apply (bool_decide_unpack _). vm_compute. exact I. }
  assert (H : exists popup, popup_html clinic = Ok popup)
    by (eexists; vm_compute; reflexivity).
  split; [exact Ht|]. destruct H as [popup H]. exists popup.
  split; [exact H|]. exact (popup_is_sound_without_backslash clinic popup Ht H).
Defined.

(** X11. The script block is put in once for each closing body marker of
    the document, with a line feed; a document without the marker gets
    it once.  So the output is longer than the input by the length of
    the block (and its line feed) times the number of markers, and is
    never the input itself. *)
Theorem block_inserted_once_per_closing_marker (original_html : str)
    (fs : list Facility) (markers : list str) (out : str) :
  fs <> [] -> markers_from 0 fs = Ok markers ->
  inject_facility_markers_into_html original_html (Some fs) = Ok out ->
  (contains body_close original_html = true ->
   length out
   = (length original_html
      + occurrences body_close original_html
        * (length (script_tag original_html markers) + 1))%nat)
  /\ (contains body_close original_html = false ->
      length out
      = (length original_html + length (script_tag original_html markers))%nat)
  /\ (length original_html < length out)%nat
  /\ out <> original_html.
Proof.
  intros Hne Hms Hout.
  pose proof (inject_longer _ _ _ _ Hne Hms Hout) as Hlen.
  apply (inject_nonempty_out _ _ markers) in Hout; [|done..].
  split; [|split; [|split]].
  - intros E. rewrite E in Hout. subst out.
    rewrite insert_before_length, length_app. done.
  - intros E. rewrite E in Hout. subst out. by rewrite length_app.
  - done.
  - intros ->. lia.
Qed.

Lemma block_inserted_once_per_closing_marker_witness :
  exists markers out,
    [clinic] <> [] /\ markers_from 0 [clinic] = Ok markers
    /\ inject_facility_markers_into_html base_html (Some [clinic]) = Ok out
    /\ (length base_html < length out)%nat.
Proof.
  assert (H : exists markers, markers_from 0 [clinic] = Ok markers)
    by (eexists; vm_compute; reflexivity).
  destruct H as [markers Hms].
  assert (H : exists out,
             inject_facility_markers_into_html base_html (Some [clinic]) = Ok out)
    by (eexists; vm_compute; reflexivity).
  destruct H as [out Hout]. exists markers, out.
  assert (Hne : [clinic] <> []) by discriminate.
  split; [exact Hne|]. split; [exact Hms|]. split; [exact Hout|].
  exact (proj1 (proj2 (proj2
    (block_inserted_once_per_closing_marker base_html [clinic] markers out
       Hne Hms Hout)))).
Defined.

(** ** The file names of a selection *)

Import PyMore Selection.

Module SelectionFacts.

Lemma split_from_nonempty (sep : str) (skip : nat) (s : str) :
  split_from sep skip s <> [].
Proof.
  revert skip. induction s as [|c s IH]; intros [|k]; cbn [split_from];
    first [ done | apply IH | idtac ].
  destruct (startswith sep (c :: s)); [done|].
  by destruct (split_from sep 0 s).
Qed.

Lemma split_from_drop (sep : str) (k : nat) (s : str) :
  (k <= length s)%nat -> split_from sep k s = split_from sep 0 (drop k s).
Proof.
  revert k. induction s as [|c s IH]; intros [|k] Hk; try done.
  cbn [split_from drop]. apply IH. simpl in Hk. lia.
Qed.

(** A text without the separator is one piece. *)
Lemma split_none (sep s : str) :
  contains sep s = false -> split sep s = [s].
Proof.
  unfold split. induction s as [|c s IH]; [done|].
  cbn [contains split_from]. intros [H1 H2]%orb_false_iff.
  rewrite H1, (IH H2). done.
Qed.

(** A text with the separator has two pieces at least. *)
Lemma split_two (c0 : ascii) (sep' s : str) :
  contains (c0 :: sep') s = true ->
  exists first second rest, split (c0 :: sep') s = first :: second :: rest.
Proof.
  unfold split. induction s as [|c s IH]; [done|].
  cbn [contains split_from]. destruct (startswith (c0 :: sep') (c :: s)) eqn:E.
  - intros _.
    destruct (split_from (c0 :: sep') (length (c0 :: sep') - 1) s) as [|p ps] eqn:Ep.
    + by apply split_from_nonempty in Ep.
    + by exists [], p, ps.
  - cbn [orb]. intros H. destruct (IH H) as (f & sec & rest & ->).
    by exists (c :: f), sec, rest.
Qed.

(** The first piece ends at the first separator. *)
Lemma split_first (c0 : ascii) (sep' a b : str) :
  c0 ∉ a ->
  split (c0 :: sep') (a ++ (c0 :: sep') ++ b) = a :: split (c0 :: sep') b.
Proof.
  unfold split. induction a as [|x a IH]; intros Ha.
  - cbn [app]. cbn [split_from].
    change (c0 :: sep' ++ b) with ((c0 :: sep') ++ b). rewrite startswith_self.
    f_equal. rewrite split_from_drop.
    + cbn [length]. rewrite Nat.sub_1_r. cbn [Nat.pred]. by rewrite drop_app_length.
    + rewrite length_app. simpl. lia.
  - apply not_elem_of_cons in Ha as [Hx Ha].
    change ((x :: a) ++ (c0 :: sep') ++ b) with (x :: a ++ (c0 :: sep') ++ b).
    cbn [split_from].
    destruct (startswith (c0 :: sep') (x :: a ++ (c0 :: sep') ++ b)) eqn:E.
    + apply startswith_spec in E as [t Ht]. injection Ht as -> _. done.
    + by rewrite (IH Ha).
Qed.

Lemma notin_replace_self (c : ascii) (new s : str) :
  c ∉ new -> c ∉ replace [c] new s.
Proof.
  intros Hnew. rewrite replace_char. induction s as [|x s IH]; [apply not_elem_of_nil|].
  cbn [flat_map]. apply not_elem_of_app. split; [|done].
  destruct (Ascii.eqb c x) eqn:E; [done|].
  apply Ascii.eqb_neq in E. by intros ->%list_elem_of_singleton.
Qed.

Lemma notin_replace_other (x c : ascii) (new s : str) :
  x ∉ s -> x ∉ new -> x ∉ replace [c] new s.
Proof.
  intros Hs Hnew. rewrite replace_char. induction s as [|y s IH]; [apply not_elem_of_nil|].
  apply not_elem_of_cons in Hs as [Hy Hs].
  cbn [flat_map]. apply not_elem_of_app. split; [|by apply IH].
  destruct (Ascii.eqb c y); [done|]. by intros ->%list_elem_of_singleton.
Qed.

Lemma replace_char_app (c : ascii) (new s t : str) :
  replace [c] new (s ++ t) = replace [c] new s ++ replace [c] new t.
Proof. rewrite !replace_char. apply flat_map_app. Qed.

Lemma replace_char_absent (c : ascii) (new s : str) :
  c ∉ s -> replace [c] new s = s.
Proof.
  intros Hs. rewrite replace_char. induction s as [|x s IH]; [done|].
  apply not_elem_of_cons in Hs as [Hx Hs]. cbn [flat_map].
  apply Ascii.eqb_neq in Hx. rewrite Hx. simpl. by rewrite IH.
Qed.

End SelectionFacts.

Import SelectionFacts.

(** X12. Each of the sixteen selections that the sidebar can produce has
    its names, and different selections never share a map file or a data
    file. *)
Theorem selections_have_names_of_their_own :
  (forall g t m, (g, t, m) ∈ all_selections ->
     exists names, selected_names g t m = Some names)
  /\ forall g1 t1 m1 g2 t2 m2 n1 n2,
       (g1, t1, m1) ∈ all_selections -> (g2, t2, m2) ∈ all_selections ->
       selected_names g1 t1 m1 = Some n1 -> selected_names g2 t2 m2 = Some n2 ->
       (map_filename n1 = map_filename n2 \/ data_filename n1 = data_filename n2) ->
       (g1, t1, m1) = (g2, t2, m2).
Proof.
  assert (H1 : Forall (fun s : str * str * str =>
                         is_Some (selected_names s.1.1 s.1.2 s.2)) all_selections).
  { apply (bool_decide_unpack _). by vm_compute. }
  assert (H2 : forallb (fun s1 : str * str * str =>
            forallb (fun s2 : str * str * str =>
              match selected_names s1.1.1 s1.1.2 s1.2,
                    selected_names s2.1.1 s2.1.2 s2.2 with
              | Some n1, Some n2 =>
                  implb (bool_decide (map_filename n1 = map_filename n2)
                         || bool_decide (data_filename n1 = data_filename n2))
                    (bool_decide (s1 = s2))
              | _, _ => true
              end) all_selections) all_selections = true) by (by vm_compute).
  split.
  - intros g t m Hs. rewrite Forall_forall in H1. by apply (H1 (g, t, m)).
  - intros g1 t1 m1 g2 t2 m2 n1 n2 Hs1 Hs2 Hn1 Hn2 Heq.
    rewrite forallb_forall in H2.
    specialize (H2 _ (proj1 (list_elem_of_In _ _) Hs1)).
    rewrite forallb_forall in H2.
    specialize (H2 _ (proj1 (list_elem_of_In _ _) Hs2)).
    cbn [fst snd] in H2. rewrite Hn1, Hn2 in H2.
    destruct (bool_decide (map_filename n1 = map_filename n2)
              || bool_decide (data_filename n1 = data_filename n2)) eqn:E.
    + by apply bool_decide_eq_true_1 in H2.
    + apply orb_false_iff in E as [E1 E2].
      apply bool_decide_eq_false_1 in E1, E2. by destruct Heq.
Qed.

Lemma selections_have_names_of_their_own_witness :
  (lit "State", lit "261QR0405X - SUD Rehab Clinics", lit "Raw Count")
    ∈ all_selections
  /\ exists names,
       selected_names (lit "State") (lit "261QR0405X - SUD Rehab Clinics")
         (lit "Raw Count") = Some names.
Proof.
  assert (H : (lit "State", lit "261QR0405X - SUD Rehab Clinics", lit "Raw Count")
                ∈ all_selections).
  { apply (bool_decide_unpack _). vm_compute. exact I. }
  split; [exact H|].
  exact (proj1 selections_have_names_of_their_own _ _ _ H).
Defined.

(** X13. Whatever the name of the map is, the base of the file names has
    no space and no parenthesis; and for a facility type without
    parentheses it is the type with underscores for spaces, followed by
    [_Raw] or [_per_100k]. *)
Theorem base_filename_has_no_space_or_parenthesis (name facility_type : str) :
  (" "%char ∉ base_filename name)
  /\ ("("%char ∉ base_filename name)
  /\ (")"%char ∉ base_filename name)
  /\ ("("%char ∉ facility_type -> ")"%char ∉ facility_type ->
      base_filename (map_name_construct (lit "Raw Count") facility_type)
      = replace (lit " ") (lit "_") facility_type ++ lit "_Raw"
      /\ forall metric_selection,
           metric_selection <> lit "Raw Count" ->
           base_filename (map_name_construct metric_selection facility_type)
           = replace (lit " ") (lit "_") facility_type ++ lit "_per_100k").
Proof.
  unfold base_filename.
  assert (Hsp : " "%char ∉ replace (lit " ") (lit "_") name).
  { apply (notin_replace_self " "%char). apply (bool_decide_unpack _). by vm_compute. }
  split; [|split; [|split]].
  - apply (notin_replace_other _ ")"%char); [|apply not_elem_of_nil].
    apply (notin_replace_other _ "("%char); [done|apply not_elem_of_nil].
  - apply (notin_replace_other _ ")"%char); [|apply not_elem_of_nil].
    apply (notin_replace_self "("%char). apply not_elem_of_nil.
  - apply (notin_replace_self ")"%char). apply not_elem_of_nil.
  - intros Ho Hc.
    assert (Ho' : "("%char ∉ replace (lit " ") (lit "_") facility_type).
    { apply (notin_replace_other _ " "%char); [done|].
      apply (bool_decide_unpack _). by vm_compute. }
    assert (Hc' : ")"%char ∉ replace (lit " ") (lit "_") facility_type).
    { apply (notin_replace_other _ " "%char); [done|].
      apply (bool_decide_unpack _). by vm_compute. }
    split.
    + unfold map_name_construct, str_eqb. rewrite bool_decide_eq_true_2 by done.
      rewrite (replace_char_app " "%char), (replace_char_app "("%char),
        (replace_char_app ")"%char).
      rewrite (replace_char_absent "("%char) by done.
      rewrite (replace_char_absent ")"%char) by done.
      f_equal.
    + intros metric Hm.
      unfold map_name_construct, str_eqb. rewrite bool_decide_eq_false_2 by done.
      rewrite (replace_char_app " "%char), (replace_char_app "("%char),
        (replace_char_app ")"%char).
      rewrite (replace_char_absent "("%char) by done.
      rewrite (replace_char_absent ")"%char) by done.
      f_equal.
Qed.

Lemma base_filename_has_no_space_or_parenthesis_witness :
  ("("%char ∉ lit "SUD Rehab Clinics") /\ (")"%char ∉ lit "SUD Rehab Clinics")
  /\ base_filename (map_name_construct (lit "Raw Count") (lit "SUD Rehab Clinics"))
     = replace (lit " ") (lit "_") (lit "SUD Rehab Clinics") ++ lit "_Raw".
Proof.
  assert (Ho : "("%char ∉ lit "SUD Rehab Clinics").
  { apply (bool_decide_unpack _). vm_compute. exact I. }
  assert (Hc : ")"%char ∉ lit "SUD Rehab Clinics").
  { apply (bool_decide_unpack _). vm_compute. exact I. }
  split; [exact Ho|]. split; [exact Hc|].
  exact (proj1 (proj2 (proj2 (proj2
    (base_filename_has_no_space_or_parenthesis [] (lit "SUD Rehab Clinics"))))
    Ho Hc)).
Defined.

(** X14. The facility type of a taxonomy selection: a selection that
    starts with 'Combined' is 'All Healthcare Facilities'; otherwise the
    lookup of the second piece raises exactly when the selection has no
    ' - ' in it, and for a code without a space followed by ' - ' and a
    name without ' - ' it is the name. *)
Theorem facility_type_of_a_selection (taxonomy_selection : str) :
  (startswith (lit "Combined") taxonomy_selection = true ->
   facility_type taxonomy_selection = Some (lit "All Healthcare Facilities"))
  /\ (facility_type taxonomy_selection = None <->
      startswith (lit "Combined") taxonomy_selection = false
      /\ contains (lit " - ") taxonomy_selection = false)
  /\ forall code name,
       " "%char ∉ code ->
       startswith (lit "Combined") (code ++ lit " - " ++ name) = false ->
       contains (lit " - ") name = false ->
       facility_type (code ++ lit " - " ++ name) = Some name.
Proof.
  split; [|split].
  - unfold facility_type. by intros ->.
  - unfold facility_type.
    destruct (startswith (lit "Combined") taxonomy_selection); [by split; [|intros []]|].
    destruct (contains (lit " - ") taxonomy_selection) eqn:E.
    + destruct (split_two " "%char (lit "- ") taxonomy_selection E)
        as (f & sec & rest & Hs).
      change (" "%char :: lit "- ") with (lit " - ") in Hs. rewrite Hs.
      by split; [|intros []].
    + by rewrite (split_none _ _ E).
  - intros code name Hcode Hcomb Hname. unfold facility_type. rewrite Hcomb.
    pose proof (split_first " "%char (lit "- ") code name Hcode) as Hs.
    change (" "%char :: lit "- ") with (lit " - ") in Hs.
    by rewrite Hs, (split_none _ _ Hname).
Qed.

Lemma facility_type_of_a_selection_witness :
  (" "%char ∉ lit "261QR0405X")
  /\ startswith (lit "Combined")
       (lit "261QR0405X" ++ lit " - " ++ lit "SUD Rehab Clinics") = false
  /\ contains (lit " - ") (lit "SUD Rehab Clinics") = false
  /\ facility_type (lit "261QR0405X" ++ lit " - " ++ lit "SUD Rehab Clinics")
     = Some (lit "SUD Rehab Clinics").
Proof.
  assert (H1 : " "%char ∉ lit "261QR0405X").
  { apply (bool_decide_unpack _). vm_compute. exact I. }
  assert (H2 : startswith (lit "Combined")
       (lit "261QR0405X" ++ lit " - " ++ lit "SUD Rehab Clinics") = false)
    by reflexivity.
  assert (H3 : contains (lit " - ") (lit "SUD Rehab Clinics") = false)
    by reflexivity.
  split; [exact H1|]. split; [exact H2|]. split; [exact H3|].
  exact (proj2 (proj2 (facility_type_of_a_selection []))
           (lit "261QR0405X") (lit "SUD Rehab Clinics") H1 H2 H3).
Defined.

(** ** The page, the data table and the gate *)

Import Page Table Gate.

Module PageFacts.

(** What the display of a readable map file shows, by the facilities. *)
Lemma display_map_loaded (show : bool) (dir : option (list (str * result DataFrame)))
    (map_html : str) :
  let facility_data := fst (load_facility_data dir) in
  exists out,
    display_map show (if show then facility_data else None) (Some (Ok map_html))
    = Map_shown out
    /\ sublist map_html out
    /\ (out = map_html <-> show = false \/ none_or_empty facility_data = true).
Proof.
  intros facility_data. unfold display_map. destruct show; cbn [andb].
  2:{ exists map_html. split; [done|]. split; [done|]. split; [by left | done]. }
  destruct facility_data as [[|r fs]|] eqn:Ed; cbn [none_or_empty negb].
  - exists map_html. split; [done|]. split; [done|]. split; [by right | done].
  - assert (Hload : load_facility_data dir
                    = (Some (r :: fs), snd (load_facility_data dir))).
    { subst facility_data. destruct (load_facility_data dir) as [d l].
      simpl in *. by subst. }
    pose proof (loader_rows_renderable _ _ _ Hload) as Hren.
    destruct (markers_from_total 0 (r :: fs) Hren) as [ms Hms].
    rewrite (inject_nonempty _ _ ms) by done.
    eexists. split; [done|]. split.
    + destruct (contains body_close map_html).
      * apply (insert_before_sublist "<"%char (lit "/body>")).
      * by apply sublist_inserts_r.
    + split; [|intros [?|?]; discriminate].
      intros Heq. exfalso.
      assert (Hne : r :: fs <> []) by done.
      pose proof (inject_longer map_html (r :: fs) ms _ Hne Hms
                    (inject_nonempty map_html _ ms Hne Hms)) as Hlen.
      rewrite Heq in Hlen. lia.
  - exists map_html. split; [done|]. split; [done|]. split; [by right | done].
Qed.

Lemma show_map_unfold (show : bool) (dir : option (list (str * result DataFrame)))
    (map_file : option (result str)) :
  show_map show dir map_file
  = (display_map show (if show then fst (load_facility_data dir) else None) map_file,
     if show
     then map From_loader (snd (load_facility_data dir))
          ++ (if none_or_empty (fst (load_facility_data dir))
              then [No_facility_data] else [])
     else []).
Proof.
  unfold show_map, facility_overlay. destruct show; [|done].
  by destruct (load_facility_data dir).
Qed.

Lemma no_data_notice (show : bool) (dir : option (list (str * result DataFrame)))
    (map_file : option (result str)) :
  No_facility_data ∈ snd (show_map show dir map_file)
  <-> show = true /\ none_or_empty (fst (load_facility_data dir)) = true.
Proof.
  rewrite show_map_unfold. cbn [snd]. destruct show.
  - rewrite elem_of_app.
    assert (Hl : No_facility_data ∉ map From_loader (snd (load_facility_data dir))).
    { intros (m & Hm & _)%list_elem_of_fmap. done. }
    destruct (none_or_empty (fst (load_facility_data dir))).
    + split; [done|]. intros _. right. left.
    + split; [|by intros [_ ?]]. intros [H|H]; [done|]. by apply elem_of_nil in H.
  - split; [intros H; by apply elem_of_nil in H | by intros [? _]].
Qed.

End PageFacts.

Import PageFacts.

(** X15. When the map file is read, the page shows a map whatever the
    overlay switch and the facility directory are: the renderer never
    raises on what the loader returns.  The document of the file is kept
    inside what is shown, and it is shown as it is when the overlay is
    off.  An error is displayed only for an exception raised while
    reading the map file. *)
Theorem page_shows_the_map (show_facility_overlay : bool)
    (dir : option (list (str * result DataFrame))) :
  (forall map_html,
     exists out,
       fst (show_map show_facility_overlay dir (Some (Ok map_html))) = Map_shown out
       /\ sublist map_html out
       /\ (show_facility_overlay = false -> out = map_html))
  /\ (forall map_file e,
        fst (show_map show_facility_overlay dir map_file) = Unexpected_error e ->
        map_file = Some (Raise e))
  /\ fst (show_map show_facility_overlay dir None) = Map_file_not_found.
Proof.
  split; [|split].
  - intros map_html. rewrite show_map_unfold. cbn [fst].
    destruct (display_map_loaded show_facility_overlay dir map_html)
      as (out & Hd & Hsub & Hiff).
    exists out. split; [done|]. split; [done|]. intros Hs. apply Hiff. by left.
  - intros map_file e. rewrite show_map_unfold. cbn [fst].
    destruct map_file as [[map_html|e']|].
    + destruct (display_map_loaded show_facility_overlay dir map_html)
        as (out & -> & _). done.
    + cbn [display_map]. by intros [= ->].
    + done.
  - by rewrite show_map_unfold.
Qed.

Lemma page_shows_the_map_witness :
  fst (show_map false (Some one_file) (Some (Ok base_html))) = Map_shown base_html
  /\ exists out,
       fst (show_map true (Some one_file) (Some (Ok base_html))) = Map_shown out
       /\ sublist base_html out.
Proof.
  split.
  - destruct (proj1 (page_shows_the_map false (Some one_file)) base_html)
      as (out & Hshown & _ & Hsame).
    rewrite Hshown. f_equal. apply Hsame. reflexivity.
  - destruct (proj1 (page_shows_the_map true (Some one_file)) base_html)
      as (out & Hshown & Hsub & _).
    exists out. split; assumption.
Defined.

(** X16. On a page whose map file is read, the notice that there is no
    facility data is shown exactly when the overlay is switched on and
    the map is displayed unchanged: with the overlay on, either the
    markers are put in or the user is told that they are not. *)
Theorem notice_iff_overlay_left_out (show_facility_overlay : bool)
    (dir : option (list (str * result DataFrame))) (map_html : str) :
  No_facility_data
    ∈ snd (show_map show_facility_overlay dir (Some (Ok map_html)))
  <-> show_facility_overlay = true
      /\ fst (show_map show_facility_overlay dir (Some (Ok map_html)))
         = Map_shown map_html.
Proof.
  rewrite no_data_notice. rewrite show_map_unfold. cbn [fst].
  destruct (display_map_loaded show_facility_overlay dir map_html)
    as (out & -> & _ & Hiff).
  split.
  - intros [Hs Hn]. split; [done|]. f_equal. apply Hiff. by right.
  - intros [Hs [= Heq]]. split; [done|].
    destruct (proj1 Hiff Heq) as [Hf|Hn]; [congruence | done].
Qed.

Lemma notice_iff_overlay_left_out_witness :
  No_facility_data ∈ snd (show_map true None (Some (Ok base_html))).
Proof.
  apply (proj2 (notice_iff_overlay_left_out true None base_html)).
  split; [reflexivity | vm_compute; reflexivity].
Defined.

Module TableFacts.

Lemma filter_head {A} (f : A -> bool) (l : list A) (x : A) (rest : list A) :
  List.filter f l = x :: rest ->
  exists before after,
    l = before ++ x :: after /\ f x = true
    /\ forall y, y ∈ before -> f y = false.
Proof.
  induction l as [|a l IH]; [done|]. cbn [List.filter].
  destruct (f a) eqn:E.
  - intros [= -> _]. exists [], l. split; [done|]. split; [done|].
    intros y Hy. by apply elem_of_nil in Hy.
  - intros H. destruct (IH H) as (before & after & -> & Hx & Hb).
    exists (a :: before), after. split; [done|]. split; [done|].
    intros y [->|Hy]%elem_of_cons; [done | by apply Hb].
Qed.

Lemma filter_nil {A} (f : A -> bool) (l : list A) :
  List.filter f l = [] <-> forall x, x ∈ l -> f x = false.
Proof.
  induction l as [|a l IH]; cbn [List.filter].
  - split; [intros _ x Hx; by apply elem_of_nil in Hx | done].
  - destruct (f a) eqn:E.
    + split; [done|]. intros H. specialize (H a ltac:(left)). congruence.
    + rewrite IH. split.
      * intros H x [->|Hx]%elem_of_cons; [done | by apply H].
      * intros H x Hx. apply H. by right.
Qed.

End TableFacts.

Import TableFacts.

(** X17. The metric column of the data table.  There is none exactly
    when every column is a key column ('zipcode', 'state', 'population')
    or ends with '_capped_viz'.  Otherwise it is a column of the table
    that is neither; it is the first such column whose lower-case name
    holds the keyword of the selected map when there is one, and the
    first such column when there is none; it is among the columns that
    the table displays, and the value filter is offered on it unless its
    name is empty. *)
Theorem metric_column_of_the_table (columns : list str) (map_name_construct : str) :
  (metric_col_name columns map_name_construct = None <->
   forall col, col ∈ columns -> is_possible_metric col = false)
  /\ forall col,
       metric_col_name columns map_name_construct = Some col ->
       col ∈ columns
       /\ (col ∉ [lit "zipcode"; lit "state"; lit "population"])
       /\ endswith (lit "_capped_viz") col = false
       /\ col ∈ display_cols columns
       /\ (exists before after,
             possible_metric_cols columns = before ++ col :: after
             /\ ((contains (metric_keyword map_name_construct) (lower col) = true
                  /\ forall c, c ∈ before ->
                       contains (metric_keyword map_name_construct) (lower c)
                       = false)
                 \/ (before = []
                     /\ forall c, c ∈ possible_metric_cols columns ->
                          contains (metric_keyword map_name_construct) (lower c)
                          = false)))
       /\ (value_filter_column columns map_name_construct
           = if bool_decide (col = []) then None else Some col).
Proof.
  unfold metric_col_name. split.
  - destruct (possible_metric_cols columns) as [|first rest] eqn:Ep.
    + split; [|done]. intros _. by apply filter_nil.
    + split.
      * by destruct (List.filter _ (first :: rest)).
      * intros H. apply filter_nil in H. unfold possible_metric_cols in Ep. congruence.
  - intros col Hcol.
    assert (Hposs : col ∈ possible_metric_cols columns
                    /\ exists before after,
             possible_metric_cols columns = before ++ col :: after
             /\ ((contains (metric_keyword map_name_construct) (lower col) = true
                  /\ forall c, c ∈ before ->
                       contains (metric_keyword map_name_construct) (lower c)
                       = false)
                 \/ (before = []
                     /\ forall c, c ∈ possible_metric_cols columns ->
                          contains (metric_keyword map_name_construct) (lower c)
                          = false))).
    { destruct (possible_metric_cols columns) as [|first rest] eqn:Ep; [done|].
      destruct (List.filter _ (first :: rest)) as [|matching ms] eqn:Em.
      - injection Hcol as <-. split; [left|]. exists [], rest. split; [done|].
        right. split; [done|]. by apply filter_nil.
      - injection Hcol as <-.
        destruct (filter_head _ _ _ _ Em) as (before & after & Hl & Hm & Hb).
        split.
        + rewrite Hl. apply elem_of_app. right. left.
        + exists before, after. split; [done|]. left. done. }
    destruct Hposs as [Hin Hfirst].
    unfold possible_metric_cols in Hin.
    apply list_elem_of_In, filter_In in Hin as [Hin Hp].
    apply list_elem_of_In in Hin.
    unfold is_possible_metric in Hp. apply andb_true_iff in Hp as [Hk Hc].
    apply negb_true_iff in Hk, Hc. apply bool_decide_eq_false_1 in Hk.
    split; [done|]. split; [done|]. split; [done|]. split.
    { unfold display_cols. apply list_elem_of_In, filter_In.
      split; [by apply list_elem_of_In|]. by rewrite Hc. }
    split; [done|].
    unfold value_filter_column.
    change (metric_col_name columns map_name_construct = Some col) in Hcol.
    rewrite Hcol. unfold str_eqb.
    rewrite (bool_decide_eq_true_2 (col ∈ columns)) by done.
    rewrite andb_true_r. by repeat case_bool_decide.
Qed.

Lemma metric_column_of_the_table_witness :
  metric_col_name
    [lit "zipcode"; lit "state"; lit "count_capped_viz"; lit "Other";
     lit "SUD_Rehab_Clinics_count"] (lit "SUD Rehab Clinics (Raw)")
  = Some (lit "SUD_Rehab_Clinics_count")
  /\ lit "SUD_Rehab_Clinics_count"
     ∈ display_cols
         [lit "zipcode"; lit "state"; lit "count_capped_viz"; lit "Other";
          lit "SUD_Rehab_Clinics_count"].
Proof.
  assert (H : metric_col_name
    [lit "zipcode"; lit "state"; lit "count_capped_viz"; lit "Other";
     lit "SUD_Rehab_Clinics_count"] (lit "SUD Rehab Clinics (Raw)")
  = Some (lit "SUD_Rehab_Clinics_count")) by (vm_compute; reflexivity).
  split; [exact H|].
  destruct (proj2 (metric_column_of_the_table _ _) _ H) as (_ & _ & _ & Hd & _).
  exact Hd.
Defined.

Module GateFacts.

Lemma eq_str_true (v : value) (s : str) : eq_str v s = true <-> v = VStr s.
Proof.
  destruct v as [| | | |t]; simpl; try (split; [done | discriminate]).
  rewrite bool_decide_eq_true. split; congruence.
Qed.

(** One run leaves the session authenticated only if it was, or if the
    password was typed and the button pressed. *)
Lemma run_authenticated (session : option bool) (secret : option value)
    (password_input : str) (login_pressed : bool) :
  fst (run session secret password_input login_pressed) = true ->
  session = Some true
  \/ (login_pressed = true /\ secret = Some (VStr password_input)).
Proof.
  unfold run. destruct secret as [PASSWORD|].
  - destruct session as [[|]|]; cbn [negb]; try (intros _; by left).
    + destruct login_pressed; [|done].
      destruct (eq_str PASSWORD password_input) eqn:E; [|done].
      intros _. right. apply eq_str_true in E. by subst.
    + destruct login_pressed; [|done].
      destruct (eq_str PASSWORD password_input) eqn:E; [|done].
      intros _. right. apply eq_str_true in E. by subst.
  - destruct session as [[|]|]; cbn [fst]; try done. by left.
Qed.

Lemma run_stays_authenticated (secret : option value)
    (password_input : str) (login_pressed : bool) :
  fst (run (Some true) secret password_input login_pressed) = true.
Proof. unfold run. by destruct secret. Qed.

End GateFacts.

Import GateFacts.

(** X18. A run of the script gets to the dashboard exactly when the
    password is configured and the session was authenticated before the
    run: the run in which the password is typed ends in a rerun, and a
    missing secret stops every session, an authenticated one too. *)
Theorem dashboard_needs_an_authenticated_session (session : option bool)
    (secret : option value) (password_input : str) (login_pressed : bool) :
  (snd (run session secret password_input login_pressed) = Dashboard <->
   session = Some true /\ secret <> None)
  /\ (snd (run session secret password_input login_pressed) = Rerun <->
      session <> Some true /\ login_pressed = true
      /\ secret = Some (VStr password_input))
  /\ (secret = None ->
      snd (run session secret password_input login_pressed) = Secret_missing).
Proof.
  unfold run. split; [|split].
  - destruct secret as [PASSWORD|]; [|by split; [|intros [_ ?]]].
    destruct session as [[|]|]; cbn [negb snd].
    + split; [done|]. done.
    + destruct login_pressed; [destruct (eq_str PASSWORD password_input)|];
        (split; [done | by intros [? _]]).
    + destruct login_pressed; [destruct (eq_str PASSWORD password_input)|];
        (split; [done | by intros [? _]]).
  - destruct secret as [PASSWORD|]; [|by split; [|intros (_ & _ & ?)]].
    destruct session as [[|]|]; cbn [negb snd].
    + split; [done | by intros [? _]].
    + destruct login_pressed; [|by split; [|intros (_ & ? & _)]].
      destruct (eq_str PASSWORD password_input) eqn:E.
      * apply eq_str_true in E. subst. done.
      * split; [done|]. intros (_ & _ & [= ->]).
        assert (eq_str (VStr password_input) password_input = true)
          by (by apply eq_str_true). congruence.
    + destruct login_pressed; [|by split; [|intros (_ & ? & _)]].
      destruct (eq_str PASSWORD password_input) eqn:E.
      * apply eq_str_true in E. subst. done.
      * split; [done|]. intros (_ & _ & [= ->]).
        assert (eq_str (VStr password_input) password_input = true)
          by (by apply eq_str_true). congruence.
  - by intros ->.
Qed.

Lemma dashboard_needs_an_authenticated_session_witness :
  snd (run (Some true) (Some (VStr (lit "s3cret"))) [] false) = Dashboard
  /\ snd (run (Some true) None [] false) = Secret_missing.
Proof.
  split.
  - apply (proj1 (dashboard_needs_an_authenticated_session
                    (Some true) (Some (VStr (lit "s3cret"))) [] false)).
    split; [reflexivity | discriminate].
  - apply (proj2 (proj2 (dashboard_needs_an_authenticated_session
                    (Some true) None [] false))).
    reflexivity.
Defined.

(** X19. Over any sequence of runs that starts with a fresh session, the
    session is authenticated at the end only if in one of the runs the
    button was pressed with the configured password typed in; and a
    session that is authenticated stays so. *)
Theorem authenticated_only_by_the_password (secret : option value)
    (actions : list action) :
  (session_after None secret actions = Some true ->
   exists password_input,
     (password_input, true) ∈ actions /\ secret = Some (VStr password_input))
  /\ (session_after (Some false) secret actions = Some true ->
      exists password_input,
        (password_input, true) ∈ actions /\ secret = Some (VStr password_input))
  /\ session_after (Some true) secret actions = Some true.
Proof.
  assert (Hstay : forall acts, session_after (Some true) secret acts = Some true).
  { induction acts as [|[input pressed] acts IH]; [done|].
    cbn [session_after]. by rewrite run_stays_authenticated. }
  assert (Hgen : forall acts session,
             session <> Some true ->
             session_after session secret acts = Some true ->
             exists password_input,
               (password_input, true) ∈ acts /\ secret = Some (VStr password_input)).
  { induction acts as [|[input pressed] acts IH]; intros session Hs; [done|].
    cbn [session_after].
    destruct (fst (run session secret input pressed)) eqn:E.
    - intros _. destruct (run_authenticated _ _ _ _ E) as [?|[-> Hsec]]; [done|].
      exists input. split; [left | done].
    - intros H. destruct (IH (Some false) ltac:(done) H) as (p & Hp & Hsec).
      exists p. split; [by right | done]. }
  split; [by apply Hgen|]. split; [by apply Hgen | apply Hstay].
Qed.

Lemma authenticated_only_by_the_password_witness :
  session_after None (Some (VStr (lit "s3cret")))
    [(lit "guess", true); (lit "s3cret", true); ([], false)] = Some true
  /\ exists password_input,
       (password_input, true)
         ∈ [(lit "guess", true); (lit "s3cret", true); ([], false)]
       /\ Some (VStr (lit "s3cret")) = Some (VStr password_input).
Proof.
  assert (H : session_after None (Some (VStr (lit "s3cret")))
    [(lit "guess", true); (lit "s3cret", true); ([], false)] = Some true)
    by reflexivity.
  split; [exact H|].
  exact (proj1 (authenticated_only_by_the_password _ _) H).
Defined.
